(** * psdemuxer: a shallow embedding of the MPEG-2 Program Stream demultiplexer

    The development follows the Python package [psdemuxer]:

    - [psdemuxer/io/bits.py]       : [BitStreamReader]
    - [psdemuxer/io/__init__.py]   : [SegmentInfo], [StreamReader]
    - [psdemuxer/pack/__init__.py] : [PackStartHeader]
    - [psdemuxer/pack/pes/*.py]    : [FlagData] and the PES sub-headers
    - [psdemuxer/streams/private/dvdac3.py], [ps2pcm.py] : the recognizers
    - [psdemuxer/streams/video/mpeg2video.py] : [MPEG2Video.__init__]

    Python integers are unbounded, so they are [Z]; [bytes] and [bytearray]
    are [list byte]; a file object is a record holding its content and its
    cursor; a raised exception is the [Raise] outcome of a computation. *)

From Stdlib Require Import String Ascii DecimalString.
From Stdlib Require Import ZArith List Lia Bool Strings.Byte.
Import ListNotations.
Open Scope Z_scope.

(* ================================================================== *)
(** * Python primitives *)
(* ================================================================== *)

(** The exceptions the modelled code can raise.  The first three are the
    classes of [psdemuxer/exceptions.py]; [WrongPrivateStream] is imported
    by the recognizers from [psdemuxer.streams]; the others are Python's
    built-in exceptions. *)
Inductive exn : Type :=
| MPEG2FileFormatException
| InvalidFixedBitsException
| InvalidMarkerException
| WrongPrivateStream
| AssertionError
| IndexError
| ValueError
| TypeError
| OverflowError
| OSError
| ZeroDivisionError
| RuntimeError.

(** Outcome of a call: a returned value or a raised exception. *)
Inductive outcome (A : Type) : Type :=
| Ok (a : A)
| Raise (e : exn).
Arguments Ok {A} a.
Arguments Raise {A} e.

Definition is_ok {A} (o : outcome A) : bool :=
  match o with Ok _ => true | Raise _ => false end.

Definition exn_eqb (a b : exn) : bool :=
  match a, b with
  | MPEG2FileFormatException, MPEG2FileFormatException
  | InvalidFixedBitsException, InvalidFixedBitsException
  | InvalidMarkerException, InvalidMarkerException
  | WrongPrivateStream, WrongPrivateStream
  | AssertionError, AssertionError
  | IndexError, IndexError
  | ValueError, ValueError
  | TypeError, TypeError
  | OverflowError, OverflowError
  | OSError, OSError
  | ZeroDivisionError, ZeroDivisionError
  | RuntimeError, RuntimeError => true
  | _, _ => false
  end.

Definition raises {A} (o : outcome A) (e : exn) : bool :=
  match o with Ok _ => false | Raise e' => exn_eqb e' e end.

(** An element of a [bytes] object, as the integer Python gives for [data[i]]. *)
Definition byte_val (b : byte) : Z := Z.of_N (Byte.to_N b).

Definition len {A} (l : list A) : Z := Z.of_nat (length l).

(** [l[i]] on a Python sequence: a negative index counts from the end, an
    index out of range raises [IndexError]. *)
Definition py_index {A} (l : list A) (i : Z) : outcome A :=
  let j := if i <? 0 then len l + i else i in
  if (j <? 0) || (len l <=? j) then Raise IndexError
  else match nth_error l (Z.to_nat j) with
       | Some a => Ok a
       | None => Raise IndexError
       end.

(** [data[i]] on a [bytearray] of known, fixed size (the headers are
    allocated with [bytearray(n)] and only read at constant indices below
    [n]); a missing element reads as 0 as in the zero-filled array. *)
Definition at_ (data : list byte) (i : nat) : Z :=
  byte_val (nth i data x00).

(** [l[a:b]] on a Python sequence. *)
Definition slice_bound {A} (l : list A) (i : Z) : Z :=
  if i <? 0 then Z.max 0 (len l + i) else Z.min i (len l).

Definition py_slice {A} (l : list A) (a b : Z) : list A :=
  let a' := slice_bound l a in
  let b' := slice_bound l b in
  firstn (Z.to_nat (b' - a')) (skipn (Z.to_nat a') l).

(** [(x & mask) >> shift], the field accessor used by every header. *)
Definition field (x mask shift : Z) : Z := Z.shiftr (Z.land x mask) shift.

Definition bytes_eqb (a b : list byte) : bool :=
  if list_eq_dec Byte.byte_eq_dec a b then true else false.

(* ================================================================== *)
(** * File objects *)
(* ================================================================== *)

(** A binary file opened for reading ([BufferedReader], [BytesIO]): its
    content and its cursor.  The cursor is never negative ([seek] to a
    negative absolute position raises), and may lie beyond the end. *)
Record Handle : Type := mkHandle {
  h_data : list byte;
  h_pos : nat
}.

Definition open_bytes (content : list byte) : Handle :=
  mkHandle content 0.

Definition h_tell (h : Handle) : Z := Z.of_nat (h_pos h).

(** The part of the content that lies after the cursor. *)
Definition remaining (h : Handle) : list byte := skipn (h_pos h) (h_data h).

(** [fh.seek(p)], [os.SEEK_SET].  A negative position is refused
    ([OSError] by a file, [ValueError] by a [BytesIO]; the model has the
    first for both). *)
Definition h_seek (p : Z) (h : Handle) : outcome Z * Handle :=
  if p <? 0 then (Raise OSError, h)
  else (Ok p, mkHandle (h_data h) (Z.to_nat p)).

(** [fh.seek(d, os.SEEK_CUR)]. *)
Definition h_seek_cur (d : Z) (h : Handle) : outcome Z * Handle :=
  h_seek (h_tell h + d) h.

(** [fh.read(n)]: up to [n] bytes from the cursor, fewer at end of file;
    a negative [n] (Python's [read(-1)]) reads to the end of the file.
    (A [BufferedReader] refuses a negative count other than -1 with
    [ValueError], where a [BytesIO] reads to the end; no count below -1
    occurs in what is proved here.) *)
Definition h_read (n : Z) (h : Handle) : list byte * Handle :=
  let rest := remaining h in
  let got := if n <? 0 then rest else firstn (Z.to_nat n) rest in
  (got, mkHandle (h_data h) (h_pos h + length got)).

(** [buf = bytearray(n); fh.readinto(buf)]: the bytes read, followed by
    the zeros left in the array when the file is shorter. *)
Definition h_readinto (n : nat) (h : Handle) : list byte * Handle :=
  let (got, h') := h_read (Z.of_nat n) h in
  (got ++ repeat x00 (n - length got), h').

(** [utils.peek(fh, size)]: the next [size] bytes without consuming them.
    When the file is too short, the fallback reads what is left, seeks
    back by [size] (which raises when that is before the start) and the
    final [assert] fails. *)
Definition peek (size : nat) (h : Handle) : outcome (list byte) * Handle :=
  let (got, h') := h_read (Z.of_nat size) h in
  if (length got =? size)%nat then (Ok got, h)
  else match h_seek_cur (- Z.of_nat size) h' with
       | (Raise e, h'') => (Raise e, h'')
       | (Ok _, h'') => (Raise AssertionError, h'')
       end.

(** Computations on one file object: a state monad over the handle whose
    result is an outcome.  The handle is returned also when the
    computation raises, as [try ... finally] needs it. *)
Definition IO (A : Type) : Type := Handle -> outcome A * Handle.

Definition ret {A} (a : A) : IO A := fun h => (Ok a, h).

Definition raise {A} (e : exn) : IO A := fun h => (Raise e, h).

Definition bind {A B} (m : IO A) (k : A -> IO B) : IO B :=
  fun h => match m h with
           | (Ok a, h') => k a h'
           | (Raise e, h') => (Raise e, h')
           end.

Definition lift {A} (f : Handle -> A * Handle) : IO A :=
  fun h => let (a, h') := f h in (Ok a, h').

(** [try: body finally: cleanup]: the cleanup runs on both outcomes; an
    exception of the cleanup replaces the outcome of the body. *)
Definition try_finally {A} (body : IO A) (cleanup : IO unit) : IO A :=
  fun h => let (r, h') := body h in
           match cleanup h' with
           | (Ok _, h'') => (r, h'')
           | (Raise e, h'') => (Raise e, h'')
           end.

(** A computation that leaves the content of the file as it is. *)
Definition keeps_data {A} (m : IO A) : Prop :=
  forall h, h_data (snd (m h)) = h_data h.

Declare Scope io_scope.
Delimit Scope io_scope with io.
Notation "x <- m ;; k" := (bind m (fun x => k))
  (at level 61, m at next level, right associativity) : io_scope.
Notation "m ;;; k" := (bind m (fun _ => k))
  (at level 61, right associativity) : io_scope.

Definition tell : IO Z := fun h => (Ok (h_tell h), h).
Definition seek (p : Z) : IO Z := h_seek p.
Definition seek_cur (d : Z) : IO Z := h_seek_cur d.
Definition read (n : Z) : IO (list byte) := lift (h_read n).
Definition readinto (n : nat) : IO (list byte) := lift (h_readinto n).
Definition assert_ (c : bool) : IO unit :=
  if c then ret tt else raise AssertionError.

(** Sequencing of calls that may raise, without a file object. *)
Definition obind {A B} (m : outcome A) (k : A -> outcome B) : outcome B :=
  match m with
  | Ok a => k a
  | Raise e => Raise e
  end.

Notation "'let*' x := m 'in' k" := (obind m (fun x => k))
  (at level 10, x pattern, m at level 100, k at level 200).

(** [x << n]: Python raises [ValueError] on a negative shift count. *)
Definition py_shiftl (x n : Z) : outcome Z :=
  if n <? 0 then Raise ValueError else Ok (Z.shiftl x n).

(* ================================================================== *)
(** * psdemuxer/io/bits.py *)
(* ================================================================== *)

Module BitStreamReader.

Record t : Type := mk {
  _fh : Handle;
  _keep_data : bool;
  _position : Z;
  _current_byte : Z;
  _data : option (list byte)
}.

Definition __init__ (fh : Handle) (keep_data : bool) : t :=
  mk fh keep_data 0 0 (if keep_data then Some [] else None).

(** The least integer that [float(n)] refuses with [OverflowError]: it
    rounds to [2**1024]. *)
Definition float_overflow : Z := 2 ^ 1024 - 2 ^ 970.

(** [_make_mask(num, pos)].  For a negative [num], [2**num] is computed
    in floating point: the conversion of [num] raises [OverflowError]
    when [num <= -float_overflow]; otherwise [2**num] is a float and the
    shift raises [TypeError].  The shift count [8 - num - pos] is not
    negative once the first test has passed. *)
Definition _make_mask (num pos : Z) : outcome (Z * Z) :=
  if 8 <? num + pos then Raise ValueError
  else if num <=? - float_overflow then Raise OverflowError
  else if num <? 0 then Raise TypeError
  else
    let mask := Z.shiftl (2 ^ num - 1) (8 - num - pos) in
    let shift := 8 - num - pos in
    Ok (mask, shift).

(** [self._data.write(bs)] when the side buffer is kept. *)
Definition data_write (d : option (list byte)) (bs : list byte)
  : option (list byte) :=
  match d with
  | Some acc => Some (acc ++ bs)
  | None => None
  end.

(** The local variables the [for extra_byte in extra_bytes] loop of
    [read] updates. *)
Record locals : Type := mkLocals {
  value : Z;
  bits_left_to_shift : Z;
  extra_bits_to_read : Z;
  new_pos : Z;
  current_byte : Z
}.

Fixpoint for_extra_bytes (extra_bytes : list byte) (s : locals)
  : outcome locals :=
  match extra_bytes with
  | [] => Ok s
  | extra_byte :: rest =>
      let num := Z.min 8 (extra_bits_to_read s) in
      let* (mask, right_shift) := _make_mask num 0 in
      let left_shift := bits_left_to_shift s - num in
      let* piece :=
        py_shiftl (field (byte_val extra_byte) mask right_shift) left_shift in
      for_extra_bytes rest
        (mkLocals (Z.lor (value s) piece)
                  (bits_left_to_shift s - num)
                  (extra_bits_to_read s - num)
                  (num mod 8)
                  (byte_val extra_byte))
  end.

(** The first block of [read]: a byte is fetched when the bit cursor is
    at a byte boundary; [data[0]] raises [IndexError] at end of file. *)
Definition fetch (r : t) : outcome t :=
  if _position r =? 0 then
    let (data, fh1) := h_read 1 (_fh r) in
    let* b := py_index data 0 in
    Ok (mk fh1 (_keep_data r) (_position r) (byte_val b)
           (data_write (_data r) data))
  else Ok r.

(** [BitStreamReader.read(size)].  [ceil(x / 8)] is computed in floating
    point by the source; for [0 <= x < 2^53] the quotient is exact and the
    result is [(x + 7) / 8], which is what the model takes. *)
Definition read (size : Z) (r : t) : outcome (Z * t) :=
  let* r1 := fetch r in
  let bits_in_current_pos := 8 - _position r1 in
  let extra_bits := Z.max 0 (size - bits_in_current_pos) in
  let extra_byte_num := (extra_bits + 7) / 8 in
  let (extra_bytes, fh2) := h_read extra_byte_num (_fh r1) in
  let num := Z.min size bits_in_current_pos in
  let* (mask, right_shift) := _make_mask num (_position r1) in
  let left_shift := size - num in
  let* piece :=
    py_shiftl (field (_current_byte r1) mask right_shift) left_shift in
  let* s :=
    for_extra_bytes extra_bytes
      (mkLocals (Z.lor 0 piece) (size - num) extra_bits
                ((_position r1 + num) mod 8) (_current_byte r1)) in
  Ok (value s,
      mk fh2 (_keep_data r1) (new_pos s) (current_byte s)
         (data_write (_data r1) extra_bytes)).

(** A sequence of calls [read(k1)], ..., [read(kn)] on one reader, as in
    the loop of [test_bit_read]; the values read, in order. *)
Fixpoint read_all (sizes : list Z) (r : t) : outcome (list Z * t) :=
  match sizes with
  | [] => Ok ([], r)
  | k :: rest =>
      let* (v, r1) := read k r in
      let* (vs, r2) := read_all rest r1 in
      Ok (v :: vs, r2)
  end.

(** ** The reference the reader is compared with

    The source bytes written out as one bit string, most significant
    bit of each byte first, cut into consecutive chunks of the requested
    widths, each chunk read as an unsigned binary number. *)

(** The [n] low bits of [c], most significant first. *)
Fixpoint low_bits (n : nat) (c : Z) : list bool :=
  match n with
  | O => []
  | S m => Z.testbit c (Z.of_nat m) :: low_bits m c
  end.

Definition byte_bits (b : byte) : list bool := low_bits 8 (byte_val b).

Definition bit_string (bs : list byte) : list bool :=
  flat_map byte_bits bs.

Fixpoint chunks (widths : list Z) (bits : list bool) : list (list bool) :=
  match widths with
  | [] => []
  | k :: rest =>
      firstn (Z.to_nat k) bits :: chunks rest (skipn (Z.to_nat k) bits)
  end.

Definition msb_value (chunk : list bool) : Z :=
  fold_left (fun acc b => 2 * acc + Z.b2z b) chunk 0.

Definition spec_values (widths : list Z) (bs : list byte) : list Z :=
  map msb_value (chunks widths (bit_string bs)).

(** ** The state of a reader between two calls

    The bit cursor stays inside the current byte, and the bits not yet
    delivered are the unread bits of the current byte followed by the
    bits of the bytes not yet fetched. *)
Definition wf (r : t) : Prop := 0 <= _position r < 8.

Definition pending (r : t) : list bool :=
  (if _position r =? 0 then []
   else skipn (Z.to_nat (_position r)) (low_bits 8 (_current_byte r)))
  ++ bit_string (remaining (_fh r)).

End BitStreamReader.


(* ================================================================== *)
(** * psdemuxer/io/__init__.py *)
(* ================================================================== *)

(** [os.SEEK_SET], [os.SEEK_CUR], [os.SEEK_END]. *)
Definition SEEK_SET : Z := 0.
Definition SEEK_CUR : Z := 1.
Definition SEEK_END : Z := 2.

(** [bisect.bisect(a, x, key=...)] of the standard library
    ([bisect_right] with [lo = 0], [hi = len(a)]), on the list of the keys
    of [a].  The loop halves [hi - lo], so [length keys] rounds are
    enough for it to finish. *)
Fixpoint bisect_loop (rounds : nat) (keys : list Z) (x : Z) (lo hi : nat)
  : nat :=
  match rounds with
  | O => lo
  | S rounds' =>
      if (lo <? hi)%nat then
        let mid := ((lo + hi) / 2)%nat in
        if x <? nth mid keys 0 then bisect_loop rounds' keys x lo mid
        else bisect_loop rounds' keys x (S mid) hi
      else lo
  end.

Definition bisect (keys : list Z) (x : Z) : Z :=
  Z.of_nat (bisect_loop (length keys) keys x 0 (length keys)).

(** The keys are in non-decreasing order. *)
Definition sorted (keys : list Z) : Prop :=
  forall i j, (i <= j < length keys)%nat -> nth i keys 0 <= nth j keys 0.

(** A segment refers to a file object; several segments may refer to the
    same one and then share its cursor.  File objects are named by a
    number, and [Files] gives the current state of each. *)
Definition Files : Type := nat -> Handle.

Definition set_file (fs : Files) (i : nat) (h : Handle) : Files :=
  fun j => if Nat.eqb j i then h else fs j.

(** The files hold the same bytes; only cursors may differ. *)
Definition same_data (fs fs' : Files) : Prop :=
  forall i, h_data (fs i) = h_data (fs' i).

Record SegmentInfo : Type := mkSegmentInfo {
  fh : nat;
  real_address : Z;
  virtual_start : Z;
  data_size : Z
}.

Definition d0 : SegmentInfo := mkSegmentInfo 0 0 0 0.

Module StreamReader.

Record t : Type := mk {
  segment_info : list SegmentInfo;
  total_size : Z;
  position : Z;
  offset : Z
}.

Definition __init__ (segment_info : list SegmentInfo) : t :=
  mk segment_info
     (fold_left (fun total segment => total + data_size segment)
                segment_info 0)
     0 0.

Definition _current_virtual_pos (r : t) : outcome Z :=
  if len (segment_info r) <=? position r then
    let* last := py_index (segment_info r) (-1) in
    Ok (virtual_start last + data_size last)
  else
    let* segment := py_index (segment_info r) (position r) in
    Ok (virtual_start segment + offset r).

Definition tell (r : t) : outcome Z := _current_virtual_pos r.

(** The [while] loop of [read].  It need not end (a file object that has
    no more bytes for a segment returns [b""] for ever), so the loop is
    run for at most [fuel] rounds: [None] when they do not suffice. *)
Fixpoint while_left (fuel : nat) (r : t) (fs : Files) (left : Z)
    (data : list byte) : option (outcome (list byte * t * Files)) :=
  if (0 <? left) && (position r <? len (segment_info r)) then
    match fuel with
    | O => None
    | S fuel' =>
        match py_index (segment_info r) (position r) with
        | Raise e => Some (Raise e)
        | Ok segment =>
            let to_read := Z.min left (data_size segment - offset r) in
            match h_seek (real_address segment + offset r)
                         (fs (fh segment)) with
            | (Raise e, _) => Some (Raise e)
            | (Ok _, h1) =>
                let (data_read, h2) := h_read to_read h1 in
                let fs' := set_file fs (fh segment) h2 in
                let offset' := offset r + len data_read in
                let r' :=
                  if data_size segment <=? offset' then
                    mk (segment_info r) (total_size r) (position r + 1) 0
                  else
                    mk (segment_info r) (total_size r) (position r) offset'
                in
                while_left fuel' r' fs' (left - len data_read)
                           (data ++ data_read)
            end
        end
    end
  else Some (Ok (data, r, fs)).

Definition read (fuel : nat) (size : Z) (r : t) (fs : Files)
  : option (outcome (list byte * t * Files)) :=
  match (if size <? 0 then
           let* cur := _current_virtual_pos r in Ok (total_size r - cur)
         else Ok size) with
  | Raise e => Some (Raise e)
  | Ok size' => while_left fuel r fs size' []
  end.

Definition _find_seek_position (r : t) (offset : Z) : Z :=
  let insertion_point :=
    bisect (map virtual_start (segment_info r)) offset in
  insertion_point - 1.

Definition seek (offset whence : Z) (r : t) : outcome (Z * t) :=
  let* offset' :=
    (if whence =? SEEK_SET then
       Ok (Z.min (Z.max 0 offset) (total_size r))
     else if whence =? SEEK_CUR then
       let* cur := _current_virtual_pos r in
       Ok (Z.min (offset + cur) (total_size r))
     else if whence =? SEEK_END then
       Ok (Z.max 0 (total_size r + Z.min offset 0))
     else Raise ValueError) in
  let position' := _find_seek_position r offset' in
  let* segment := py_index (segment_info r) position' in
  Ok (offset',
      mk (segment_info r) (total_size r) position'
         (offset' - virtual_start segment)).

(** [seek(a)] followed by [read(n)] on the same reader. *)
Definition seek_read (fuel : nat) (a n : Z) (r : t) (fs : Files)
  : option (outcome (list byte * t * Files)) :=
  match seek a SEEK_SET r with
  | Raise e => Some (Raise e)
  | Ok (_, r') => read fuel n r' fs
  end.

(** ** Well-formed segment lists *)

(** The virtual ranges follow one another from [v] on, none of negative
    length. *)
Fixpoint contiguous_from (v : Z) (segs : list SegmentInfo) : Prop :=
  match segs with
  | [] => True
  | s :: rest =>
      virtual_start s = v /\ 0 <= data_size s
      /\ contiguous_from (v + data_size s) rest
  end.

Definition contiguous (segs : list SegmentInfo) : Prop :=
  contiguous_from 0 segs.

(** Every segment lies inside the content of its file object. *)
Definition backed (fs : Files) (segs : list SegmentInfo) : Prop :=
  Forall (fun s => 0 <= real_address s
                   /\ real_address s + data_size s
                      <= len (h_data (fs (fh s)))) segs.

Definition total (segs : list SegmentInfo) : Z :=
  fold_right (fun s acc => data_size s + acc) 0 segs.

(** The bytes a segment stands for, and the virtual stream. *)
Definition segment_bytes (fs : Files) (s : SegmentInfo) : list byte :=
  firstn (Z.to_nat (data_size s))
         (skipn (Z.to_nat (real_address s)) (h_data (fs (fh s)))).

Definition content (fs : Files) (segs : list SegmentInfo) : list byte :=
  concat (map (segment_bytes fs) segs).

End StreamReader.

(* ================================================================== *)
(** * psdemuxer/constants.py *)
(* ================================================================== *)

Definition start_code_prefix : list byte := [x00; x00; x01].
Definition packet_start_code_prefix : list byte := start_code_prefix.
Definition system_header_start_code : list byte := [x00; x00; x01; xbb].
Definition program_end_code : list byte := [x00; x00; x01; xb9].

Definition stream_ids : list (Z * string) :=
  [ (0xBC, "program_stream_map");
    (0xBD, "private_stream_1");
    (0xBE, "padding_stream");
    (0xBF, "private_stream_2");
    (0xF0, "ECM_stream");
    (0xF1, "EMM_stream");
    (0xF2, "Rec. ITU-T H.222.0 | ISO/IEC 13818-1 Annex A or ISO/IEC 13818-6_DSMCC_stream");
    (0xF3, "ISO/IEC_13522_stream");
    (0xF4, "ISO/Rec. ITU-T H.222.1 type A");
    (0xF5, "ISO/Rec. ITU-T H.222.1 type B");
    (0xF6, "ISO/Rec. ITU-T H.222.1 type C");
    (0xF7, "ISO/Rec. ITU-T H.222.1 type D");
    (0xF8, "ISO/Rec. ITU-T H.222.1 type E");
    (0xF9, "ancillary_stream");
    (0xFA, "ISO/IEC 14496-1_SL-packetized_stream");
    (0xFB, "ISO/IEC 14496-1_FlexMux_stream");
    (0xFC, "metadata stream");
    (0xFD, "extended_stream_id");
    (0xFE, "reserved data stream");
    (0xFF, "program_stream_directory") ]%string.

Definition get_audio_stream_number (stream_id : Z) : Z :=
  if (0xC0 <=? stream_id) && (stream_id <=? 0xDF)
  then Z.land stream_id 0x1F else -1.

Definition get_video_stream_number (stream_id : Z) : Z :=
  if (0xE0 <=? stream_id) && (stream_id <=? 0xEF)
  then Z.land stream_id 0x0F else -1.

(** [f"{num}"] for a number that is not negative. *)
Definition decimal (num : Z) : string :=
  NilZero.string_of_uint (N.to_uint (Z.to_N num)).

Definition get_stream_name_by_id (stream_id : Z) : option string :=
  if 0 <=? get_audio_stream_number stream_id then
    Some ("audio stream number " ++ decimal (get_audio_stream_number stream_id))%string
  else if 0 <=? get_video_stream_number stream_id then
    Some ("video stream number " ++ decimal (get_video_stream_number stream_id))%string
  else
    option_map snd (find (fun kv => fst kv =? stream_id) stream_ids).

(** [range(0xBC, 0xFF + 1)] *)
Definition stream_id_range : list Z :=
  map (fun i => 0xBC + Z.of_nat i) (seq 0 68).

Definition get_stream_id_by_name (name : string) : option Z :=
  find (fun num => match get_stream_name_by_id num with
                   | Some stream_name => String.eqb name stream_name
                   | None => false
                   end)
       stream_id_range.

(** [x == _s(name)] with [_s = get_stream_id_by_name]: an integer is not
    equal to [None]. *)
Definition is_stream (x : Z) (name : string) : bool :=
  match get_stream_id_by_name name with
  | Some num => x =? num
  | None => false
  end.

(* ================================================================== *)
(** * psdemuxer/pack/pes: the optional fields of a PES header *)
(* ================================================================== *)

(** Each class keeps the bytes it has read in [self.data]; its properties
    are fields of those bytes.  A constructor is a computation on the file
    object.  Binary masks of the source are written in hexadecimal. *)

Local Open Scope io_scope.

(** [if flag == 1: self.x = C(self, fh)], the attribute staying [None]
    otherwise. *)
Definition when {A} (flag : Z) (c : IO A) : IO (option A) :=
  if flag =? 1 then (a <- c ;; ret (Some a)) else ret None.

(** psdemuxer/pack/pes/ptsdts.py *)
Module FlagPTS.
Record t : Type := mk { data : list byte }.

Definition b_0010 (data : list byte) : Z := field (at_ data 0) 0xF0 4.

Definition pts (data : list byte) : Z :=
  Z.lor (Z.lor (Z.lor (Z.lor
    (Z.shiftl (field (at_ data 0) 0x0E 1) 30)
    (Z.shiftl (field (at_ data 1) 0xFF 0) 22))
    (Z.shiftl (field (at_ data 2) 0xFE 1) 15))
    (Z.shiftl (field (at_ data 3) 0xFF 0) 7))
    (Z.shiftl (field (at_ data 4) 0xFE 1) 0).

Definition c0 (data : list byte) : Z := field (at_ data 0) 0x01 0.
Definition c1 (data : list byte) : Z := field (at_ data 2) 0x01 0.
Definition c2 (data : list byte) : Z := field (at_ data 4) 0x01 0.

Definition __init__ : IO t :=
  data <- readinto 5 ;;
  if negb (b_0010 data =? 2) then raise InvalidFixedBitsException
  else ret (mk data).
End FlagPTS.

Module FlagPTSDTS.
Record t : Type := mk { data : list byte }.

Definition b_0011 (data : list byte) : Z := field (at_ data 0) 0xF0 4.
Definition b_0001 (data : list byte) : Z := field (at_ data 5) 0xF0 4.

Definition pts (data : list byte) : Z :=
  Z.lor (Z.lor (Z.lor (Z.lor
    (Z.shiftl (field (at_ data 0) 0x0E 1) 30)
    (Z.shiftl (field (at_ data 1) 0xFF 0) 22))
    (Z.shiftl (field (at_ data 2) 0xFE 1) 15))
    (Z.shiftl (field (at_ data 3) 0xFF 0) 7))
    (Z.shiftl (field (at_ data 4) 0xFE 1) 0).

Definition dts (data : list byte) : Z :=
  Z.lor (Z.lor (Z.lor (Z.lor
    (Z.shiftl (field (at_ data 5) 0x0E 1) 30)
    (Z.shiftl (field (at_ data 6) 0xFF 0) 22))
    (Z.shiftl (field (at_ data 7) 0xFE 1) 15))
    (Z.shiftl (field (at_ data 8) 0xFF 0) 7))
    (Z.shiftl (field (at_ data 9) 0xFE 1) 0).

Definition c0 (data : list byte) : Z := field (at_ data 0) 0x01 0.
Definition c1 (data : list byte) : Z := field (at_ data 2) 0x01 0.
Definition c2 (data : list byte) : Z := field (at_ data 4) 0x01 0.
Definition c3 (data : list byte) : Z := field (at_ data 5) 0x01 0.
Definition c4 (data : list byte) : Z := field (at_ data 7) 0x01 0.
Definition c5 (data : list byte) : Z := field (at_ data 9) 0x01 0.

Definition __init__ : IO t :=
  data <- readinto 10 ;;
  if negb (b_0011 data =? 3) || negb (b_0001 data =? 1)
  then raise InvalidFixedBitsException
  else ret (mk data).
End FlagPTSDTS.

(** psdemuxer/pack/pes/escr.py *)
Module FlagESCR.
Record t : Type := mk { data : list byte }.

Definition reserved (data : list byte) : Z := field (at_ data 0) 0xC0 6.

Definition escr_base (data : list byte) : Z :=
  Z.lor (Z.lor (Z.lor (Z.lor (Z.lor (Z.lor
    (Z.shiftl (field (at_ data 0) 0x38 3) 30)
    (Z.shiftl (field (at_ data 0) 0x03 0) 28))
    (Z.shiftl (field (at_ data 1) 0xFF 0) 20))
    (Z.shiftl (field (at_ data 2) 0xF8 3) 15))
    (Z.shiftl (field (at_ data 2) 0x03 0) 13))
    (Z.shiftl (field (at_ data 3) 0xFF 0) 5))
    (Z.shiftl (field (at_ data 4) 0xF8 3) 0).

Definition escr_ext (data : list byte) : Z :=
  Z.lor (Z.shiftl (field (at_ data 4) 0x03 0) 7)
        (Z.shiftl (field (at_ data 4) 0xFE 1) 0).

Definition c0 (data : list byte) : Z := field (at_ data 0) 0x04 2.
Definition c1 (data : list byte) : Z := field (at_ data 2) 0x04 2.
Definition c2 (data : list byte) : Z := field (at_ data 4) 0x04 2.
Definition c3 (data : list byte) : Z := field (at_ data 4) 0x01 0.

Definition __init__ : IO t :=
  data <- readinto 6 ;; ret (mk data).
End FlagESCR.

(** psdemuxer/pack/pes/esrate.py *)
Module FlagESRate.
Record t : Type := mk { data : list byte }.

Definition es_rate (data : list byte) : Z :=
  Z.lor (Z.lor
    (Z.shiftl (field (at_ data 0) 0x7F 0) 15)
    (Z.shiftl (field (at_ data 1) 0xFF 0) 7))
    (Z.shiftl (field (at_ data 2) 0xFE 1) 0).

Definition c0 (data : list byte) : Z := field (at_ data 0) 0x80 7.
Definition c1 (data : list byte) : Z := field (at_ data 2) 0x01 0.

Definition __init__ : IO t :=
  data <- readinto 3 ;; ret (mk data).
End FlagESRate.

(** psdemuxer/pack/pes/dms.py *)
Module DMSTrickModeControl.
(** Which of the [DMSTrickMode...] classes wraps the byte. *)
Inductive tmc : Type :=
| DMSTrickModeFastForward
| DMSTrickModeSlowMotion
| DMSTrickModeFreezeFrame
| DMSTrickModeFastReverse
| DMSTrickModeSlowReverse
| DMSTrickModeReserved.

Record t : Type := mk { data : list byte; tmc_ : tmc }.

Definition trick_mode_control (data : list byte) : Z :=
  field (at_ data 0) 0xE0 5.

Definition __init__ : IO t :=
  data <- readinto 1 ;;
  ret (mk data
         (if trick_mode_control data =? 0 then DMSTrickModeFastForward
          else if trick_mode_control data =? 1 then DMSTrickModeSlowMotion
          else if trick_mode_control data =? 2 then DMSTrickModeFreezeFrame
          else if trick_mode_control data =? 3 then DMSTrickModeFastReverse
          else if trick_mode_control data =? 4 then DMSTrickModeSlowReverse
          else DMSTrickModeReserved)).
End DMSTrickModeControl.

(** psdemuxer/pack/pes/copy.py *)
Module AdditionalCopyInfoFlag.
Record t : Type := mk { data : list byte }.

Definition marker_0 (data : list byte) : Z := field (at_ data 0) 0x80 7.
Definition additional_copy_info (data : list byte) : Z :=
  field (at_ data 0) 0x7F 0.

Definition __init__ : IO t :=
  data <- readinto 1 ;;
  if marker_0 data =? 0 then raise InvalidMarkerException
  else ret (mk data).
End AdditionalCopyInfoFlag.

(** psdemuxer/pack/pes/crc.py *)
Module CRCFlag.
Record t : Type := mk { data : list byte }.

Definition previous_pes_packet_crc (data : list byte) : Z :=
  Z.lor (Z.shiftl (field (at_ data 0) 0xFF 0) 8)
        (Z.shiftl (field (at_ data 1) 0xFF 0) 0).

Definition __init__ : IO t :=
  data <- readinto 2 ;; ret (mk data).
End CRCFlag.

(** psdemuxer/pack/pes/sequence.py *)
Module ProgramPacketSequenceCounter.
Record t : Type := mk { data : list byte }.

Definition marker_0 (data : list byte) : Z := field (at_ data 0) 0x80 7.
Definition program_packet_sequence_counter (data : list byte) : Z :=
  field (at_ data 0) 0x7F 0.
Definition marker_1 (data : list byte) : Z := field (at_ data 1) 0x80 7.
Definition mpeg1_mpeg2_identifier (data : list byte) : Z :=
  field (at_ data 1) 0x40 6.
Definition original_stuff_length (data : list byte) : Z :=
  field (at_ data 1) 0x3F 0.

Definition __init__ : IO t :=
  data <- readinto 2 ;;
  if (marker_0 data =? 0) || (marker_1 data =? 0)
  then raise InvalidMarkerException
  else ret (mk data).
End ProgramPacketSequenceCounter.

(** psdemuxer/pack/pes/stdbuf.py *)
Module PSTDBuffer.
Record t : Type := mk { data : list byte }.

Definition b_01 (data : list byte) : Z := field (at_ data 0) 0xC0 6.
Definition p_std_buffer_scale (data : list byte) : Z :=
  field (at_ data 0) 0x20 5.
Definition p_std_buffer_size (data : list byte) : Z :=
  Z.lor (Z.shiftl (field (at_ data 0) 0x1F 0) 8)
        (Z.shiftl (field (at_ data 1) 0xFF 0) 0).

Definition __init__ : IO t :=
  data <- readinto 2 ;;
  if negb (b_01 data =? 1) then raise InvalidFixedBitsException
  else ret (mk data).
End PSTDBuffer.

(** psdemuxer/pack/pes/extension.py *)
Module TrefExtension.
Record t : Type := mk { data : list byte }.

Definition reserved (data : list byte) : Z := field (at_ data 0) 0xF0 4.
Definition marker_0 (data : list byte) : Z := field (at_ data 0) 0x01 0.
Definition marker_1 (data : list byte) : Z := field (at_ data 2) 0x01 0.
Definition marker_2 (data : list byte) : Z := field (at_ data 4) 0x01 0.

Definition tref (data : list byte) : Z :=
  Z.lor (Z.lor (Z.lor (Z.lor
    (Z.shiftl (field (at_ data 0) 0x0E 1) 30)
    (Z.shiftl (field (at_ data 1) 0xFF 0) 22))
    (Z.shiftl (field (at_ data 2) 0xFE 1) 15))
    (Z.shiftl (field (at_ data 3) 0xFF 0) 7))
    (Z.shiftl (field (at_ data 4) 0xFE 1) 0).

Definition __init__ : IO t :=
  data <- readinto 5 ;;
  if (marker_0 data =? 0) || (marker_1 data =? 0) || (marker_2 data =? 0)
  then raise InvalidMarkerException
  else ret (mk data).
End TrefExtension.

Module StreamIdExtensionReserved.
Record t : Type := mk {
  data : list byte;
  _tref_extension : option TrefExtension.t
}.

Definition reserved (data : list byte) : Z := field (at_ data 1) 0x7E 1.
Definition tref_extension_flag (data : list byte) : Z :=
  field (at_ data 1) 0x01 0.

Definition __init__ (data : list byte) : IO t :=
  if tref_extension_flag data =? 0 then
    tref <- TrefExtension.__init__ ;; ret (mk data (Some tref))
  else ret (mk data None).
End StreamIdExtensionReserved.

Module StreamIdExtension.
Record t : Type := mk { data : list byte }.

Definition stream_id_extension (data : list byte) : Z :=
  field (at_ data 1) 0x7F 0.

Definition __init__ (data : list byte) : t := mk data.
End StreamIdExtension.

Module Extension2.
Record t : Type := mk {
  data : list byte;
  _stream_id_extension : option StreamIdExtension.t;
  _stream_id_extension_reserved : option StreamIdExtensionReserved.t;
  _n3 : Z
}.

Definition marker_0 (data : list byte) : Z := field (at_ data 0) 0x80 7.
Definition pes_extension_field_length (data : list byte) : Z :=
  field (at_ data 0) 0x7F 0.
Definition stream_id_extension_flag (data : list byte) : Z :=
  field (at_ data 1) 0x80 7.

Definition __init__ : IO t :=
  data <- readinto 2 ;;
  if marker_0 data =? 0 then raise InvalidMarkerException
  else
    self <-
      (if stream_id_extension_flag data =? 0 then
         ret (mk data (Some (StreamIdExtension.__init__ data)) None 0)
       else
         res <- StreamIdExtensionReserved.__init__ data ;;
         ret (mk data None (Some res)
                 (if StreamIdExtensionReserved.tref_extension_flag data =? 0
                  then 5 else 0))) ;;
    if 0 <? _n3 self then seek_cur (_n3 self) ;;; ret self
    else ret self.
End Extension2.

Module PrivateData.
Record t : Type := mk { data : list byte }.

Definition __init__ : IO t :=
  data <- readinto 16 ;; ret (mk data).
End PrivateData.

Module ExtensionFlag.
Record t : Type := mk {
  data : list byte;
  _private_data : option PrivateData.t;
  _program_packet_sequence_counter : option ProgramPacketSequenceCounter.t;
  _p_std_buffer : option PSTDBuffer.t;
  _extension_2 : option Extension2.t
}.

Definition pes_private_data_flag (data : list byte) : Z :=
  field (at_ data 0) 0x80 7.
Definition pack_header_field_flag (data : list byte) : Z :=
  field (at_ data 0) 0x40 6.
Definition program_packet_sequence_counter_flag (data : list byte) : Z :=
  field (at_ data 0) 0x20 5.
Definition p_std_buffer_flag (data : list byte) : Z :=
  field (at_ data 0) 0x10 4.
Definition reserved (data : list byte) : Z := field (at_ data 0) 0x0E 1.
Definition pes_extension_flag_2 (data : list byte) : Z :=
  field (at_ data 0) 0x01 0.

Definition __init__ : IO t :=
  data <- readinto 1 ;;
  private_data <- when (pes_private_data_flag data) PrivateData.__init__ ;;
  assert_ (pack_header_field_flag data =? 0) ;;;
  counter <- when (program_packet_sequence_counter_flag data)
                  ProgramPacketSequenceCounter.__init__ ;;
  p_std_buffer <- when (p_std_buffer_flag data) PSTDBuffer.__init__ ;;
  extension_2 <- when (pes_extension_flag_2 data) Extension2.__init__ ;;
  ret (mk data private_data counter p_std_buffer extension_2).
End ExtensionFlag.

(** psdemuxer/pack/pes/flagdata.py *)
Module FlagData.
Inductive pts_dts : Type :=
| PTS (p : FlagPTS.t)
| PTSDTS (p : FlagPTSDTS.t).

Record t : Type := mk {
  data : list byte;
  pes_flag_pts_dts : option pts_dts;
  pes_flag_escr : option FlagESCR.t;
  pes_flag_es_rate : option FlagESRate.t;
  pes_dms_trick_mode_control : option DMSTrickModeControl.t;
  pes_additional_copy_info_flag : option AdditionalCopyInfoFlag.t;
  pes_crc_flag_obj : option CRCFlag.t;
  pes_extension : option ExtensionFlag.t;
  stuffing_bytes : list byte
}.

Definition b_10 (data : list byte) : Z := field (at_ data 0) 0xC0 6.
Definition pes_scrambling_control (data : list byte) : Z :=
  field (at_ data 0) 0x30 4.
Definition pes_priority (data : list byte) : Z := field (at_ data 0) 0x08 3.
Definition data_alignment_indicator (data : list byte) : Z :=
  field (at_ data 0) 0x04 2.
Definition copyright (data : list byte) : Z := field (at_ data 0) 0x02 1.
Definition original_or_copy (data : list byte) : Z :=
  field (at_ data 0) 0x01 0.
Definition pts_dts_flags (data : list byte) : Z :=
  field (at_ data 1) 0xC0 6.
Definition escr_flag (data : list byte) : Z := field (at_ data 1) 0x20 5.
Definition es_rate_flag (data : list byte) : Z := field (at_ data 1) 0x10 4.
Definition dsm_trick_mode_flag (data : list byte) : Z :=
  field (at_ data 1) 0x08 3.
Definition additional_copy_info_flag (data : list byte) : Z :=
  field (at_ data 1) 0x04 2.
Definition pes_crc_flag (data : list byte) : Z := field (at_ data 1) 0x02 1.
Definition pes_extension_flag (data : list byte) : Z :=
  field (at_ data 1) 0x01 0.
Definition pes_header_data_length (data : list byte) : Z :=
  field (at_ data 2) 0xFF 0.

(** The two tests on [pts_dts_flags], one after the other. *)
Definition parse_pts_dts (data : list byte) : IO (option pts_dts) :=
  first <-
    (if pts_dts_flags data =? 2 then
       (p <- FlagPTS.__init__ ;; ret (Some (PTS p)))
     else ret None) ;;
  if pts_dts_flags data =? 3 then
    (p <- FlagPTSDTS.__init__ ;; ret (Some (PTSDTS p)))
  else ret first.

(** The constructor from the ESCR flag on: the other optional fields,
    then the stuffing, whose length is what [pes_header_data_length]
    leaves after the bytes read since [pos]. *)
Definition parse_from_escr (data : list byte) (pos : Z)
    (flag_pts_dts : option pts_dts) : IO t :=
  escr <- when (escr_flag data) FlagESCR.__init__ ;;
  es_rate <- when (es_rate_flag data) FlagESRate.__init__ ;;
  dsm <- when (dsm_trick_mode_flag data)
                            DMSTrickModeControl.__init__ ;;
  copy <- when (additional_copy_info_flag data)
                             AdditionalCopyInfoFlag.__init__ ;;
  crc <- when (pes_crc_flag data) CRCFlag.__init__ ;;
  extension <- when (pes_extension_flag data)
                                  ExtensionFlag.__init__ ;;
  now <- tell ;;
  let bytes_read := now - pos in
  let bytes_left := pes_header_data_length data - bytes_read in
  assert_ (0 <=? bytes_left) ;;;
  stuffing <- read bytes_left ;;
  assert_ (len stuffing =? bytes_left) ;;;
  assert_ (bytes_eqb stuffing (repeat xff (Z.to_nat bytes_left))) ;;;
  ret (mk data flag_pts_dts escr es_rate dsm copy crc extension stuffing).

Definition __init__ : IO t :=
  data <- readinto 3 ;;
  if negb (b_10 data =? 2) then raise InvalidFixedBitsException
  else
    pos <- tell ;;
    flag_pts_dts <- parse_pts_dts data ;;
    parse_from_escr data pos flag_pts_dts.
End FlagData.

(* ================================================================== *)
(** * psdemuxer/pack/pes/__init__.py *)
(* ================================================================== *)

Module PESPacket.

Record t : Type := mk {
  no : Z;
  pos : Z;
  data : list byte;
  flag_data : option FlagData.t;
  header_length : Z;
  _private_stream_id : option Z;
  pes_packet_data_bytes_n : Z
}.

Definition packet_start_code_prefix_ (data : list byte) : list byte :=
  py_slice data 0 3.
Definition stream_id_ (data : list byte) : Z := at_ data 3.
Definition pes_packet_length (data : list byte) : Z :=
  Z.lor (Z.shiftl (at_ data 4) 8) (at_ data 5).
Definition pes_full_packet_length (data : list byte) : Z :=
  6 + pes_packet_length data.

Definition stream_id (self : t) : Z := stream_id_ (data self).

(** [PESPacket(psh, fh)]; [pkt_no] is the class counter
    [PESPacket.pkt_no] at the call. *)
Definition __init__ (pkt_no : Z) : IO t :=
  self_pos <- tell ;;
  data <- readinto 6 ;;
  pos <- tell ;;
  let sid := stream_id_ data in
  if negb (is_stream sid "program_stream_map")
     && negb (is_stream sid "padding_stream")
     && negb (is_stream sid "private_stream_2")
     && negb (is_stream sid "ECM_stream")
     && negb (is_stream sid "EMM_stream")
     && negb (is_stream sid "program_stream_directory")
     && negb (is_stream sid "DSMCC_stream")
     && negb (is_stream sid "ISO/Rec. ITU-T H.222.1 type E")
  then
    flag_data <- FlagData.__init__ ;;
    now <- tell ;;
    let bytes_read := now - pos in
    let bytes_left := pes_packet_length data - bytes_read in
    now' <- tell ;;
    let header_length := now' - self_pos in
    private_stream_id <-
      (if is_stream sid "private_stream_1" then
         (next <- peek 1 ;; ret (Some (at_ next 0)))
       else ret None) ;;
    seek_cur bytes_left ;;;
    ret (mk pkt_no self_pos data (Some flag_data) header_length
            private_stream_id bytes_left)
  else if is_stream sid "program_stream_map"
          || is_stream sid "ECM_stream"
          || is_stream sid "EMM_stream"
          || is_stream sid "program_stream_directory"
          || is_stream sid "DSMCC_stream"
          || is_stream sid "ISO/Rec. ITU-T H.222.1 type E"
  then
    now <- tell ;;
    let bytes_read := now - pos in
    let bytes_left := pes_packet_length data - bytes_read in
    now' <- tell ;;
    let header_length := now' - self_pos in
    seek_cur bytes_left ;;;
    ret (mk pkt_no self_pos data None header_length None bytes_left)
  else if is_stream sid "padding_stream" then
    now <- tell ;;
    let header_length := now - self_pos in
    seek_cur (pes_packet_length data) ;;;
    ret (mk pkt_no self_pos data None header_length None
            (pes_packet_length data))
  else raise RuntimeError.

End PESPacket.

(* ================================================================== *)
(** * psdemuxer/pack/system *)
(* ================================================================== *)

(** Computations that contain a loop which need not end are run for a
    number of rounds: [None] when the rounds do not suffice. *)
Definition LIO (A : Type) : Type := Handle -> option (outcome A * Handle).

Definition run {A} (m : IO A) : LIO A := fun h => Some (m h).

Definition lbind {A B} (m : LIO A) (k : A -> LIO B) : LIO B :=
  fun h => match m h with
           | None => None
           | Some (Ok a, h') => k a h'
           | Some (Raise e, h') => Some (Raise e, h')
           end.

Declare Scope lio_scope.
Delimit Scope lio_scope with lio.
Notation "x <- m ;; k" := (lbind m (fun x => k))
  (at level 61, m at next level, right associativity) : lio_scope.
Notation "m ;;; k" := (lbind m (fun _ => k))
  (at level 61, right associativity) : lio_scope.

(** psdemuxer/pack/system/streamid.py *)
Module StreamId.
Definition size : nat := 3.

Record t : Type := mk { pos : Z; data : list byte }.

Definition stream_id (data : list byte) : Z := field (at_ data 0) 0xFF 0.
Definition b_11 (data : list byte) : Z := field (at_ data 1) 0xC0 6.
Definition p_std_buffer_bound_scale (data : list byte) : Z :=
  field (at_ data 1) 0x20 5.
Definition p_std_buffer_size_bound (data : list byte) : Z :=
  Z.lor (Z.shiftl (field (at_ data 1) 0x1F 0) 8)
        (Z.shiftl (field (at_ data 2) 0xFF 0) 0).

Definition __init__ : IO t :=
  pos <- tell ;;
  data <- readinto size ;;
  if negb (b_11 data =? 3) then raise InvalidFixedBitsException
  else ret (mk pos data).
End StreamId.

Module StreamIdEx.
Definition stream_id_ex : Z := 0xB7.
Definition size : nat := 6.

Record t : Type := mk { pos : Z; data : list byte }.

Definition stream_id (data : list byte) : Z := field (at_ data 0) 0xFF 0.
Definition b_11_0 (data : list byte) : Z := field (at_ data 1) 0xC0 6.
Definition b_0000000 (data : list byte) : Z :=
  Z.lor (Z.shiftl (field (at_ data 1) 0x3F 0) 1)
        (Z.shiftl (field (at_ data 2) 0x80 7) 0).
Definition stream_id_extension (data : list byte) : Z :=
  field (at_ data 2) 0xFF 0.
Definition b_10110110 (data : list byte) : Z := field (at_ data 3) 0x1FF 0.
Definition b_11_1 (data : list byte) : Z := field (at_ data 4) 0xC0 6.
Definition p_std_buffer_bound_scale (data : list byte) : Z :=
  field (at_ data 4) 0x20 5.
Definition p_std_buffer_size_bound (data : list byte) : Z :=
  Z.lor (Z.shiftl (field (at_ data 4) 0x1F 0) 8)
        (Z.shiftl (field (at_ data 5) 0xFF 0) 0).

(** The source asserts [self.data[0] == StreamIdEx.stream_id]: the right
    operand, read on the class, is the property object and not a number,
    so the comparison is false and the assertion fails. *)
Definition __init__ : IO t :=
  pos <- tell ;;
  data <- readinto size ;;
  assert_ false ;;;
  if negb (b_11_0 data =? 3) || negb (b_0000000 data =? 0)
     || negb (b_10110110 data =? 0xB6) || negb (b_11_1 data =? 3)
  then raise InvalidFixedBitsException
  else ret (mk pos data).
End StreamIdEx.

(** psdemuxer/pack/system/__init__.py *)
Module SystemHeader.
Definition start_code : list byte := [x00; x00; x01; xbb].
Definition size : nat := 12.

Inductive stream : Type :=
| Standard (s : StreamId.t)
| Extended (s : StreamIdEx.t).

Record t : Type := mk {
  pos : Z;
  data : list byte;
  streams : list stream
}.

Definition header (data : list byte) : list byte := py_slice data 0 4.
Definition header_length (data : list byte) : Z :=
  Z.lor (Z.shiftl (field (at_ data 4) 0xFF 0) 8)
        (Z.shiftl (field (at_ data 5) 0xFF 0) 0).
Definition rate_bound (data : list byte) : Z :=
  Z.lor (Z.lor
    (Z.shiftl (field (at_ data 6) 0x7F 0) 15)
    (Z.shiftl (field (at_ data 7) 0xFF 0) 7))
    (Z.shiftl (field (at_ data 8) 0xFE 1) 0).
Definition audio_bound (data : list byte) : Z := field (at_ data 9) 0x7C 2.
Definition fixed_flag (data : list byte) : Z := field (at_ data 9) 0x02 1.
Definition csps_flag (data : list byte) : Z := field (at_ data 9) 0x01 0.
Definition system_audio_lock_flag (data : list byte) : Z :=
  field (at_ data 10) 0x100 7.
Definition system_video_lock_flag (data : list byte) : Z :=
  field (at_ data 10) 0x40 6.
Definition video_bound (data : list byte) : Z := field (at_ data 10) 0x1F 0.
Definition packet_rate_restriction_flag (data : list byte) : Z :=
  field (at_ data 11) 0x80 7.
Definition reserved_bits (data : list byte) : Z :=
  field (at_ data 11) 0x7F 0.
Definition marker_0 (data : list byte) : Z := field (at_ data 6) 0x80 7.
Definition marker_1 (data : list byte) : Z := field (at_ data 8) 0x01 0.
Definition marker_2 (data : list byte) : Z := field (at_ data 10) 0x20 5.

(** The [while next_bits[0] & 0b10000000] loop. *)
Fixpoint while_streams (rounds : nat) (next_bits : list byte)
    (streams : list stream) : LIO (list stream) :=
  if negb (Z.land (at_ next_bits 0) 0x80 =? 0) then
    match rounds with
    | O => fun _ => None
    | S rounds' =>
        (s_id <- run (if at_ next_bits 0 =? StreamIdEx.stream_id_ex
                      then (s <- StreamIdEx.__init__ ;; ret (Extended s))%io
                      else (s <- StreamId.__init__ ;; ret (Standard s))%io) ;;
         next_bits' <- run (peek 1) ;;
         while_streams rounds' next_bits' (streams ++ [s_id]))%lio
    end
  else run (ret streams).

Definition __init__ (rounds : nat) : LIO t :=
  (pos <- run tell ;;
   data <- run (readinto size) ;;
   run (assert_ (bytes_eqb (header data) start_code)) ;;;
   if (marker_0 data =? 0) || (marker_1 data =? 0) || (marker_2 data =? 0)
   then run (raise InvalidMarkerException)
   else
     next_bits <- run (peek 1) ;;
     streams <- while_streams rounds next_bits [] ;;
     run (ret (mk pos data streams)))%lio.
End SystemHeader.

(* ================================================================== *)
(** * psdemuxer/pack/__init__.py *)
(* ================================================================== *)

Module PackStartHeader.

Definition start_code : list byte := [x00; x00; x01; xba].
Definition size : nat := 14.

Record t : Type := mk {
  pos : Z;
  data : list byte;
  system_header : option SystemHeader.t;
  pes_list : list PESPacket.t
}.

Definition header (data : list byte) : list byte := py_slice data 0 4.
Definition b_01 (data : list byte) : Z := field (at_ data 4) 0xC0 6.
Definition marker_0 (data : list byte) : Z := field (at_ data 4) 0x04 2.
Definition marker_1 (data : list byte) : Z := field (at_ data 6) 0x04 2.
Definition marker_2 (data : list byte) : Z := field (at_ data 8) 0x04 2.
Definition marker_3 (data : list byte) : Z := field (at_ data 9) 0x01 0.
Definition marker_4 (data : list byte) : Z := field (at_ data 12) 0x02 1.
Definition marker_5 (data : list byte) : Z := field (at_ data 12) 0x01 0.

Definition scr (data : list byte) : Z :=
  Z.lor (Z.lor (Z.lor (Z.lor (Z.lor (Z.lor
    (Z.shiftl (field (at_ data 4) 0x38 3) 30)
    (Z.shiftl (field (at_ data 4) 0x03 0) 28))
    (Z.shiftl (field (at_ data 5) 0xFF 0) 20))
    (Z.shiftl (field (at_ data 6) 0xF8 3) 15))
    (Z.shiftl (field (at_ data 6) 0x03 0) 13))
    (Z.shiftl (field (at_ data 7) 0xFF 0) 5))
    (Z.shiftl (field (at_ data 8) 0xF8 3) 0).

Definition scr_ext (data : list byte) : Z :=
  Z.lor (Z.shiftl (field (at_ data 8) 0x03 0) 7)
        (Z.shiftl (field (at_ data 9) 0xFE 1) 0).

Definition system_clock_reference (data : list byte) : Z :=
  300 * scr data + scr_ext data.

Definition program_mux_rate (data : list byte) : Z :=
  (50 * 8) *
  Z.lor (Z.lor
    (Z.shiftl (field (at_ data 10) 0xFF 0) 14)
    (Z.shiftl (field (at_ data 11) 0xFF 0) 6))
    (Z.shiftl (field (at_ data 12) 0xFC 2) 0).

Definition reserved (data : list byte) : Z := field (at_ data 13) 0xF8 3.
Definition pack_stuffing_length (data : list byte) : Z :=
  field (at_ data 13) 0x07 0.

(** The [while next_bits[:3] == packet_start_code_prefix] loop;
    [pkt_no] is the class counter of the PES packets. *)
Fixpoint while_packets (rounds : nat) (pkt_no : Z) (next_bits : list byte)
    (pes_list : list PESPacket.t) : LIO (list PESPacket.t) :=
  if bytes_eqb (py_slice next_bits 0 3) packet_start_code_prefix then
    if bytes_eqb next_bits start_code then run (ret pes_list)
    else if bytes_eqb next_bits program_end_code then run (ret pes_list)
    else
      match rounds with
      | O => fun _ => None
      | S rounds' =>
          (pes <- run (PESPacket.__init__ pkt_no) ;;
           next_bits' <- run (peek 4) ;;
           while_packets rounds' (pkt_no + 1) next_bits'
                         (pes_list ++ [pes]))%lio
      end
  else run (ret pes_list).

(** [PackStartHeader(fh)]; the two loops of the constructor and of the
    system header are given [rounds] rounds each. *)
Definition __init__ (rounds : nat) (pkt_no : Z) : LIO t :=
  (pos <- run tell ;;
   data <- run (readinto size) ;;
   if negb (b_01 data =? 1) then run (raise InvalidFixedBitsException)
   else if (marker_0 data =? 0) || (marker_1 data =? 0)
           || (marker_2 data =? 0) || (marker_3 data =? 0)
           || (marker_4 data =? 0) || (marker_5 data =? 0)
   then run (raise InvalidMarkerException)
   else
     run (assert_ (bytes_eqb (header data) start_code)) ;;;
     run (read (pack_stuffing_length data)) ;;;
     next_bits <- run (peek 4) ;;
     system_header <-
       (if bytes_eqb next_bits system_header_start_code then
          (sh <- SystemHeader.__init__ rounds ;; run (ret (Some sh)))
        else run (ret None)) ;;
     next_bits <- run (peek 4) ;;
     pes_list <- while_packets rounds pkt_no next_bits [] ;;
     run (ret (mk pos data system_header pes_list)))%lio.

(** A marker bit of the header: the byte it is in and its mask. *)
Definition markers : list (nat * Z) :=
  [ (4%nat, 0x04); (6%nat, 0x04); (8%nat, 0x04);
    (9%nat, 0x01); (12%nat, 0x02); (12%nat, 0x01) ].

End PackStartHeader.

(** The byte of value [z], for [0 <= z < 256]. *)
Definition byte_of_Z (z : Z) : byte :=
  match Byte.of_N (Z.to_N z) with
  | Some b => b
  | None => x00
  end.

(** The bytes [data] with the bits of [mask] cleared in byte [i]. *)
Definition clear_bits (data : list byte) (i : nat) (mask : Z) : list byte :=
  firstn i data
  ++ map (fun b => byte_of_Z (Z.land (byte_val b) (Z.lxor 0xFF mask)))
         (firstn 1 (skipn i data))
  ++ skipn (S i) data.

(* ================================================================== *)
(** * psdemuxer/streams/private: the recognizers *)
(* ================================================================== *)

(** psdemuxer/streams/private/dvdac3.py *)
Module DVDAC3Audio.

Definition ac3_substream_number : Z := 0x80.
Definition ac3_header_length : Z := 0x04.
Definition ac3_sync_word : list byte := [x0b; x77].

Record t : Type := mk {
  pes : PESPacket.t;
  is_first : bool;
  data : list byte
}.

Definition stream_id_ (data : list byte) : Z := at_ data 0.
Definition audio_frame_n (data : list byte) : Z := at_ data 1.
Definition pts_packet_offset (data : list byte) : Z :=
  Z.lor (Z.shiftl (at_ data 2) 8) (at_ data 3).

Definition data_length (self : t) : Z :=
  PESPacket.pes_packet_data_bytes_n (pes self) - ac3_header_length.

Definition __init__ (pes : PESPacket.t) (is_first : bool) : IO t :=
  if negb (is_stream (PESPacket.stream_id pes) "private_stream_1"
           && (PESPacket.header_length pes =? 0x11))
  then raise WrongPrivateStream
  else
    pos0 <- tell ;;
    try_finally
      (seek (PESPacket.pos pes + PESPacket.header_length pes) ;;;
       data <- readinto 4 ;;
       sync_word <- peek 2 ;;
       if is_first
          && (negb (stream_id_ data =? ac3_substream_number)
              || negb (bytes_eqb sync_word ac3_sync_word))
       then raise WrongPrivateStream
       else ret (mk pes is_first data))
      (seek pos0 ;;; ret tt).

End DVDAC3Audio.

(** psdemuxer/streams/private/ps2pcm.py *)
Module PS2PCMAudio.

Definition full_header_length : nat := 0x3F.
Definition sub_header_length : nat := 0x17.
Definition block_data_start : Z := 0x06.

Record t : Type := mk {
  pes : PESPacket.t;
  is_first : bool;
  _header_length : nat;
  data : list byte
}.

(** A little-endian 32-bit field: [data[i] | data[i+1] << 8 | ...]. *)
Definition le32 (data : list byte) (i : nat) : Z :=
  Z.lor (Z.lor (Z.lor (at_ data i)
                      (Z.shiftl (at_ data (i + 1)) 8))
               (Z.shiftl (at_ data (i + 2)) 16))
        (Z.shiftl (at_ data (i + 3)) 24).

Definition stream_id_ (data : list byte) : list byte := py_slice data 0 4.
Definition block_size (data : list byte) : Z :=
  Z.lor (Z.shiftl (at_ data 4) 8) (at_ data 5).
Definition stream_audio_type (data : list byte) : Z := at_ data 0x14.
Definition stream_number (data : list byte) : Z :=
  Z.lor (Z.shiftl (at_ data 0x15) 8) (at_ data 0x16).
Definition sshd (data : list byte) : list byte := py_slice data 0x17 0x1B.
Definition audio_type (data : list byte) : Z := le32 data 0x1F.
Definition sampling_rate (data : list byte) : Z := le32 data 0x23.
Definition num_channels (data : list byte) : Z := le32 data 0x27.
Definition interleave_size (data : list byte) : Z := le32 data 0x2B.
Definition loop_start_block_address (data : list byte) : Z :=
  le32 data 0x2F.
Definition loop_end_block_address (data : list byte) : Z := le32 data 0x33.
Definition ssbd (data : list byte) : list byte := py_slice data 0x37 0x3B.
Definition total_audio_data_size (data : list byte) : Z := le32 data 0x3B.

Definition header_length_ (self : t) : Z :=
  Z.of_nat (if is_first self then full_header_length else sub_header_length).

Definition audio_data_size (self : t) : Z :=
  let header_size := Z.of_nat (_header_length self) - block_data_start in
  block_size (data self) - header_size.

Definition in_ (x : Z) (l : list Z) : bool := existsb (Z.eqb x) l.

(** The conjunction tested on the first PES; [and] stops at the first
    false operand, so the modulo (which raises on a zero divisor) is
    only reached when all the others hold. *)
Definition first_ok (data : list byte) : outcome bool :=
  if bytes_eqb (stream_id_ data) [x00; x00; x01; xbd]
     && in_ (stream_audio_type data) [0xA0; 0xA1]
     && bytes_eqb (sshd data) [x53; x53; x68; x64]
     && in_ (audio_type data) [0; 1; 2]
     && (interleave_size data =? 0x200)
     && bytes_eqb (ssbd data) [x53; x53; x62; x64]
  then
    if num_channels data * 0x200 =? 0 then Raise ZeroDivisionError
    else Ok (total_audio_data_size data mod (num_channels data * 0x200)
             =? 0)
  else Ok false.

Definition next_ok (data : list byte) : bool :=
  bytes_eqb (stream_id_ data) [x00; x00; x01; xbd]
  && in_ (stream_audio_type data) [0xA0; 0xA1].

Definition __init__ (pes : PESPacket.t) (is_first : bool) : IO t :=
  let header_length :=
    if is_first then full_header_length else sub_header_length in
  pos0 <- tell ;;
  try_finally
    (seek (PESPacket.pos pes) ;;;
     data <- readinto header_length ;;
     if is_first then
       match first_ok data with
       | Raise e => raise e
       | Ok true => ret (mk pes is_first header_length data)
       | Ok false => raise WrongPrivateStream
       end
     else if negb (next_ok data) then raise WrongPrivateStream
     else ret (mk pes is_first header_length data))
    (seek pos0 ;;; ret tt).

End PS2PCMAudio.

(* ================================================================== *)
(** * psdemuxer/streams/video/mpeg2video.py: [MPEG2Video.__init__] *)
(* ================================================================== *)

Module MPEG2Video.

Definition sequence_header_code : list byte := [x00; x00; x01; xb3].
Definition sequence_end_code : list byte := [x00; x00; x01; xb7].

Section Walker.
(** [Sequence(self, fh)], the parser of one video sequence, is a
    parameter: any computation on the file object. *)
Context {Sequence : Type}.
Variable Sequence_init : IO Sequence.

(** The [while next_bits == sequence_header_code] loop and the
    [assert] after it, for at most [fuel] rounds ([None] when they do
    not suffice); [return] inside the loop ends the body. *)
Fixpoint sequences (fuel : nat) (info_only : bool) (next_bits : list byte)
    (sequence_list : list Sequence) (h : Handle)
  : option (outcome (list Sequence) * Handle) :=
  if bytes_eqb next_bits sequence_header_code then
    match fuel with
    | O => None
    | S fuel' =>
        match Sequence_init h with
        | (Raise e, h1) => Some (Raise e, h1)
        | (Ok sequence, h1) =>
            match peek 4 h1 with
            | (Raise e, h2) => Some (Raise e, h2)
            | (Ok next_bits', h2) =>
                if info_only then
                  Some (Ok (sequence_list ++ [sequence]), h2)
                else
                  sequences fuel' info_only next_bits'
                            (sequence_list ++ [sequence]) h2
            end
        end
    end
  else
    if bytes_eqb next_bits sequence_end_code
    then Some (Ok sequence_list, h)
    else Some (Raise AssertionError, h).

Definition body (fuel : nat) (info_only : bool) (h : Handle)
  : option (outcome (list Sequence) * Handle) :=
  match peek 4 h with
  | (Raise e, h1) => Some (Raise e, h1)
  | (Ok next_bits, h1) =>
      if bytes_eqb next_bits sequence_header_code
      then sequences fuel info_only next_bits [] h1
      else Some (Raise AssertionError, h1)
  end.

(** [pos = fh.tell(); try: body finally: fh.seek(pos)].  [fh] is here a
    file object read directly.  The program gives the constructor a
    [StreamIdReader]: its raw reader is [StreamReader], whose [read]
    seeks and reads the file objects of the segments and whose [seek]
    and [tell] do not touch them. *)
Definition __init__ (fuel : nat) (identify_only info_only : bool)
    (h : Handle) : option (outcome (list Sequence) * Handle) :=
  let pos0 := h_tell h in
  match body fuel info_only h with
  | None => None
  | Some (r, h1) =>
      match h_seek pos0 h1 with
      | (Ok _, h2) => Some (r, h2)
      | (Raise e, h2) => Some (Raise e, h2)
      end
  end.
End Walker.

End MPEG2Video.

(* ================================================================== *)
(** * psdemuxer/streams/private/ps2pcm.py: the PCM stream *)
(* ================================================================== *)

(** [a // b]: raises on a zero divisor. *)
Definition py_floordiv (a b : Z) : outcome Z :=
  if b =? 0 then Raise ZeroDivisionError else Ok (a / b).

(** [range(a, b)] *)
Definition range (a b : Z) : list Z :=
  map (fun i => a + Z.of_nat i) (seq 0 (Z.to_nat (b - a))).

(** The 16-bit elements of a buffer ([np.frombuffer(data, dtype=np.uint16)]
    keeps the two bytes of each element as they are, and [tobytes] writes
    them back the same way). *)
Fixpoint samples (data : list byte) : list (byte * byte) :=
  match data with
  | lo :: hi :: rest => (lo, hi) :: samples rest
  | _ => []
  end.

Definition sample_bytes (ss : list (byte * byte)) : list byte :=
  flat_map (fun s => [fst s; snd s]) ss.

(** [rows[0][i], rows[1][i], ...] for [i] in turn: the transposed matrix,
    flattened. *)
Definition transpose_flat (rows : list (list (byte * byte))) (width : nat)
  : list (byte * byte) :=
  flat_map (fun i => flat_map (fun row => firstn 1 (skipn i row)) rows)
           (seq 0 width).

(** [reinterleave(data)]:
    [frombuffer(...).reshape(2, -1).transpose(1, 0).reshape(-1).tobytes()].
    [frombuffer] raises [ValueError] when the size is odd, [reshape(2, -1)]
    when the number of elements is odd. *)
Definition reinterleave (data : list byte) : outcome (list byte) :=
  if negb (len data mod 2 =? 0) then Raise ValueError
  else
    let elements := samples data in
    if negb (len elements mod 2 =? 0) then Raise ValueError
    else
      let width := (length elements / 2)%nat in
      let rows := [firstn width elements; skipn width elements] in
      Ok (sample_bytes (transpose_flat rows width)).

(** What the claim describes: the block reshaped to
    [(num_channels, len // num_channels)] elements, transposed, flattened. *)
Definition reinterleave_channels (num_channels : nat) (data : list byte)
  : list byte :=
  let elements := samples data in
  let width := (length elements / num_channels)%nat in
  let rows :=
    map (fun j => firstn width (skipn (j * width) elements))
        (seq 0 num_channels) in
  sample_bytes (transpose_flat rows width).

Module WAVHeader.
(** The packed little-endian structure; a store into a [c_uint16] or
    [c_uint32] field keeps the low 16 or 32 bits. *)
Record t : Type := mk {
  chunk_size : Z;
  ftm_chunk_size : Z;
  audio_format : Z;
  num_channels : Z;
  sample_rate : Z;
  byte_rate : Z;
  block_align : Z;
  bits_per_sample : Z;
  data_chunk_size : Z
}.

Definition u16 (v : Z) : Z := v mod 2 ^ 16.
Definition u32 (v : Z) : Z := v mod 2 ^ 32.

Definition le (width : nat) (v : Z) : list byte :=
  map (fun i => byte_of_Z (Z.shiftr v (8 * Z.of_nat i) mod 256))
      (seq 0 width).

(** [bytes(wav_header)], 44 bytes. *)
Definition to_bytes (w : t) : list byte :=
  [x52; x49; x46; x46] ++ le 4 (chunk_size w)
  ++ [x57; x41; x56; x45] ++ [x66; x6d; x74; x20]
  ++ le 4 (ftm_chunk_size w) ++ le 2 (audio_format w)
  ++ le 2 (num_channels w) ++ le 4 (sample_rate w)
  ++ le 4 (byte_rate w) ++ le 2 (block_align w)
  ++ le 2 (bits_per_sample w)
  ++ [x64; x61; x74; x61] ++ le 4 (data_chunk_size w).

Definition sizeof : Z := 44.

Definition __init__ : t := mk 0 0 0 0 0 0 0 0 0.
End WAVHeader.

Module PS2PCMStream.

(** [class _PS2PCMStream(StreamReader)]: the fields of the base class
    and its own. *)
Record t : Type := mk {
  base : StreamReader.t;
  total_audio_data_size : Z;
  audio_data_size : Z;
  audio_interleave : Z;
  num_channels : Z;
  _interleave_buffer_block : Z;
  _interleave_buffer_cache : list byte;
  header_size : Z
}.

(** The file objects of the segments: the program stream itself, the
    [BytesIO] of the WAV header and the [BytesIO] of the padding. *)
Definition fh_id : nat := 0.
Definition header_fh_id : nat := 1.
Definition missing_fh_id : nat := 2.

(** The variables the [for n, pes in enumerate(pes_iter)] loop of the
    constructor updates. *)
Record acc : Type := mkAcc {
  a_total_audio_data_size : Z;
  a_audio_data_size : Z;
  a_audio_interleave : Z;
  a_num_channels : Z;
  a_wav_header : WAVHeader.t;
  a_segment_info : list SegmentInfo
}.

Definition first_pes (audio : PS2PCMAudio.t) (a : acc) : acc :=
  let d := PS2PCMAudio.data audio in
  let total := PS2PCMAudio.total_audio_data_size d in
  let channels := WAVHeader.u16 (PS2PCMAudio.num_channels d) in
  let rate := WAVHeader.u32 (PS2PCMAudio.sampling_rate d) in
  let align := WAVHeader.u16 (channels * (16 / 8)) in
  let w :=
    WAVHeader.mk (WAVHeader.u32 (36 + total)) 16 1 channels rate
                 (WAVHeader.u32 (rate * align)) align 16
                 (WAVHeader.u32 total) in
  mkAcc total (a_audio_data_size a) (PS2PCMAudio.interleave_size d)
        (PS2PCMAudio.num_channels d) w
        (a_segment_info a
         ++ [mkSegmentInfo header_fh_id 0 0 WAVHeader.sizeof]).

Fixpoint for_pes (is_first : bool) (pes_iter : list PESPacket.t) (a : acc)
  : IO acc :=
  match pes_iter with
  | [] => ret a
  | pes :: rest =>
      ps2_audio <- PS2PCMAudio.__init__ pes is_first ;;
      let a1 := if is_first then first_pes ps2_audio a else a in
      let segment :=
        mkSegmentInfo fh_id
          (PESPacket.pos pes + PS2PCMAudio.header_length_ ps2_audio)
          (WAVHeader.sizeof + a_audio_data_size a1)
          (PS2PCMAudio.audio_data_size ps2_audio) in
      for_pes false rest
        (mkAcc (a_total_audio_data_size a1)
               (a_audio_data_size a1
                + PS2PCMAudio.audio_data_size ps2_audio)
               (a_audio_interleave a1) (a_num_channels a1)
               (a_wav_header a1)
               (a_segment_info a1 ++ [segment]))
  end.

Definition __init__ (fh : Handle) (pes_iter : list PESPacket.t)
  : outcome (t * Files) :=
  match for_pes true pes_iter
          (mkAcc 0 0 0 1 WAVHeader.__init__ []) fh with
  | (Raise e, _) => Raise e
  | (Ok a, fh') =>
      let header_fh := open_bytes (WAVHeader.to_bytes (a_wav_header a)) in
      let finish (audio_data_size : Z) (segment_info : list SegmentInfo)
                 (missing_fh : Handle) :=
        Ok (mk (StreamReader.__init__ segment_info)
               (a_total_audio_data_size a) audio_data_size
               (a_audio_interleave a) (a_num_channels a) (-1) []
               WAVHeader.sizeof,
            fun i => match i with
                     | O => fh'
                     | S O => header_fh
                     | _ => missing_fh
                     end) in
      if negb (a_audio_data_size a =? a_total_audio_data_size a) then
        if negb (a_audio_data_size a <? a_total_audio_data_size a)
        then Raise AssertionError
        else
          let missing_bytes :=
            a_total_audio_data_size a - a_audio_data_size a in
          if negb (missing_bytes <? a_audio_interleave a)
          then Raise AssertionError
          else
            finish (a_audio_data_size a + missing_bytes)
                   (a_segment_info a
                    ++ [mkSegmentInfo missing_fh_id 0
                          (WAVHeader.sizeof + a_audio_data_size a)
                          missing_bytes])
                   (open_bytes (repeat x00 (Z.to_nat missing_bytes)))
      else
        finish (a_audio_data_size a) (a_segment_info a) (open_bytes [])
  end.

(** Methods run on the stream and the files; [None] when the fuel of a
    read loop does not suffice. *)
Definition M (A : Type) : Type :=
  t -> Files -> option (outcome (A * t * Files)).

Definition mret {A} (a : A) : M A := fun s fs => Some (Ok (a, s, fs)).

Definition mbind {A B} (m : M A) (k : A -> M B) : M B :=
  fun s fs =>
    match m s fs with
    | None => None
    | Some (Raise e) => Some (Raise e)
    | Some (Ok (a, s', fs')) => k a s' fs'
    end.

Definition mlift {A} (o : outcome A) : M A :=
  fun s fs => match o with
              | Ok a => Some (Ok (a, s, fs))
              | Raise e => Some (Raise e)
              end.

Definition with_base (s : t) (b : StreamReader.t) : t :=
  mk b (total_audio_data_size s) (audio_data_size s) (audio_interleave s)
     (num_channels s) (_interleave_buffer_block s)
     (_interleave_buffer_cache s) (header_size s).

(** The methods inherited from [StreamReader]. *)
Definition tell : M Z := fun s fs =>
  match StreamReader.tell (base s) with
  | Ok p => Some (Ok (p, s, fs))
  | Raise e => Some (Raise e)
  end.

Definition seek (offset : Z) : M Z := fun s fs =>
  match StreamReader.seek offset SEEK_SET (base s) with
  | Ok (p, b) => Some (Ok (p, with_base s b, fs))
  | Raise e => Some (Raise e)
  end.

Definition super_read (fuel : nat) (size : Z) : M (list byte) :=
  fun s fs =>
    match StreamReader.read fuel size (base s) fs with
    | None => None
    | Some (Raise e) => Some (Raise e)
    | Some (Ok (d, b, fs')) => Some (Ok (d, with_base s b, fs'))
    end.

Definition get {A} (f : t -> A) : M A := fun s fs => Some (Ok (f s, s, fs)).

Definition set_cache (block : Z) (cache : list byte) : M unit :=
  fun s fs =>
    Some (Ok (tt,
              mk (base s) (total_audio_data_size s) (audio_data_size s)
                 (audio_interleave s) (num_channels s) block cache
                 (header_size s),
              fs)).

Declare Scope ps2_scope.
Delimit Scope ps2_scope with ps2.
Notation "x <- m ;; k" := (mbind m (fun x => k))
  (at level 61, m at next level, right associativity) : ps2_scope.
Notation "m ;;; k" := (mbind m (fun _ => k))
  (at level 61, right associativity) : ps2_scope.
Local Open Scope ps2_scope.

(** The [for interleave_block in range(...)] loop of [read]. *)
Fixpoint for_blocks (fuel : nat) (blocks : list Z) (interleave_size : Z)
    (interleaved_data : list byte) : M (list byte) :=
  match blocks with
  | [] => mret interleaved_data
  | interleave_block :: rest =>
      cached <- get _interleave_buffer_block ;;
      (if negb (cached =? interleave_block) then
         hs <- get header_size ;;
         seek (hs + interleave_block * interleave_size) ;;;
         data <- super_read fuel interleave_size ;;
         cache <- mlift (reinterleave data) ;;
         set_cache interleave_block cache
       else mret tt) ;;;
      cache <- get _interleave_buffer_cache ;;
      for_blocks fuel rest interleave_size (interleaved_data ++ cache)
  end.

Definition read (fuel : nat) (size : Z) : M (list byte) :=
  channels <- get num_channels ;;
  if channels =? 1 then super_read fuel size
  else
    pos <- tell ;;
    hs <- get header_size ;;
    total <- get total_audio_data_size ;;
    interleave <- get audio_interleave ;;
    let remaining_bytes := hs + total - pos in
    let size :=
      if negb (0 <=? size) then remaining_bytes
      else Z.min size remaining_bytes in
    let interleave_size := interleave * channels in
    let wants_header := pos <? hs in
    if wants_header && (pos + size <? hs) then super_read fuel size
    else
      let to_read := size - hs in
      let block_pos := Z.max 0 (pos - hs) in
      interleave_block_from <-
        mlift (py_floordiv block_pos interleave_size) ;;
      interleave_block_to <-
        mlift (py_floordiv (block_pos + to_read) interleave_size) ;;
      let interleave_block_n :=
        interleave_block_to - interleave_block_from + 1 in
      start_data <-
        (if wants_header then
           seek 0 ;;;
           interleaved_data <- super_read fuel hs ;;
           mret (interleaved_data, pos)
         else
           seek (hs + interleave_block_from * interleave_size) ;;;
           mret ([], pos - hs - interleave_block_from * interleave_size)) ;;
      let interleaved_data := fst start_data in
      let start := snd start_data in
      interleaved_data <-
        for_blocks fuel
          (range interleave_block_from
                 (interleave_block_from + interleave_block_n))
          interleave_size interleaved_data ;;
      seek (pos + size) ;;;
      mret (py_slice interleaved_data start (start + size)).

End PS2PCMStream.

(* ================================================================== *)
(** * A three-channel PS2 PCM stream *)
(* ================================================================== *)

(** The first PES of a PS2 PCM sub-stream: a [private_stream_1] packet
    (prefix [00 00 01 BD], packet length 0x639) whose PES header is the
    flag bytes [80 00 0B] and eleven stuffing bytes, and whose payload
    starts with the stream audio type 0xA0, the stream number, the [SShd]
    block (PCM little endian, 48000 Hz, 3 channels, interleave 0x200) and
    the [SSbd] block with the total size 0x600 of the audio data. *)
Definition ps2_first_header : list byte :=
  [x00; x00; x01; xbd; x06; x39]
  ++ [x80; x00; x0b] ++ repeat xff 11
  ++ [xa0; x00; x00]
  ++ [x53; x53; x68; x64] ++ [x00; x00; x00; x18]
  ++ [x01; x00; x00; x00] ++ [x80; xbb; x00; x00]
  ++ [x03; x00; x00; x00] ++ [x00; x02; x00; x00]
  ++ repeat x00 8
  ++ [x53; x53; x62; x64] ++ [x00; x06; x00; x00].

(** One interleave block of three channels: 0x200 bytes of each. *)
Definition three_channel_block : list byte :=
  repeat xaa 512 ++ repeat xbb 512 ++ repeat xcc 512.

(** A program stream of one pack holding that packet. *)
Definition pack_header : list byte :=
  [x00; x00; x01; xba; x44; x00; x04; x00; x04; x01; x01; x89; xc3; xf8].

Definition three_channel_file : list byte :=
  pack_header ++ ps2_first_header ++ three_channel_block ++ program_end_code.

(** The packet as [PESPacket] records it when the pack is parsed. *)
Definition three_channel_pes : PESPacket.t :=
  PESPacket.mk 0 14 [x00; x00; x01; xbd; x06; x39]
    (Some (FlagData.mk [x80; x00; x0b] None None None None None None None
                       (repeat xff 11)))
    20 (Some 0xA0) 1579.

(* ================================================================== *)
(** * A DVD AC-3 stream *)
(* ================================================================== *)

(** A [private_stream_1] packet with a 17-byte header (flag bytes
    [81 80 08], a PTS and three stuffing bytes) and an 8-byte payload:
    the sub-stream number, the frame count, the PTS offset and the
    beginning of an AC-3 frame. *)
Definition ac3_pes_bytes (substream : byte) : list byte :=
  [x00; x00; x01; xbd; x00; x13]
  ++ [x81; x80; x08] ++ [x21; x00; x01; x00; x01] ++ [xff; xff; xff]
  ++ [substream; x01; x00; x01; x0b; x77; x12; x34].

Definition ac3_file (substream : byte) : list byte :=
  pack_header ++ ac3_pes_bytes substream ++ program_end_code.

(** The packet as [PESPacket] records it when the pack is parsed. *)
Definition ac3_pes (substream : byte) : PESPacket.t :=
  PESPacket.mk 0 14 [x00; x00; x01; xbd; x00; x13]
    (Some (FlagData.mk [x81; x80; x08]
             (Some (FlagData.PTS (FlagPTS.mk [x21; x00; x01; x00; x01])))
             None None None None None None [xff; xff; xff]))
    17 (Some (byte_val substream)) 8.

(* ================================================================== *)
(** * The rest of psdemuxer/io *)
(* ================================================================== *)

(** [l[:b] = v] and [l[a:] = v] on a [bytearray]: the slice is replaced
    by [v], whatever the two lengths are. *)
Definition set_prefix {A} (l : list A) (b : Z) (v : list A) : list A :=
  v ++ skipn (Z.to_nat (slice_bound l b)) l.

Definition set_suffix {A} (l : list A) (a : Z) (v : list A) : list A :=
  firstn (Z.to_nat (slice_bound l a)) l ++ v.

(** [bytearray(n)]: [n] zero bytes; a negative [n] is refused. *)
Definition bytearray (n : Z) : outcome (list byte) :=
  if n <? 0 then Raise ValueError else Ok (repeat x00 (Z.to_nat n)).

(** psdemuxer/io/bits.py *)
Module Bits.

(** [BitStreamReader.get_data]: [self._data.getvalue()], or [None] when
    no side buffer is kept. *)
Definition get_data (r : BitStreamReader.t) : option (list byte) :=
  BitStreamReader._data r.

(** The bytes of a file between two cursor positions. *)
Definition between (p q : nat) (content : list byte) : list byte :=
  firstn (q - p) (skipn p content).

End Bits.

(** psdemuxer/io/__init__.py *)
Module RawReader.
Import StreamReader.

(** [StreamReader.readinto(buffer)] on a [bytearray]: the size of the
    buffer is asked for, the bytes read replace the beginning of the
    buffer, their number is returned. *)
Definition readinto (fuel : nat) (buffer : list byte) (r : t) (fs : Files)
  : option (outcome (Z * list byte * t * Files)) :=
  let size := len buffer in
  match read fuel size r fs with
  | None => None
  | Some (Raise e) => Some (Raise e)
  | Some (Ok (data, r', fs')) =>
      Some (Ok (len data, set_prefix buffer (len data) data, r', fs'))
  end.

(** The reader stands at the virtual position [x]: inside (or at an end
    of) one of its segments, or past the last one. *)
Definition at_pos (segs : list SegmentInfo) (r : t) (x : Z) : Prop :=
  segment_info r = segs
  /\ total_size r = total segs
  /\ ((exists pre s post,
         segs = pre ++ s :: post
         /\ position r = len pre
         /\ 0 <= offset r <= data_size s
         /\ x = total pre + offset r)
      \/ (position r = len segs /\ x = total segs)).

End RawReader.

(** Two files and a list of four segments over them, one of them empty:
    the virtual stream is [02 03 04 10 11 12 13 07 08 09]. *)
Definition example_files : Files :=
  fun i => match i with
           | O => open_bytes [x00; x01; x02; x03; x04; x05; x06; x07; x08; x09]
           | _ => open_bytes [x10; x11; x12; x13; x14; x15]
           end.

Definition example_segs : list SegmentInfo :=
  [mkSegmentInfo 0 2 0 3; mkSegmentInfo 1 1 3 0;
   mkSegmentInfo 1 0 3 4; mkSegmentInfo 0 7 7 3].

(* ================================================================== *)
(** * psdemuxer/utils.py *)
(* ================================================================== *)

Module Utils.

(** [next_start_code(fh, check_zeros)]: the [while not found] loop, one
    round of [fuel] for each turn ([None] when they do not suffice). *)
Fixpoint next_start_code (fuel : nat) (check_zeros : bool) : LIO unit :=
  match fuel with
  | O => fun _ => None
  | S fuel' =>
      (data <- run (peek 3) ;;
       if bytes_eqb data start_code_prefix then run (ret tt)
       else
         zero_byte <- run (read 1) ;;
         if check_zeros && negb (bytes_eqb zero_byte [x00])
         then run (raise MPEG2FileFormatException)
         else next_start_code fuel' check_zeros)%lio
  end.

(** [bytearray_resize(array, new_size)]: a new array of [new_size] zero
    bytes whose slice [[:len(array)]] is then assigned [array]. *)
Definition bytearray_resize (array : list byte) (new_size : Z)
  : outcome (list byte) :=
  let* new_array := bytearray new_size in
  Ok (set_prefix new_array (len array) array).

Definition bytearray_extend (array : list byte) (extend_size : Z)
  : outcome (list byte) :=
  let new_size := len array + extend_size in
  bytearray_resize array new_size.

Definition bytearray_append (array extra : list byte)
  : outcome (list byte) :=
  let old_size := len array in
  let new_size := old_size + len extra in
  let* array' := bytearray_resize array new_size in
  Ok (set_suffix array' old_size extra).

End Utils.

(** A computation with loops that leaves the content of the file as it
    is. *)
Definition lkeeps_data {A} (m : LIO A) : Prop :=
  forall h r h', m h = Some (r, h') -> h_data h' = h_data h.

(** The stream ids whose packets [PESPacket.__init__] reads without
    flag data: those of the names its second and third branches test
    and that are names of a stream id. *)
Definition plain_ids : list Z := [0xBC; 0xBE; 0xF0; 0xF1; 0xF8; 0xFF].

(** The layout of the packets of a pack in the file. *)
Module Layout.

(** The packets lie one after the other from [start] to [stop]. *)
Fixpoint chained (start : Z) (pes_list : list PESPacket.t) (stop : Z)
  : Prop :=
  match pes_list with
  | [] => start = stop
  | p :: rest =>
      PESPacket.pos p = start
      /\ chained (start + PESPacket.pes_full_packet_length (PESPacket.data p))
                 rest stop
  end.

(** The packets are numbered from [n] on. *)
Fixpoint numbered (n : Z) (pes_list : list PESPacket.t) : Prop :=
  match pes_list with
  | [] => True
  | p :: rest => PESPacket.no p = n /\ numbered (n + 1) rest
  end.

(** The payload of the packet, as the packet records it, starts in the
    file and ends at the end of the packet, four bytes at least before
    the end of the file. *)
Definition inside (file_size : Z) (p : PESPacket.t) : Prop :=
  0 <= PESPacket.pos p
  /\ 0 <= PESPacket.pos p + PESPacket.header_length p
  /\ PESPacket.pos p + PESPacket.header_length p
     + PESPacket.pes_packet_data_bytes_n p
     = PESPacket.pos p + PESPacket.pes_full_packet_length (PESPacket.data p)
  /\ PESPacket.pos p + PESPacket.pes_full_packet_length (PESPacket.data p) + 4
     <= file_size.

End Layout.

(* ================================================================== *)
(** * psdemuxer/__init__.py *)
(* ================================================================== *)

Module MPEG2ProgramStream.

(** [pes_types] is a [dict]: its entries are kept in the order in which
    the keys were first set, which is the order [streams()] yields them
    in. *)
Record t : Type := mk {
  pack_list : list PackStartHeader.t;
  pes_types : list (Z * PESPacket.t)
}.

(** [stream_id in self.pes_types] *)
Definition contains (pes_types : list (Z * PESPacket.t)) (stream_id : Z)
  : bool :=
  existsb (fun kv => fst kv =? stream_id) pes_types.

(** The [for pes in psh.pes_list] loop of the constructor. *)
Fixpoint for_pes (pes_list : list PESPacket.t)
    (pes_types : list (Z * PESPacket.t)) : list (Z * PESPacket.t) :=
  match pes_list with
  | [] => pes_types
  | pes :: rest =>
      for_pes rest
        (if negb (contains pes_types (PESPacket.stream_id pes))
         then pes_types ++ [(PESPacket.stream_id pes, pes)]
         else pes_types)
  end.

(** The [while True] loop of the constructor, one round of [fuel] for
    each pack; [pkt_no] is the class counter [PESPacket.pkt_no], which
    every packet built advances by one. *)
Fixpoint while_true (fuel rounds : nat) (pkt_no : Z)
    (pack_list : list PackStartHeader.t)
    (pes_types : list (Z * PESPacket.t)) : LIO t :=
  match fuel with
  | O => fun _ => None
  | S fuel' =>
      (psh <- PackStartHeader.__init__ rounds pkt_no ;;
       let pack_list' := pack_list ++ [psh] in
       let pes_types' := for_pes (PackStartHeader.pes_list psh) pes_types in
       next_bits <- run (peek 4) ;;
       if bytes_eqb next_bits program_end_code
       then run (ret (mk pack_list' pes_types'))
       else while_true fuel' rounds
              (pkt_no + len (PackStartHeader.pes_list psh))
              pack_list' pes_types')%lio
  end.

Definition __init__ (fuel rounds : nat) (pkt_no : Z) : LIO t :=
  while_true fuel rounds pkt_no [] [].

(** [streams()], the pairs it yields, in order. *)
Definition streams (self : t) : list (Z * PESPacket.t) := pes_types self.

(** The argument of [stream_iter]: a stream id or the name of one. *)
Inductive stream_key : Type :=
| ById (stream_id : Z)
| ByName (name : string).

(** [stream_iter(stream_id)], the packets it yields, in order; the
    generator raises when it is first advanced. *)
Definition stream_iter (self : t) (stream_id : stream_key)
  : outcome (list PESPacket.t) :=
  let* stream_id :=
    match stream_id with
    | ByName name =>
        match get_stream_id_by_name name with
        | None => Raise ValueError
        | Some stream_id_ => Ok stream_id_
        end
    | ById stream_id => Ok stream_id
    end in
  if negb (contains (pes_types self) stream_id) then Raise ValueError
  else
    Ok (flat_map
          (fun psh =>
             filter (fun pes => PESPacket.stream_id pes =? stream_id)
                    (PackStartHeader.pes_list psh))
          (pack_list self)).

(** [len(m2ps)] *)
Definition __len__ (self : t) : Z :=
  fold_left (fun total psh => total + len (PackStartHeader.pes_list psh))
            (pack_list self) 0.

(** All the packets of the program stream, in file order. *)
Definition packets (self : t) : list PESPacket.t :=
  flat_map PackStartHeader.pes_list (pack_list self).

End MPEG2ProgramStream.

(* ================================================================== *)
(** * psdemuxer/streams/reader.py *)
(* ================================================================== *)

Module StreamIdReader.

(** The [for pes in self.pes_packets] loop. *)
Fixpoint for_pes (fh : nat) (pes_packets : list PESPacket.t)
    (data_so_far : Z) (segment_info : list SegmentInfo)
  : list SegmentInfo :=
  match pes_packets with
  | [] => segment_info
  | pes :: rest =>
      let segment :=
        mkSegmentInfo fh
          (PESPacket.pos pes + PESPacket.header_length pes)
          data_so_far
          (PESPacket.pes_packet_data_bytes_n pes) in
      for_pes fh rest
        (data_so_far + PESPacket.pes_packet_data_bytes_n pes)
        (segment_info ++ [segment])
  end.

(** [StreamIdReader(m2ps, stream_id, fh)]: the packets kept and the raw
    reader given to [BufferedReader]. *)
Definition __init__ (m2ps : MPEG2ProgramStream.t)
    (stream_id : MPEG2ProgramStream.stream_key) (fh : nat)
  : outcome (list PESPacket.t * StreamReader.t) :=
  let* pes_packets := MPEG2ProgramStream.stream_iter m2ps stream_id in
  let segment_info := for_pes fh pes_packets 0 [] in
  Ok (pes_packets, StreamReader.__init__ segment_info).

(** The payload bytes of a packet, as the packet records them. *)
Definition payload (content : list byte) (pes : PESPacket.t) : list byte :=
  py_slice content
    (PESPacket.pos pes + PESPacket.header_length pes)
    (PESPacket.pos pes + PESPacket.header_length pes
     + PESPacket.pes_packet_data_bytes_n pes).

End StreamIdReader.

(* ================================================================== *)
(** * psdemuxer/streams/private/dvdac3.py: [DVDAC3Stream] *)
(* ================================================================== *)

Module DVDAC3Stream.

(** The [for n, pes in enumerate(pes_iter)] loop; [is_first] is
    [n == 0]. *)
Fixpoint for_pes (fh : nat) (is_first : bool)
    (pes_iter : list PESPacket.t) (data_so_far : Z)
    (segment_info : list SegmentInfo) : IO (list SegmentInfo) :=
  match pes_iter with
  | [] => ret segment_info
  | pes :: rest =>
      ac3_audio <- DVDAC3Audio.__init__ pes is_first ;;
      let segment :=
        mkSegmentInfo fh
          (PESPacket.pos pes + PESPacket.header_length pes
           + DVDAC3Audio.ac3_header_length)
          data_so_far
          (DVDAC3Audio.data_length ac3_audio) in
      for_pes fh false rest
        (data_so_far + DVDAC3Audio.data_length ac3_audio)
        (segment_info ++ [segment])
  end.

(** [DVDAC3Stream(fh, pes_iter)]: the raw reader given to
    [BufferedReader]; [fh] names the file object in the segments. *)
Definition __init__ (fh : nat) (pes_iter : list PESPacket.t)
  : IO StreamReader.t :=
  segment_info <- for_pes fh true pes_iter 0 [] ;;
  ret (StreamReader.__init__ segment_info).

End DVDAC3Stream.

(** Statements about the packets of one stream. *)
Module Demux.

(** The packet belongs to the stream [id]. *)
Definition has_id (id : Z) (p : PESPacket.t) : bool :=
  PESPacket.stream_id p =? id.

(** What the dictionary [pes_types] holds once the packets [seen] have
    gone through the loop of the constructor: one entry for each stream
    id seen, with the first packet of that id. *)
Definition firsts (seen : list PESPacket.t)
    (d : list (Z * PESPacket.t)) : Prop :=
  NoDup (map fst d)
  /\ (forall id,
        MPEG2ProgramStream.contains d id = existsb (has_id id) seen)
  /\ (forall id p, In (id, p) d -> find (has_id id) seen = Some p).

(** The number of packets an iterator yields, 0 when it raises. *)
Definition yielded (o : outcome (list PESPacket.t)) : Z :=
  match o with
  | Ok l => len l
  | Raise _ => 0
  end.

End Demux.

(* ================================================================== *)
(** * A program stream of two packs *)
(* ================================================================== *)

(** A video packet (stream id E0) with a header extension without
    optional fields and four payload bytes, and a padding packet. *)
Definition video_pes_bytes : list byte :=
  [x00; x00; x01; xe0; x00; x07] ++ [x80; x00; x00] ++ [xaa; xbb; xcc; xdd].

Definition padding_pes_bytes : list byte :=
  [x00; x00; x01; xbe; x00; x02; xff; xff].

(** Two packs: a video packet and an AC-3 packet, then another AC-3
    packet and padding. *)
Definition two_pack_file : list byte :=
  pack_header ++ video_pes_bytes ++ ac3_pes_bytes x80
  ++ pack_header ++ ac3_pes_bytes x80 ++ padding_pes_bytes
  ++ program_end_code.

(* ================================================================== *)
(** * Properties *)
(* ================================================================== *)

Ltac dlia := Z.div_mod_to_equations; lia.

(** ** Bit strings and their values *)

Module BitLemmas.
Import BitStreamReader.

Lemma pow2_pos (n : Z) : 0 <= n -> 0 < 2 ^ n.
Proof. intros; apply Z.pow_pos_nonneg; lia. Qed.

Lemma byte_val_range (b : byte) : 0 <= byte_val b < 256.
Proof.
  unfold byte_val. pose proof (Byte.to_N_bounded b). lia.
Qed.

Lemma fold_msb (l : list bool) (acc : Z) :
  fold_left (fun a b => 2 * a + Z.b2z b) l acc
  = acc * 2 ^ len l + msb_value l.
Proof.
  unfold msb_value, len. revert acc.
  induction l as [|b l IH]; intros acc.
  - simpl. lia.
  - cbn [fold_left length]. rewrite IH, (IH (2 * 0 + Z.b2z b)).
    rewrite Nat2Z.inj_succ, Z.pow_succ_r by lia. ring.
Qed.

Lemma msb_value_cons (b : bool) (l : list bool) :
  msb_value (b :: l) = Z.b2z b * 2 ^ len l + msb_value l.
Proof.
  unfold msb_value at 1. cbn [fold_left]. rewrite fold_msb. ring.
Qed.

Lemma msb_value_app (l1 l2 : list bool) :
  msb_value (l1 ++ l2) = msb_value l1 * 2 ^ len l2 + msb_value l2.
Proof.
  unfold msb_value at 1. rewrite fold_left_app, fold_msb.
  fold (msb_value l1). reflexivity.
Qed.

Lemma msb_value_range (l : list bool) : 0 <= msb_value l < 2 ^ len l.
Proof.
  induction l as [|b l IH].
  - cbn. lia.
  - rewrite msb_value_cons. unfold len in *. cbn [length].
    rewrite Nat2Z.inj_succ, Z.pow_succ_r by lia.
    destruct b; cbn [Z.b2z]; lia.
Qed.

Lemma length_low_bits (n : nat) (c : Z) : length (low_bits n c) = n.
Proof. induction n; cbn; congruence. Qed.

Lemma msb_value_low_bits (n : nat) (c : Z) :
  msb_value (low_bits n c) = c mod 2 ^ Z.of_nat n.
Proof.
  induction n as [|n IH].
  - cbn. now rewrite Z.mod_1_r.
  - cbn [low_bits]. rewrite msb_value_cons, IH. unfold len.
    rewrite length_low_bits, Nat2Z.inj_succ, Z.pow_succ_r by lia.
    rewrite (Z.mul_comm 2), Z.rem_mul_r
      by (try apply Z.pow_nonzero; lia).
    rewrite Z.testbit_spec' by lia. ring.
Qed.

Lemma skipn_low_bits (p n : nat) (c : Z) :
  skipn p (low_bits n c) = low_bits (n - p) c.
Proof.
  revert p. induction n as [|n IH]; intros [|p]; cbn; auto.
Qed.

Lemma firstn_low_bits (k n : nat) (c : Z) :
  (k <= n)%nat ->
  firstn k (low_bits n c) = low_bits k (c / 2 ^ Z.of_nat (n - k)).
Proof.
  revert n. induction k as [|k IH]; intros n Hk.
  - reflexivity.
  - destruct n as [|n]; [lia|].
    cbn [low_bits firstn]. rewrite IH by lia.
    replace (S n - S k)%nat with (n - k)%nat by lia.
    f_equal. rewrite Z.div_pow2_bits by lia. f_equal. lia.
Qed.

(** What one masked and shifted piece of a byte is worth. *)
Lemma field_mask (c num pos : Z) :
  0 <= num -> 0 <= pos -> num + pos <= 8 ->
  field c (Z.shiftl (2 ^ num - 1) (8 - num - pos)) (8 - num - pos)
  = (c / 2 ^ (8 - num - pos)) mod 2 ^ num.
Proof.
  intros Hn Hp Hs. unfold field.
  rewrite Z.shiftr_land, Z.shiftr_shiftl_l by lia.
  rewrite Z.sub_diag, Z.shiftl_0_r.
  replace (2 ^ num - 1) with (Z.ones num)
    by (rewrite Z.ones_equiv; lia).
  now rewrite Z.land_ones, Z.shiftr_div_pow2 by lia.
Qed.

Lemma field_bits (c : Z) (num pos : nat) :
  (num + pos <= 8)%nat ->
  field c (Z.shiftl (2 ^ Z.of_nat num - 1)
                    (8 - Z.of_nat num - Z.of_nat pos))
          (8 - Z.of_nat num - Z.of_nat pos)
  = msb_value (firstn num (skipn pos (low_bits 8 c))).
Proof.
  intros H. rewrite field_mask by lia.
  rewrite skipn_low_bits, firstn_low_bits, msb_value_low_bits by lia.
  do 3 f_equal. lia.
Qed.

(** [|] adds when the operands occupy different bits. *)
Lemma lor_add (v p n : Z) :
  0 <= n -> v mod 2 ^ n = 0 -> 0 <= p < 2 ^ n -> Z.lor v p = v + p.
Proof.
  intros Hn Hv Hp.
  assert (Hland : Z.land v p = 0).
  { apply Z.bits_inj'. intros i Hi.
    rewrite Z.land_spec, Z.bits_0.
    destruct (Z.lt_ge_cases i n) as [Hlt|Hge].
    - rewrite <- (Z.mod_pow2_bits_low v n i), Hv, Z.bits_0 by lia.
      reflexivity.
    - rewrite <- (Z.mod_small p (2 ^ n)) by lia.
      rewrite Z.mod_pow2_bits_high by lia. apply andb_false_r. }
  rewrite Z.add_nocarry_lxor, Z.lxor_lor by assumption. reflexivity.
Qed.

Lemma length_bit_string (bs : list byte) :
  length (bit_string bs) = (8 * length bs)%nat.
Proof.
  induction bs as [|b bs IH]; [reflexivity|].
  unfold bit_string in *. cbn [flat_map]. rewrite length_app, IH.
  unfold byte_bits. rewrite length_low_bits. cbn [length]. lia.
Qed.

Lemma bit_string_app (a b : list byte) :
  bit_string (a ++ b) = bit_string a ++ bit_string b.
Proof. unfold bit_string. apply flat_map_app. Qed.

Lemma msb_value_byte_bits (b : byte) : msb_value (byte_bits b) = byte_val b.
Proof.
  unfold byte_bits. rewrite msb_value_low_bits.
  apply Z.mod_small. pose proof (byte_val_range b).
  change (2 ^ Z.of_nat 8) with 256. lia.
Qed.

End BitLemmas.
Module BitReaderFacts.
Import BitStreamReader BitLemmas.

Lemma float_overflow_large : 2 ^ 53 < float_overflow.
Proof. reflexivity. Qed.

Lemma make_mask_ok (num pos : Z) :
  0 <= num -> num + pos <= 8 ->
  _make_mask num pos
  = Ok (Z.shiftl (2 ^ num - 1) (8 - num - pos), 8 - num - pos).
Proof.
  intros. unfold _make_mask.
  pose proof float_overflow_large.
  destruct (Z.ltb_spec 8 (num + pos)); [lia|].
  destruct (Z.leb_spec num (- float_overflow)); [lia|].
  destruct (Z.ltb_spec num 0); [lia|]. reflexivity.
Qed.

(** The mask computation on a negative number of bits. *)
Lemma make_mask_negative (num pos : Z) :
  num < 0 -> 0 <= pos < 8 ->
  _make_mask num pos
  = Raise (if num <=? - float_overflow then OverflowError else TypeError).
Proof.
  intros. unfold _make_mask.
  destruct (Z.ltb_spec 8 (num + pos)); [lia|].
  destruct (num <=? - float_overflow); [reflexivity|].
  destruct (Z.ltb_spec num 0); [reflexivity|lia].
Qed.

Lemma py_shiftl_ok (x n : Z) : 0 <= n -> py_shiftl x n = Ok (x * 2 ^ n).
Proof.
  intros. unfold py_shiftl. destruct (Z.ltb_spec n 0); [lia|].
  now rewrite Z.shiftl_mul_pow2.
Qed.

Lemma field_bits_Z (c num pos : Z) :
  0 <= num -> 0 <= pos -> num + pos <= 8 ->
  field c (Z.shiftl (2 ^ num - 1) (8 - num - pos)) (8 - num - pos)
  = msb_value (firstn (Z.to_nat num) (skipn (Z.to_nat pos) (low_bits 8 c))).
Proof.
  intros. rewrite <- field_bits by lia. now rewrite !Z2Nat.id by lia.
Qed.

Lemma firstn_bit_string_cons (E : Z) (b : byte) (tl : list byte) :
  8 <= E ->
  firstn (Z.to_nat E) (bit_string (b :: tl))
  = byte_bits b ++ firstn (Z.to_nat (E - 8)) (bit_string tl).
Proof.
  intros. change (bit_string (b :: tl)) with (byte_bits b ++ bit_string tl).
  rewrite firstn_app. unfold byte_bits at 2. rewrite length_low_bits.
  rewrite firstn_all2 by (unfold byte_bits; rewrite length_low_bits; lia).
  do 2 f_equal. lia.
Qed.

Lemma for_extra_bytes_spec (ebs : list byte) :
  forall v E np cb,
    0 <= E -> len ebs = (E + 7) / 8 -> v mod 2 ^ E = 0 ->
    exists s,
      for_extra_bytes ebs (mkLocals v E E np cb) = Ok s
      /\ value s = v + msb_value (firstn (Z.to_nat E) (bit_string ebs))
      /\ new_pos s = (if E =? 0 then np else E mod 8)
      /\ current_byte s
         = match ebs with [] => cb | _ => byte_val (last ebs x00) end.
Proof.
  induction ebs as [|b tl IH]; intros v E np cb HE Hlen Hv.
  - unfold len in Hlen. cbn [length] in Hlen.
    assert (E = 0) by dlia. subst E.
    eexists. split; [reflexivity|]. cbn. repeat split; lia.
  - unfold len in Hlen. cbn [length] in Hlen.
    assert (1 <= E) by dlia.
    pose proof (byte_val_range b) as Hb.
    cbn [for_extra_bytes value bits_left_to_shift extra_bits_to_read].
    destruct (Z.le_gt_cases E 8) as [Hle|Hgt].
    + assert (tl = []) by (destruct tl; [reflexivity|cbn [length] in Hlen; dlia]).
      subst tl.
      rewrite Z.min_r by lia.
      rewrite make_mask_ok by lia. cbn [obind].
      rewrite py_shiftl_ok by lia.
      rewrite Z.sub_diag, Z.mul_1_r. cbn [obind for_extra_bytes].
      cbn beta iota.

      eexists. split; [reflexivity|].
      cbn [value new_pos current_byte last].

      rewrite field_bits_Z by lia.
      cbn [skipn Z.to_nat].
      assert (Hfb : firstn (Z.to_nat E) (bit_string [b])
                    = firstn (Z.to_nat E) (low_bits 8 (byte_val b))).
      { unfold bit_string. cbn [flat_map]. now rewrite app_nil_r. }
      rewrite Hfb.
      split.
      * apply lor_add with (n := E); try lia.
        pose proof (msb_value_range
                      (firstn (Z.to_nat E) (low_bits 8 (byte_val b)))) as R.
        unfold len in R. rewrite length_firstn, length_low_bits in R.
        rewrite Nat.min_l in R by lia. rewrite Z2Nat.id in R by lia. exact R.
      * split; [|reflexivity].
        destruct (Z.eqb_spec E 0); [lia|reflexivity].
    + rewrite Z.min_l by lia.
      rewrite make_mask_ok by lia. cbn [obind].
      rewrite py_shiftl_ok by lia. cbn [obind].
      replace (8 - 8 - 0) with 0 by lia.
      assert (Hf : field (byte_val b) (Z.shiftl (2 ^ 8 - 1) 0) 0 = byte_val b).
      { unfold field. rewrite Z.shiftl_0_r, Z.shiftr_0_r.
        change (2 ^ 8 - 1) with (Z.ones 8).
        rewrite Z.land_ones by lia. apply Z.mod_small.
        change (2 ^ 8) with 256. lia. }
      rewrite Hf.
      assert (Hpow : 2 ^ E = 2 ^ 8 * 2 ^ (E - 8)).
      { rewrite <- Z.pow_add_r by lia. f_equal. lia. }
      assert (Hp8 : 0 < 2 ^ (E - 8)) by (apply pow2_pos; lia).
      assert (Hsum : Z.lor v (byte_val b * 2 ^ (E - 8))
                     = v + byte_val b * 2 ^ (E - 8)).
      { apply lor_add with (n := E); try lia.
        rewrite Hpow. change (2 ^ 8) with 256. nia. }
      rewrite Hsum.
      destruct (IH (v + byte_val b * 2 ^ (E - 8)) (E - 8) (8 mod 8)
                   (byte_val b)) as (s & Hs & Hval & Hnp & Hcb).
      * lia.
      * unfold len. dlia.
      * rewrite Z.mod_add by lia.
        apply Z.mod_divide in Hv; [|lia].
        apply Z.mod_divide; [lia|].
        destruct Hv as [q Hq]. exists (q * 2 ^ 8). rewrite Hq, Hpow. ring.
      * exists s. split; [exact Hs|]. split; [|split].
        -- rewrite Hval, firstn_bit_string_cons by lia.
           rewrite msb_value_app, msb_value_byte_bits.
           unfold len. rewrite length_firstn, length_bit_string.
           rewrite Nat.min_l by (unfold len in Hlen; cbn [length] in Hlen; revert Hlen; clear; intros; zify; dlia).
           rewrite Z2Nat.id by lia. ring.
        -- rewrite Hnp.
           destruct (Z.eqb_spec (E - 8) 0); [lia|].
           destruct (Z.eqb_spec E 0); [lia|]. dlia.
        -- rewrite Hcb. destruct tl; [cbn [length] in Hlen; dlia|reflexivity].
Qed.

Lemma skipn_length_firstn {A} (n : nat) (l : list A) :
  skipn (length (firstn n l)) l = skipn n l.
Proof.
  rewrite length_firstn.
  destruct (Nat.le_gt_cases n (length l)).
  - now rewrite Nat.min_l.
  - rewrite Nat.min_r, !skipn_all2 by lia. reflexivity.
Qed.

Lemma h_read_spec (n : Z) (h : Handle) :
  0 <= n ->
  fst (h_read n h) = firstn (Z.to_nat n) (remaining h)
  /\ remaining (snd (h_read n h)) = skipn (Z.to_nat n) (remaining h)
  /\ h_data (snd (h_read n h)) = h_data h.
Proof.
  intros Hn. unfold h_read.
  destruct (Z.ltb_spec n 0); [lia|]. cbn [fst snd].
  split; [reflexivity|]. split; [|reflexivity].
  unfold remaining at 1. cbn [h_pos h_data].
  rewrite Nat.add_comm, <- skipn_skipn. fold (remaining h).
  apply skipn_length_firstn.
Qed.

Lemma skipn_bit_string_last (E : Z) (ebs : list byte) :
  0 < E -> len ebs = (E + 7) / 8 ->
  skipn (Z.to_nat E) (bit_string ebs)
  = if E mod 8 =? 0 then []
    else skipn (Z.to_nat (E mod 8)) (low_bits 8 (byte_val (last ebs x00))).
Proof.
  intros HE Hlen.
  assert (Hne : ebs <> []).
  { intros ->. unfold len in Hlen. cbn in Hlen. dlia. }
  rewrite (app_removelast_last x00 Hne) at 1.
  rewrite bit_string_app.
  assert (Hrl : length (bit_string (removelast ebs))
                = Z.to_nat (8 * ((E + 7) / 8 - 1))).
  { rewrite length_bit_string.
    pose proof (f_equal (@length _) (app_removelast_last x00 Hne)) as Hl.
    rewrite length_app in Hl. cbn [length] in Hl.
    unfold len in Hlen. lia. }
  rewrite skipn_app, Hrl.
  rewrite skipn_all2 by (rewrite Hrl; dlia).
  cbn [app]. unfold bit_string. cbn [flat_map]. rewrite app_nil_r.
  unfold byte_bits.
  destruct (Z.eqb_spec (E mod 8) 0) as [Hz|Hnz].
  - apply skipn_all2. rewrite length_low_bits. dlia.
  - f_equal. dlia.
Qed.

Lemma fetch_boundary (r : t) (b : byte) (tl : list byte) :
  _position r = 0 -> remaining (_fh r) = b :: tl ->
  exists r1, fetch r = Ok r1
             /\ _position r1 = 0 /\ _current_byte r1 = byte_val b
             /\ remaining (_fh r1) = tl.
Proof.
  intros Hp Hrem. unfold fetch. rewrite Hp. cbn [Z.eqb].
  destruct (h_read_spec 1 (_fh r)) as (Hgot & Hrest & _); [lia|].
  destruct (h_read 1 (_fh r)) as [data fh1]. cbn [fst snd] in *.
  rewrite Hrem in Hgot, Hrest. cbn in Hgot, Hrest. subst data.
  cbn. eexists. split; [reflexivity|]. cbn. auto.
Qed.

(** One call of [read], from the state reached after the fetch. *)
Lemma read_after_fetch (r r1 : t) (k : Z) :
  fetch r = Ok r1 -> 0 <= _position r1 < 8 ->
  let A := skipn (Z.to_nat (_position r1)) (low_bits 8 (_current_byte r1)) in
  let B := bit_string (remaining (_fh r1)) in
  1 <= k <= len (A ++ B) ->
  exists r', read k r = Ok (msb_value (firstn (Z.to_nat k) (A ++ B)), r')
             /\ wf r' /\ pending r' = skipn (Z.to_nat k) (A ++ B).
Proof.
  intros Hf Hp A B Hk. unfold read. rewrite Hf. cbn [obind].
  set (p := _position r1) in *. set (cur := _current_byte r1) in *.
  assert (HlenA : length A = Z.to_nat (8 - p)).
  { unfold A. rewrite length_skipn, length_low_bits. lia. }
  assert (HlenB : length B = (8 * length (remaining (_fh r1)))%nat)
    by apply length_bit_string.
  unfold len in Hk. rewrite length_app in Hk.
  destruct (Z.le_gt_cases k (8 - p)) as [Hsmall|Hbig].
  - (* the field lies inside the current byte *)
    rewrite Z.max_l by lia. change ((0 + 7) / 8) with 0.
    destruct (h_read_spec 0 (_fh r1)) as (Hgot & Hrest & _); [lia|].
    destruct (h_read 0 (_fh r1)) as [ebs fh2]. cbn [fst snd] in *.
    cbn in Hgot. subst ebs. cbn [Z.to_nat skipn] in Hrest.
    rewrite Z.min_l by lia.
    rewrite make_mask_ok by lia. cbn [obind]. cbn beta iota.
    rewrite py_shiftl_ok by lia. cbn [obind for_extra_bytes value new_pos current_byte].
    eexists. split; [|split].
    + rewrite Z.sub_diag, Z.mul_1_r, Z.lor_0_l.
      rewrite field_bits_Z by lia. fold A.
      rewrite firstn_app.
      replace (Z.to_nat k - length A)%nat with 0%nat by lia.
      cbn [firstn]. rewrite app_nil_r. reflexivity.
    + unfold wf. cbn. dlia.
    + unfold pending. cbn [_position _current_byte _fh]. rewrite Hrest.
      fold B. rewrite skipn_app.
      replace (Z.to_nat k - length A)%nat with 0%nat by lia.
      cbn [skipn]. f_equal.
      unfold A. rewrite skipn_skipn, !skipn_low_bits.
      destruct (Z.eqb_spec ((p + k) mod 8) 0) as [Hz|Hnz].
      * replace (8 - (Z.to_nat k + Z.to_nat p))%nat with 0%nat by dlia.
        reflexivity.
      * f_equal. dlia.
  - (* the field runs into the following bytes *)
    set (E := k - (8 - p)) in *.
    rewrite Z.max_r by lia.
    assert (Hnb : (E + 7) / 8 <= len (remaining (_fh r1)))
      by (unfold len; dlia).
    destruct (h_read_spec ((E + 7) / 8) (_fh r1)) as (Hgot & Hrest & _);
      [dlia|].
    destruct (h_read ((E + 7) / 8) (_fh r1)) as [ebs fh2].
    cbn [fst snd] in *.
    assert (Hlen : len ebs = (E + 7) / 8).
    { unfold len in *. rewrite Hgot, length_firstn. dlia. }
    rewrite Z.min_r by lia.
    rewrite make_mask_ok by lia. cbn [obind]. cbn beta iota.
    rewrite py_shiftl_ok by lia. cbn [obind].
    replace (k - (8 - p)) with E by reflexivity.
    rewrite Z.lor_0_l.
    set (piece := field cur (Z.shiftl (2 ^ (8 - p) - 1) (8 - (8 - p) - p))
                        (8 - (8 - p) - p)).
    destruct (for_extra_bytes_spec ebs (piece * 2 ^ E) E
                ((p + (8 - p)) mod 8) cur)
      as (s & Hs & Hval & Hnp & Hcb).
    { lia. } { exact Hlen. } { apply Z.mod_mul. apply Z.pow_nonzero; lia. }
    rewrite Hs. cbn [obind].
    assert (HB : B = bit_string ebs
                     ++ bit_string (skipn (Z.to_nat ((E + 7) / 8))
                                          (remaining (_fh r1)))).
    { unfold B. rewrite <- bit_string_app, Hgot, firstn_skipn. reflexivity. }
    assert (Hlebs : length (bit_string ebs) = Z.to_nat (8 * ((E + 7) / 8))).
    { rewrite length_bit_string. unfold len in Hlen. lia. }
    eexists. split; [|split].
    + f_equal. f_equal. rewrite Hval.
      rewrite firstn_app, (@firstn_all2 _ (Z.to_nat k) A) by lia.
      rewrite msb_value_app. unfold len.
      replace (Z.to_nat k - length A)%nat with (Z.to_nat E) by lia.
      rewrite HB, firstn_app, Hlebs.
      replace (Z.to_nat E - Z.to_nat (8 * ((E + 7) / 8)))%nat with 0%nat
        by dlia.
      cbn [firstn]. rewrite app_nil_r.
      rewrite length_firstn, Hlebs, Nat.min_l by dlia.
      rewrite Z2Nat.id by lia.
      unfold piece. rewrite field_bits_Z by lia.
      fold A. rewrite (@firstn_all2 _ _ A) by lia. reflexivity.
    + unfold wf. cbn [_position]. rewrite Hnp.
      destruct (Z.eqb_spec E 0); dlia.
    + unfold pending. cbn [_position _current_byte _fh].
      rewrite Hrest, Hnp, Hcb.
      destruct (Z.eqb_spec E 0) as [|_]; [lia|].
      rewrite skipn_app.
      rewrite (@skipn_all2 _ _ A) by lia. cbn [app].
      replace (Z.to_nat k - length A)%nat with (Z.to_nat E) by lia.
      rewrite HB, skipn_app, Hlebs.
      replace (Z.to_nat E - Z.to_nat (8 * ((E + 7) / 8)))%nat with 0%nat
        by dlia.
      cbn [skipn]. f_equal.
      rewrite (skipn_bit_string_last E ebs) by (lia || exact Hlen).
      destruct ebs as [|e0 etl]; [unfold len in Hlen; cbn in Hlen; dlia|].
      reflexivity.
Qed.

Lemma fetch_inside (r : t) : _position r <> 0 -> fetch r = Ok r.
Proof.
  intros H. unfold fetch. destruct (Z.eqb_spec (_position r) 0); [lia|].
  reflexivity.
Qed.

(** One call of [read] delivers the next [k] pending bits. *)
Lemma read_spec (r : t) (k : Z) :
  wf r -> 1 <= k <= len (pending r) ->
  exists r', read k r = Ok (msb_value (firstn (Z.to_nat k) (pending r)), r')
             /\ wf r' /\ pending r' = skipn (Z.to_nat k) (pending r).
Proof.
  intros Hwf Hk. unfold pending in *.
  destruct (Z.eqb_spec (_position r) 0) as [Hz|Hnz].
  - cbn [app] in *.
    destruct (remaining (_fh r)) as [|b tl] eqn:Hrem;
      [unfold len in Hk; cbn in Hk; lia|].
    destruct (fetch_boundary r b tl Hz Hrem) as (r1 & Hf & Hp1 & Hc1 & Hr1).
    pose proof (read_after_fetch r r1 k Hf) as H.
    rewrite Hp1, Hc1, Hr1 in H. cbn [Z.to_nat skipn] in H.
    apply H; [lia|exact Hk].
  - pose proof (read_after_fetch r r k (fetch_inside r Hnz) Hwf) as H.
    cbv zeta in H. apply H. exact Hk.
Qed.

Lemma read_all_spec (ks : list Z) :
  forall r,
    wf r -> Forall (fun k => 1 <= k) ks ->
    fold_right Z.add 0 ks <= len (pending r) ->
    exists r', read_all ks r
               = Ok (map msb_value (chunks ks (pending r)), r').
Proof.
  induction ks as [|k ks IH]; intros r Hwf Hks Hsum.
  - eexists. reflexivity.
  - inversion Hks as [|? ? Hk Hks']; subst.
    cbn [fold_right] in Hsum.
    assert (0 <= fold_right Z.add 0 ks).
    { clear - Hks'. induction Hks'; cbn [fold_right]; lia. }
    destruct (read_spec r k Hwf) as (r1 & Hr & Hwf1 & Hp1); [lia|].
    destruct (IH r1 Hwf1 Hks') as (r2 & Hr2).
    { rewrite Hp1. unfold len in *. rewrite length_skipn. lia. }
    exists r2. cbn [read_all]. rewrite Hr. cbn [obind]. cbn beta iota.
    rewrite Hr2. cbn [obind]. cbn beta iota.
    rewrite Hp1. reflexivity.
Qed.

Lemma for_extra_bytes_total (ebs : list byte) :
  forall v E np cb,
    0 <= E -> exists s, for_extra_bytes ebs (mkLocals v E E np cb) = Ok s.
Proof.
  induction ebs as [|b tl IH]; intros v E np cb HE.
  - eexists. reflexivity.
  - cbn [for_extra_bytes value bits_left_to_shift extra_bits_to_read].
    rewrite make_mask_ok by lia. cbn [obind]. cbn beta iota.
    rewrite py_shiftl_ok by lia. cbn [obind].
    apply IH. lia.
Qed.

Lemma fetch_raises (r : t) (e : exn) :
  fetch r = Raise e
  <-> _position r = 0 /\ remaining (_fh r) = [] /\ e = IndexError.
Proof.
  unfold fetch. destruct (Z.eqb_spec (_position r) 0) as [Hz|Hnz].
  - destruct (h_read_spec 1 (_fh r)) as (Hgot & _); [lia|].
    destruct (h_read 1 (_fh r)) as [data fh1]. cbn [fst] in Hgot.
    subst data. destruct (remaining (_fh r)) as [|b tl]; cbn.
    + split; [intros [= <-]; auto|intros (_ & _ & ->); reflexivity].
    + split; [discriminate|intros (_ & [=] & _)].
  - split; [discriminate|intros (? & _); contradiction].
Qed.

Lemma read_after_fetch_total (r r1 : t) (n : Z) :
  fetch r = Ok r1 -> 0 <= _position r1 < 8 ->
  (0 <= n -> exists v r', read n r = Ok (v, r'))
  /\ (n < 0 ->
      read n r
      = Raise (if n <=? - float_overflow then OverflowError else TypeError)).
Proof.
  intros Hf Hp. unfold read. rewrite Hf. cbn [obind]. split; intros Hn.
  - destruct (h_read _ (_fh r1)) as [ebs fh2].
    rewrite make_mask_ok by lia. cbn [obind]. cbn beta iota.
    rewrite py_shiftl_ok by lia. cbn [obind].
    replace (n - Z.min n (8 - _position r1))
      with (Z.max 0 (n - (8 - _position r1))) by lia.
    destruct (for_extra_bytes_total ebs
                (Z.lor 0 (field (_current_byte r1)
                   (Z.shiftl (2 ^ Z.min n (8 - _position r1) - 1)
                      (8 - Z.min n (8 - _position r1) - _position r1))
                   (8 - Z.min n (8 - _position r1) - _position r1)
                   * 2 ^ Z.max 0 (n - (8 - _position r1))))
                (Z.max 0 (n - (8 - _position r1)))
                ((_position r1 + Z.min n (8 - _position r1)) mod 8)
                (_current_byte r1)) as (s & Hs); [lia|].
    rewrite Hs. cbn [obind]. eauto.
  - destruct (h_read _ (_fh r1)) as [ebs fh2].
    rewrite Z.min_l by lia.
    rewrite make_mask_negative by lia. reflexivity.
Qed.


Lemma fetch_position (r r1 : t) :
  fetch r = Ok r1 -> _position r1 = _position r.
Proof.
  unfold fetch. destruct (_position r =? 0).
  - destruct (h_read 1 (_fh r)) as [data fh1].
    destruct (py_index data 0); cbn; [intros [= <-]; reflexivity|discriminate].
  - now intros [= <-].
Qed.

(** [read(0)] returns 0 when it returns. *)
Lemma read_zero (r r' : t) (v : Z) :
  wf r -> read 0 r = Ok (v, r') -> v = 0.
Proof.
  intros Hwf H. unfold read in H.
  destruct (fetch r) as [r1|e] eqn:Hf; [|discriminate].
  cbn [obind] in H.
  pose proof (fetch_position r r1 Hf) as Hp. unfold wf in Hwf.
  replace (Z.max 0 (0 - (8 - _position r1))) with 0 in H by lia.
  change ((0 + 7) / 8) with 0 in H.
  unfold h_read in H. cbn [Z.ltb Z.compare Z.to_nat firstn length] in H.
  replace (Z.min 0 (8 - _position r1)) with 0 in H by lia.
  rewrite make_mask_ok in H by lia. cbn [obind] in H. cbn beta iota in H.
  rewrite py_shiftl_ok in H by lia. cbn [obind for_extra_bytes] in H.
  injection H as <- _. cbn [value].
  change (2 ^ 0 - 1) with 0. rewrite Z.shiftl_0_l.
  unfold field. rewrite Z.land_0_r, Z.shiftr_0_l. reflexivity.
Qed.

End BitReaderFacts.

(** ** The segmented reader *)

Module StreamFacts.
Import StreamReader.

(** *** Binary search *)

Lemma bisect_loop_spec (keys : list Z) (x : Z) :
  sorted keys ->
  forall rounds lo hi,
    (lo <= hi <= length keys)%nat -> (hi - lo <= rounds)%nat ->
    (forall j, (j < lo)%nat -> nth j keys 0 <= x) ->
    (forall j, (hi <= j < length keys)%nat -> x < nth j keys 0) ->
    let ip := bisect_loop rounds keys x lo hi in
    (ip <= length keys)%nat
    /\ (forall j, (j < ip)%nat -> nth j keys 0 <= x)
    /\ (forall j, (ip <= j < length keys)%nat -> x < nth j keys 0).
Proof.
  intros Hsorted. induction rounds as [|rounds IH]; intros lo hi Hb Hr Hlo Hhi.
  - cbn. assert (lo = hi) by lia. subst hi. repeat split; auto; lia.
  - cbn [bisect_loop]. destruct (Nat.ltb_spec lo hi) as [Hlt|Hge].
    + set (mid := ((lo + hi) / 2)%nat).
      assert (Hmid : (lo <= mid < hi)%nat).
      { subst mid. split.
        - apply Nat.div_le_lower_bound; lia.
        - apply Nat.Div0.div_lt_upper_bound; lia. }
      destruct (Z.ltb_spec x (nth mid keys 0)) as [Hx|Hx].
      * apply IH; try lia; auto.
        intros j Hj. destruct (Nat.lt_ge_cases j hi) as [Hjh|Hjh].
        -- pose proof (Hsorted mid j). lia.
        -- apply Hhi. lia.
      * apply IH; try lia; auto.
        intros j Hj. pose proof (Hsorted j mid). lia.
    + assert (lo = hi) by lia. subst hi. repeat split; auto; lia.
Qed.

Lemma bisect_spec (keys : list Z) (x : Z) :
  sorted keys ->
  exists ip : nat,
    bisect keys x = Z.of_nat ip
    /\ (ip <= length keys)%nat
    /\ (forall j, (j < ip)%nat -> nth j keys 0 <= x)
    /\ (forall j, (ip <= j < length keys)%nat -> x < nth j keys 0).
Proof.
  intros Hs. exists (bisect_loop (length keys) keys x 0 (length keys)).
  split; [reflexivity|].
  apply bisect_loop_spec; auto; try lia.
Qed.

(** *** Contiguous segment lists *)

Lemma total_app (a b : list SegmentInfo) : total (a ++ b) = total a + total b.
Proof. induction a as [|s a IH]; cbn; [reflexivity|]. unfold total in *. lia. Qed.

Lemma init_total_size (segs : list SegmentInfo) :
  total_size (__init__ segs) = total segs.
Proof.
  cbn. assert (H : forall acc,
              fold_left (fun t s => t + data_size s) segs acc
              = acc + total segs).
  { induction segs as [|s segs IH]; intros acc; cbn; [lia|].
    rewrite IH. unfold total. lia. }
  rewrite H. lia.
Qed.

Lemma contiguous_sizes (segs : list SegmentInfo) :
  forall v, contiguous_from v segs -> Forall (fun s => 0 <= data_size s) segs.
Proof.
  induction segs as [|s segs IH]; intros v H; constructor; cbn in H.
  - tauto.
  - apply (IH (v + data_size s)). tauto.
Qed.

Lemma total_nonneg (segs : list SegmentInfo) :
  Forall (fun s => 0 <= data_size s) segs -> 0 <= total segs.
Proof. induction 1; cbn; [lia|]. unfold total in *. lia. Qed.

Lemma contiguous_split (pre : list SegmentInfo) :
  forall v s post,
    contiguous_from v (pre ++ s :: post) ->
    virtual_start s = v + total pre
    /\ 0 <= data_size s
    /\ contiguous_from (virtual_start s + data_size s) post
    /\ Forall (fun s => 0 <= data_size s) pre.
Proof.
  induction pre as [|p pre IH]; intros v s post H; cbn in H.
  - destruct H as (Hv & Hs & Hc). cbn. rewrite Hv.
    repeat split; auto; lia.
  - destruct H as (Hv & Hs & Hc).
    destruct (IH _ _ _ Hc) as (H1 & H2 & H3 & H4).
    repeat split; auto. cbn. unfold total in *. lia.
Qed.

Lemma split_at {A} (l : list A) (i : nat) (d : A) :
  (i < length l)%nat -> l = firstn i l ++ nth i l d :: skipn (S i) l.
Proof.
  revert i. induction l as [|a l IH]; intros i Hi; cbn in Hi; [lia|].
  destruct i as [|i]; [reflexivity|].
  cbn [firstn nth skipn app]. f_equal. apply IH. lia.
Qed.

Lemma contiguous_nth (segs : list SegmentInfo) (i : nat) :
  contiguous segs -> (i < length segs)%nat ->
  virtual_start (nth i segs d0) = total (firstn i segs).
Proof.
  intros Hc Hi. unfold contiguous in Hc.
  rewrite (split_at segs i d0 Hi) in Hc.
  apply contiguous_split in Hc. lia.
Qed.

Lemma Forall_firstn' {A} (P : A -> Prop) (l : list A) :
  Forall P l -> forall n, Forall P (firstn n l).
Proof.
  induction 1; intros [|n]; cbn; constructor; auto.
Qed.

Lemma total_firstn_mono (segs : list SegmentInfo) :
  Forall (fun s => 0 <= data_size s) segs ->
  forall i j, (i <= j)%nat -> total (firstn i segs) <= total (firstn j segs).
Proof.
  induction 1 as [|s segs Hs Hall IH]; intros i j Hij.
  - rewrite !firstn_nil. lia.
  - destruct i as [|i].
    + cbn [firstn]. change (total []) with 0. apply total_nonneg.
      apply Forall_firstn'. constructor; auto.
    + destruct j as [|j]; [lia|]. rewrite !firstn_cons.
      assert (Hij' : (i <= j)%nat) by lia.
      specialize (IH i j Hij'). unfold total in *. cbn. lia.
Qed.

Lemma keys_sorted (segs : list SegmentInfo) :
  contiguous segs -> sorted (map virtual_start segs).
Proof.
  intros Hc i j Hij. rewrite length_map in Hij.
  change 0 with (virtual_start d0). rewrite !map_nth.
  rewrite !contiguous_nth by (auto; lia).
  apply total_firstn_mono; [|lia].
  apply (contiguous_sizes segs 0 Hc).
Qed.


Lemma total_firstn_S (segs : list SegmentInfo) (i : nat) :
  (i < length segs)%nat ->
  total (firstn (S i) segs)
  = total (firstn i segs) + data_size (nth i segs d0).
Proof.
  revert i. induction segs as [|s segs IH]; intros i Hi; cbn in Hi; [lia|].
  destruct i as [|i].
  - cbn. lia.
  - rewrite !firstn_cons. cbn [nth].
    assert (Hi' : (i < length segs)%nat) by lia.
    specialize (IH i Hi'). unfold total in *. cbn [fold_right] in *. lia.
Qed.

Lemma py_index_nat {A} (l : list A) (i : nat) (d : A) :
  (i < length l)%nat -> py_index l (Z.of_nat i) = Ok (nth i l d).
Proof.
  intros Hi. unfold py_index, len.
  destruct (Z.ltb_spec (Z.of_nat i) 0); [lia|].
  destruct (Z.ltb_spec (Z.of_nat i) 0); [lia|].
  destruct (Z.leb_spec (Z.of_nat (length l)) (Z.of_nat i)); [lia|].
  cbn [orb]. rewrite Nat2Z.id.
  rewrite (nth_error_nth' l d Hi). reflexivity.
Qed.

(** [seek(x)] with [0 <= x <= total] lands in the rightmost segment that
    starts at or before [x]. *)
Lemma seek_set_spec (segs : list SegmentInfo) (T pos off x : Z) :
  segs <> [] -> contiguous segs -> T = total segs -> 0 <= x <= T ->
  exists i : nat,
    (i < length segs)%nat
    /\ seek x SEEK_SET (mk segs T pos off)
       = Ok (x, mk segs T (Z.of_nat i)
                   (x - virtual_start (nth i segs d0)))
    /\ virtual_start (nth i segs d0) <= x
       <= virtual_start (nth i segs d0) + data_size (nth i segs d0).
Proof.
  intros Hne Hc HT Hx.
  destruct (bisect_spec (map virtual_start segs) x (keys_sorted segs Hc))
    as (ip & Hip & Hle & Hbelow & Habove).
  rewrite length_map in Hle, Habove.
  assert (Hlen : (0 < length segs)%nat) by (destruct segs; cbn; [congruence|lia]).
  assert (Hkey : forall j, (j < length segs)%nat ->
                           nth j (map virtual_start segs) 0
                           = total (firstn j segs)).
  { intros j Hj. change 0 with (virtual_start d0) at 1.
    rewrite map_nth. apply contiguous_nth; auto. }
  assert (Hip1 : (1 <= ip)%nat).
  { destruct ip as [|ip]; [|lia].
    assert (H0 : (0 <= 0 < length segs)%nat) by lia.
    specialize (Habove 0%nat H0). rewrite Hkey in Habove by lia.
    cbn in Habove. lia. }
  exists (ip - 1)%nat. split; [lia|].
  assert (Hlow : nth (ip - 1) (map virtual_start segs) 0 <= x)
    by (apply Hbelow; lia).
  rewrite Hkey in Hlow by lia.
  rewrite contiguous_nth by (auto; lia).
  split.
  - unfold seek. cbn [Z.eqb SEEK_SET segment_info total_size].
    rewrite Z.max_r, Z.min_l by lia. cbn [obind].
    unfold _find_seek_position. cbn [segment_info]. rewrite Hip.
    replace (Z.of_nat ip - 1) with (Z.of_nat (ip - 1)) by lia.
    rewrite (py_index_nat segs (ip - 1) d0) by lia. cbn [obind].
    rewrite contiguous_nth by (auto; lia). reflexivity.
  - split; [exact Hlow|].
    rewrite <- total_firstn_S by lia.
    replace (S (ip - 1)) with ip by lia.
    destruct (Nat.lt_ge_cases ip (length segs)) as [Hlt|Hge].
    + assert (Hip' : (ip <= ip < length segs)%nat) by lia.
      specialize (Habove ip Hip'). rewrite Hkey in Habove by lia. lia.
    + rewrite firstn_all2 by lia. lia.
Qed.


(** *** The read loop *)

Lemma segment_bytes_ext (fs fs' : Files) (s : SegmentInfo) :
  same_data fs fs' -> segment_bytes fs s = segment_bytes fs' s.
Proof. intros H. unfold segment_bytes. now rewrite H. Qed.

Lemma content_ext (fs fs' : Files) (segs : list SegmentInfo) :
  same_data fs fs' -> content fs segs = content fs' segs.
Proof.
  intros H. unfold content. f_equal. apply map_ext.
  intros s. now apply segment_bytes_ext.
Qed.

Lemma backed_ext (fs fs' : Files) (segs : list SegmentInfo) :
  same_data fs fs' -> backed fs segs -> backed fs' segs.
Proof.
  intros H. unfold backed. apply Forall_impl. intros s. now rewrite H.
Qed.

Lemma same_data_set_file (fs : Files) (i : nat) (h : Handle) :
  h_data h = h_data (fs i) -> same_data fs (set_file fs i h).
Proof.
  intros H j. unfold set_file. destruct (Nat.eqb_spec j i); congruence.
Qed.

Lemma length_segment_bytes (fs : Files) (s : SegmentInfo) :
  0 <= real_address s -> 0 <= data_size s ->
  real_address s + data_size s <= len (h_data (fs (fh s))) ->
  length (segment_bytes fs s) = Z.to_nat (data_size s).
Proof.
  intros. unfold segment_bytes, len in *.
  rewrite length_firstn, length_skipn. lia.
Qed.

Lemma length_content (fs : Files) (segs : list SegmentInfo) :
  backed fs segs -> Forall (fun s => 0 <= data_size s) segs ->
  len (content fs segs) = total segs.
Proof.
  unfold content, len. induction 1 as [|s segs Hs Hb IH]; intros Hsz.
  - reflexivity.
  - inversion Hsz; subst. cbn [map concat]. rewrite length_app.
    rewrite length_segment_bytes by tauto.
    specialize (IH ltac:(assumption)). unfold total in *. cbn. lia.
Qed.

Lemma while_left_eq (fuel : nat) (r : t) (fs : Files) (left : Z)
    (data : list byte) :
  while_left fuel r fs left data
  = if (0 <? left) && (position r <? len (segment_info r)) then
      match fuel with
      | O => None
      | S fuel' =>
          match py_index (segment_info r) (position r) with
          | Raise e => Some (Raise e)
          | Ok segment =>
              let to_read := Z.min left (data_size segment - offset r) in
              match h_seek (real_address segment + offset r)
                           (fs (fh segment)) with
              | (Raise e, _) => Some (Raise e)
              | (Ok _, h1) =>
                  let (data_read, h2) := h_read to_read h1 in
                  let fs' := set_file fs (fh segment) h2 in
                  let offset' := offset r + len data_read in
                  let r' :=
                    if data_size segment <=? offset' then
                      mk (segment_info r) (total_size r) (position r + 1) 0
                    else
                      mk (segment_info r) (total_size r) (position r) offset'
                  in
                  while_left fuel' r' fs' (left - len data_read)
                             (data ++ data_read)
              end
          end
      end
    else Some (Ok (data, r, fs)).
Proof. destruct fuel; reflexivity. Qed.

(** A positioned read inside a segment returns the bytes asked for. *)
Lemma read_chunk (fs : Files) (s : SegmentInfo) (o n : Z) (h : Handle) :
  0 <= real_address s ->
  real_address s + data_size s <= len (h_data (fs (fh s))) ->
  0 <= o -> 0 <= n <= data_size s - o ->
  h_data h = h_data (fs (fh s)) ->
  exists h1 h2,
    h_seek (real_address s + o) h = (Ok (real_address s + o), h1)
    /\ h_read n h1
       = (firstn (Z.to_nat n) (skipn (Z.to_nat o) (segment_bytes fs s)), h2)
    /\ h_data h2 = h_data (fs (fh s))
    /\ len (firstn (Z.to_nat n) (skipn (Z.to_nat o) (segment_bytes fs s)))
       = n.
Proof.
  intros Hra Hfit Ho Hn Hd.
  assert (Hbytes : firstn (Z.to_nat n) (skipn (Z.to_nat o) (segment_bytes fs s))
                   = firstn (Z.to_nat n)
                       (skipn (Z.to_nat (real_address s + o))
                              (h_data (fs (fh s))))).
  { unfold segment_bytes. rewrite skipn_firstn_comm, firstn_firstn.
    rewrite skipn_skipn. f_equal; [lia|]. f_equal. lia. }
  unfold h_seek. destruct (Z.ltb_spec (real_address s + o) 0); [lia|].
  eexists. eexists. split; [reflexivity|].
  unfold h_read, remaining. cbn [h_pos h_data].
  destruct (Z.ltb_spec n 0); [lia|]. rewrite Hd.
  split; [rewrite Hbytes; reflexivity|]. split; [reflexivity|].
  rewrite Hbytes. unfold len in *.
  rewrite length_firstn, length_skipn. lia.
Qed.


Lemma py_index_middle (pre : list SegmentInfo) (s : SegmentInfo)
    (post : list SegmentInfo) :
  py_index (pre ++ s :: post) (len pre) = Ok s.
Proof.
  unfold len. rewrite (py_index_nat _ _ d0).
  - now rewrite nth_middle.
  - rewrite length_app. cbn. lia.
Qed.

(** From inside segment [s], the loop delivers the next [left] bytes of
    the virtual stream, in at most one round per remaining segment. *)
Lemma while_left_spec (post : list SegmentInfo) :
  forall pre s o left data fs fuel T,
    backed fs (pre ++ s :: post) ->
    Forall (fun s => 0 <= data_size s) (s :: post) ->
    0 <= o <= data_size s ->
    0 <= left <= data_size s - o + total post ->
    (length post < fuel)%nat ->
    exists r' fs',
      while_left fuel (mk (pre ++ s :: post) T (len pre) o) fs left data
      = Some (Ok (data ++ firstn (Z.to_nat left)
                            (skipn (Z.to_nat o) (segment_bytes fs s)
                             ++ content fs post),
                  r', fs'))
      /\ same_data fs fs'.
Proof.
  induction post as [|s' post IH];
    intros pre s o left data fs fuel T Hb Hsz Ho Hl Hfuel.
  all: rewrite while_left_eq; cbn [position segment_info offset total_size].
  all: destruct (Z.ltb_spec 0 left) as [Hpos|Hzero];
    [|assert (left = 0) by lia; subst left; cbn [andb Z.to_nat firstn];
      rewrite app_nil_r; eexists; eexists; split;
      [reflexivity|intros i; reflexivity]].
  all: pose proof (proj1 (Forall_app _ _ _) Hb) as (_ & Hbs).
  all: inversion Hbs as [|? ? (Hra & Hfit) Hbpost]; subst.
  all: inversion Hsz as [|? ? Hs0 Hszpost]; subst.
  all: destruct fuel as [|fuel]; [lia|].
  - (* [s] is the last segment *)
    change (total []) with 0 in Hl.
    replace (len pre <? len (pre ++ [s])) with true
      by (symmetry; apply Z.ltb_lt; unfold len; rewrite length_app; cbn; lia).
    cbn [andb]. rewrite py_index_middle.
    rewrite Z.min_l by lia.
    destruct (read_chunk fs s o left (fs (fh s)))
      as (h1 & h2 & Hseek & Hread & Hd2 & Hlen); try lia; auto.
    rewrite Hseek, Hread. cbv zeta. rewrite Hlen.
    rewrite while_left_eq. rewrite Z.sub_diag. cbn [Z.ltb Z.compare andb].
    eexists. eexists. split.
    + cbn [content map concat]. rewrite app_nil_r. reflexivity.
    + apply same_data_set_file. exact Hd2.
  - (* more segments follow *)
    replace (len pre <? len (pre ++ s :: s' :: post)) with true
      by (symmetry; apply Z.ltb_lt; unfold len; rewrite length_app; cbn; lia).
    cbn [andb]. rewrite py_index_middle.
    assert (Htp : 0 <= total (s' :: post)) by (apply total_nonneg; auto).
    set (n := Z.min left (data_size s - o)).
    destruct (read_chunk fs s o n (fs (fh s)))
      as (h1 & h2 & Hseek & Hread & Hd2 & Hlen); try lia; auto.
    rewrite Hseek, Hread. cbv zeta. rewrite Hlen.
    pose proof (same_data_set_file fs (fh s) h2 Hd2) as Hsame.
    set (fs1 := set_file fs (fh s) h2) in *.
    assert (Hseglen : length (skipn (Z.to_nat o) (segment_bytes fs s))
                      = Z.to_nat (data_size s - o)).
    { rewrite length_skipn, length_segment_bytes by lia. lia. }
    destruct (Z.leb_spec (data_size s) (o + n)) as [Hfull|Hpart].
    + (* the segment is used up: on to the next one *)
      assert (Hn : n = data_size s - o) by lia.
      replace (pre ++ s :: s' :: post) with ((pre ++ [s]) ++ s' :: post)
        by (rewrite <- app_assoc; reflexivity).
      replace (len pre + 1) with (len (pre ++ [s]))
        by (unfold len; rewrite length_app; cbn; lia).
      inversion Hszpost as [|? ? Hs'0 Hszpost']; subst.
      destruct (IH (pre ++ [s]) s' 0 (left - n)
                   (data ++ firstn (Z.to_nat n)
                              (skipn (Z.to_nat o) (segment_bytes fs s)))
                   fs1 fuel T)
        as (r' & fs' & Hrun & Hsame').
      * apply (backed_ext fs); auto. rewrite <- app_assoc. exact Hb.
      * exact Hszpost.
      * lia.
      * cbn [total fold_right] in Hl. unfold total. lia.
      * cbn [length] in Hfuel. lia.
      * exists r', fs'. split.
        -- rewrite Hrun. do 3 f_equal. apply (f_equal (fun x => (x, r'))).
           rewrite <- app_assoc.
           apply (f_equal (app data)).
           rewrite (firstn_all2 (skipn (Z.to_nat o) (segment_bytes fs s)))
             by lia.
           rewrite (firstn_app (Z.to_nat left)), Hseglen.
           rewrite (firstn_all2 (skipn (Z.to_nat o) (segment_bytes fs s)))
             by lia.
           f_equal.
           replace (Z.to_nat left - Z.to_nat (data_size s - o))%nat
             with (Z.to_nat (left - n)) by lia.
           cbn [Z.to_nat skipn content map concat].
           rewrite <- (segment_bytes_ext fs fs1) by exact Hsame.
           f_equal. f_equal.
           fold (content fs1 post). fold (content fs post).
           symmetry. apply content_ext. exact Hsame.
        -- intros i. rewrite (Hsame i). apply Hsame'.
    + (* the request ends inside the segment *)
      assert (Hn : n = left) by lia.
      rewrite while_left_eq. rewrite Hn, Z.sub_diag.
      cbn [Z.ltb Z.compare andb].
      exists (mk (pre ++ s :: s' :: post) T (len pre) (o + left)), fs1.
      split; [|exact Hsame].
      do 3 f_equal. rewrite firstn_app, Hseglen.
      replace (Z.to_nat left - Z.to_nat (data_size s - o))%nat with 0%nat
        by lia.
      cbn [firstn]. now rewrite app_nil_r.
Qed.


Lemma while_left_frame (fuel : nat) :
  forall r fs left data d r' fs',
    while_left fuel r fs left data = Some (Ok (d, r', fs')) ->
    segment_info r' = segment_info r /\ total_size r' = total_size r.
Proof.
  induction fuel as [|fuel IH]; intros r fs left data d r' fs';
    rewrite while_left_eq.
  - destruct (andb _ _); [discriminate|]. intros [= _ <- _]. auto.
  - destruct (andb _ _); [|intros [= _ <- _]; auto].
    destruct (py_index (segment_info r) (position r)) as [seg|];
      [|discriminate].
    destruct (h_seek (real_address seg + offset r) (fs (fh seg)))
      as [[?|?] h1]; [|discriminate].
    destruct (h_read (Z.min left (data_size seg - offset r)) h1)
      as [data_read h2]. cbv zeta.
    intros H. apply IH in H.
    match type of H with
    | context [if ?c then _ else _] => destruct c
    end; cbn in H; exact H.
Qed.

Lemma seek_set_split (segs : list SegmentInfo) (T pos off x : Z) :
  segs <> [] -> contiguous segs -> T = total segs -> 0 <= x <= T ->
  exists pre s post,
    segs = pre ++ s :: post
    /\ seek x SEEK_SET (mk segs T pos off)
       = Ok (x, mk segs T (len pre) (x - virtual_start s))
    /\ virtual_start s <= x <= virtual_start s + data_size s.
Proof.
  intros Hne Hc HT Hx.
  destruct (seek_set_spec segs T pos off x Hne Hc HT Hx)
    as (i & Hi & Hseek & Hb).
  exists (firstn i segs), (nth i segs d0), (skipn (S i) segs).
  split; [apply split_at; exact Hi|].
  unfold len. rewrite length_firstn, Nat.min_l by lia. auto.
Qed.

(** [seek(x)] then [read(n)] returns the [n] bytes of the virtual stream
    from [x] on, and leaves the content of the files as it was. *)
Lemma seek_read_content (segs : list SegmentInfo) (fs : Files)
    (pos off x n : Z) (fuel : nat) :
  segs <> [] -> contiguous segs -> backed fs segs ->
  0 <= x -> 0 <= n -> x + n <= total segs -> (length segs <= fuel)%nat ->
  exists pos' off' fs',
    seek_read fuel x n (mk segs (total segs) pos off) fs
    = Some (Ok (firstn (Z.to_nat n) (skipn (Z.to_nat x) (content fs segs)),
                mk segs (total segs) pos' off', fs'))
    /\ same_data fs fs'.
Proof.
  intros Hne Hc Hb Hx Hn HxT Hfuel.
  destruct (seek_set_split segs (total segs) pos off x Hne Hc eq_refl)
    as (pre & s & post & Hsplit & Hseek & Hrange); [lia|].
  subst segs.
  unfold seek_read. rewrite Hseek. unfold read.
  destruct (Z.ltb_spec n 0); [lia|].
  pose proof Hc as Hc'. unfold contiguous in Hc'.
  apply contiguous_split in Hc'. destruct Hc' as (Hvs & Hs0 & Hcpost & Hpre).
  pose proof (contiguous_sizes _ _ Hcpost) as Hpost.
  assert (HT : total (pre ++ s :: post)
               = total pre + data_size s + total post).
  { rewrite total_app. cbn. unfold total. lia. }
  destruct (while_left_spec post pre s (x - virtual_start s) n [] fs fuel
              (total (pre ++ s :: post)) Hb)
    as (r' & fs' & Hrun & Hsame).
  { constructor; auto. }
  { lia. }
  { lia. }
  { rewrite length_app in Hfuel. cbn in Hfuel. lia. }
  pose proof (while_left_frame _ _ _ _ _ _ _ _ Hrun) as Hframe.
  destruct r' as [segs' T' pos' off']. cbn in Hframe.
  destruct Hframe as (-> & ->).
  exists pos', off', fs'. split; [|exact Hsame].
  rewrite Hrun. cbn [app].
  do 3 f_equal. apply (f_equal (fun d => (d, _))).
  unfold content at 2.
  rewrite map_app, concat_app. cbn [map concat].
  fold (content fs pre). fold (content fs post).
  pose proof (proj1 (Forall_app _ _ _) Hb) as (Hbpre & Hbs).
  assert (Hlpre : length (content fs pre) = Z.to_nat (virtual_start s)).
  { pose proof (length_content fs pre Hbpre Hpre) as L.
    unfold len in L. lia. }
  inversion Hbs as [|? ? (Hra & Hfit) _]; subst.
  pose proof (total_nonneg pre Hpre) as Hpre0.
  rewrite skipn_app, Hlpre.
  rewrite (skipn_all2 (content fs pre)) by lia. cbn [app].
  rewrite skipn_app, length_segment_bytes by lia.
  replace (Z.to_nat x - Z.to_nat (virtual_start s))%nat
    with (Z.to_nat (x - virtual_start s)) by lia.
  replace (Z.to_nat (x - virtual_start s) - Z.to_nat (data_size s))%nat
    with 0%nat by lia.
  reflexivity.
Qed.

Lemma py_slice_inside {A} (l : list A) (a b : Z) :
  0 <= a <= b -> b <= len l ->
  py_slice l a b = firstn (Z.to_nat (b - a)) (skipn (Z.to_nat a) l).
Proof.
  intros Ha Hb. unfold py_slice, slice_bound.
  destruct (Z.ltb_spec a 0); [lia|]. destruct (Z.ltb_spec b 0); [lia|].
  now rewrite !Z.min_l by lia.
Qed.

(** A segment that runs past the end of its file: once the loop stands
    at or after the end of the file, inside the segment, every round
    reads [b""] and changes nothing, so no number of rounds suffices. *)
Lemma while_left_stuck (segs : list SegmentInfo) (tot pos o left : Z)
    (s : SegmentInfo) :
  0 <= pos < len segs -> py_index segs pos = Ok s ->
  0 < left -> o < data_size s -> 0 <= real_address s + o ->
  forall (fuel : nat) (fs : Files) (data : list byte),
    (length (h_data (fs (fh s))) <= Z.to_nat (real_address s + o))%nat ->
    while_left fuel (mk segs tot pos o) fs left data = None.
Proof.
  intros Hpos Hidx Hleft Ho Hra.
  induction fuel as [|fuel IH]; intros fs data Hlen; cbn [while_left].
  - cbn [position segment_info].
    destruct (Z.ltb_spec 0 left); [|lia].
    destruct (Z.ltb_spec pos (len segs)); [|lia]. reflexivity.
  - cbn [position segment_info offset total_size].
    destruct (Z.ltb_spec 0 left); [|lia].
    destruct (Z.ltb_spec pos (len segs)); [|lia]. cbn [andb].
    rewrite Hidx. unfold h_seek.
    destruct (Z.ltb_spec (real_address s + o) 0); [lia|].
    unfold h_read, remaining. cbn [h_pos h_data].
    rewrite skipn_all2 by exact Hlen.
    destruct (Z.min left (data_size s - o) <? 0); rewrite ?firstn_nil;
      cbn [length]; unfold len; cbn [length];
      rewrite !Z.add_0_r, !Z.sub_0_r, app_nil_r;
      (destruct (Z.leb_spec (data_size s) o); [lia|]);
      apply IH; unfold set_file; rewrite Nat.eqb_refl; exact Hlen.
Qed.

End StreamFacts.
Module SeekFacts.
Import StreamReader StreamFacts.

Lemma bisect_loop_bounds (keys : list Z) (x : Z) :
  forall rounds lo hi,
    (lo <= hi)%nat -> (lo <= bisect_loop rounds keys x lo hi <= hi)%nat.
Proof.
  induction rounds as [|rounds IH]; intros lo hi Hle; cbn [bisect_loop].
  - lia.
  - destruct (Nat.ltb_spec lo hi) as [Hlt|Hge]; [|lia].
    assert (Hmid : (lo <= (lo + hi) / 2 < hi)%nat).
    { split.
      - apply Nat.div_le_lower_bound; lia.
      - apply Nat.Div0.div_lt_upper_bound; lia. }
    destruct (x <? nth ((lo + hi) / 2) keys 0).
    + assert (H : (lo <= (lo + hi) / 2)%nat) by lia.
      specialize (IH lo _ H). lia.
    + assert (H : (S ((lo + hi) / 2) <= hi)%nat) by lia.
      specialize (IH _ hi H). lia.
Qed.

(** After a [seek] that returns, [tell()] is the position returned,
    whatever the origin. *)
Lemma seek_tell (r r' : t) (off whence x : Z) :
  seek off whence r = Ok (x, r') -> tell r' = Ok x.
Proof.
  unfold seek.
  destruct (if whence =? SEEK_SET then _ else _) as [x'|]; [|discriminate].
  cbn [obind]. unfold _find_seek_position.
  set (p := bisect (map virtual_start (segment_info r)) x' - 1).
  destruct (py_index (segment_info r) p) as [seg|] eqn:Hseg; [|discriminate].
  cbn [obind]. intros [= <- <-].
  unfold tell, _current_virtual_pos. cbn [segment_info position offset].
  assert (Hp : p < len (segment_info r)).
  { subst p. unfold bisect, len.
    pose proof (bisect_loop_bounds (map virtual_start (segment_info r)) x'
                  (length (map virtual_start (segment_info r))) 0
                  (length (map virtual_start (segment_info r)))) as B.
    rewrite length_map in B. rewrite length_map. lia. }
  destruct (Z.leb_spec (len (segment_info r)) p); [lia|].
  rewrite Hseg. cbn [obind]. f_equal. lia.
Qed.

(** From the start and from the end, the position returned is clamped on
    both sides. *)
Lemma seek_set_end_range (r r' : t) (off whence x : Z) :
  0 <= total_size r ->
  whence = SEEK_SET \/ whence = SEEK_END ->
  seek off whence r = Ok (x, r') ->
  0 <= x <= total_size r
  /\ (whence = SEEK_SET -> x = Z.min (Z.max 0 off) (total_size r))
  /\ (whence = SEEK_END -> x = Z.max 0 (total_size r + Z.min off 0)).
Proof.
  intros HT Hw. unfold seek.
  destruct Hw as [-> | ->];
    [change (SEEK_SET =? SEEK_SET) with true
    |change (SEEK_END =? SEEK_SET) with false;
     change (SEEK_END =? SEEK_CUR) with false;
     change (SEEK_END =? SEEK_END) with true];
    cbn [obind].
  all: match goal with
       | |- context [py_index ?l ?i] => destruct (py_index l i)
       end; [|discriminate].
  all: cbn [obind]; intros [= <- _].
  all: repeat split; try lia; intros; try reflexivity; try discriminate.
Qed.

(** From the current position, only the upper bound is enforced. *)
Lemma seek_cur_value (r r' : t) (off x cur : Z) :
  _current_virtual_pos r = Ok cur ->
  seek off SEEK_CUR r = Ok (x, r') ->
  x = Z.min (off + cur) (total_size r).
Proof.
  intros Hcur. unfold seek.
  change (SEEK_CUR =? SEEK_SET) with false.
  change (SEEK_CUR =? SEEK_CUR) with true. rewrite Hcur. cbn [obind].
  match goal with
  | |- context [py_index ?l ?i] => destruct (py_index l i)
  end; [|discriminate].
  cbn [obind]. now intros [= <- _].
Qed.
End SeekFacts.

(** ** Headers *)

Module HeaderFacts.

Lemma readinto_prefix (n : nat) (h : Handle) (l tail : list byte) :
  length l = n -> remaining h = l ++ tail ->
  h_readinto n h = (l, mkHandle (h_data h) (h_pos h + n)).
Proof.
  intros Hl Hrem. unfold h_readinto, h_read.
  destruct (Z.ltb_spec (Z.of_nat n) 0); [lia|].
  rewrite Hrem, Nat2Z.id, firstn_app, Hl, Nat.sub_diag.
  rewrite <- Hl, firstn_all. cbn [firstn]. rewrite !app_nil_r.
  rewrite Nat.sub_diag. cbn [repeat]. now rewrite app_nil_r.
Qed.

(** Clearing a marker bit of a byte leaves the two high bits as they
    are and makes the marker field 0. *)
Lemma cleared_high_bits (b : byte) :
  field (byte_val (byte_of_Z (Z.land (byte_val b) (Z.lxor 0xFF 0x04))))
        0xC0 6
  = field (byte_val b) 0xC0 6.
Proof. destruct b; reflexivity. Qed.

Lemma cleared_bit_2 (b : byte) :
  field (byte_val (byte_of_Z (Z.land (byte_val b) (Z.lxor 0xFF 0x04))))
        0x04 2 = 0.
Proof. destruct b; reflexivity. Qed.

Lemma cleared_bit_1 (b : byte) :
  field (byte_val (byte_of_Z (Z.land (byte_val b) (Z.lxor 0xFF 0x02))))
        0x02 1 = 0.
Proof. destruct b; reflexivity. Qed.

Lemma cleared_bit_0 (b : byte) :
  field (byte_val (byte_of_Z (Z.land (byte_val b) (Z.lxor 0xFF 0x01))))
        0x01 0 = 0.
Proof. destruct b; reflexivity. Qed.

End HeaderFacts.


Module FlagFacts.

Lemma bind_ok {A B} (m : IO A) (k : A -> IO B) (h h' : Handle) (b : B) :
  bind m k h = (Ok b, h') ->
  exists a h1, m h = (Ok a, h1) /\ k a h1 = (Ok b, h').
Proof.
  unfold bind. destruct (m h) as [[a|e] h1]; [eauto|discriminate].
Qed.


End FlagFacts.


(** ** File objects, [try ... finally] and the recognizers *)

Module IOFacts.

Lemma keeps_ret {A} (a : A) : keeps_data (ret a).
Proof. intros h; reflexivity. Qed.

Lemma keeps_raise {A} (e : exn) : keeps_data (@raise A e).
Proof. intros h; reflexivity. Qed.

Lemma keeps_tell : keeps_data tell.
Proof. intros h; reflexivity. Qed.

Lemma keeps_seek (p : Z) : keeps_data (seek p).
Proof. intros h. unfold seek, h_seek. destruct (p <? 0); reflexivity. Qed.

Lemma keeps_seek_cur (d : Z) : keeps_data (seek_cur d).
Proof. intros h. unfold seek_cur, h_seek_cur. apply keeps_seek. Qed.

Lemma keeps_read (n : Z) : keeps_data (read n).
Proof. intros h; reflexivity. Qed.

Lemma keeps_readinto (n : nat) : keeps_data (readinto n).
Proof. intros h; reflexivity. Qed.

Lemma keeps_peek (n : nat) : keeps_data (peek n).
Proof.
  intros h. unfold peek. cbn [h_read].
  destruct (_ =? n)%nat; [reflexivity|].
  unfold h_seek_cur, h_seek. destruct (_ <? 0); reflexivity.
Qed.

Lemma keeps_bind {A B} (m : IO A) (k : A -> IO B) :
  keeps_data m -> (forall a, keeps_data (k a)) -> keeps_data (bind m k).
Proof.
  intros Hm Hk h. unfold bind. specialize (Hm h).
  destruct (m h) as [[a|e] h1]; cbn [snd] in *; [|exact Hm].
  rewrite Hk. exact Hm.
Qed.

Lemma keeps_if {A} (c : bool) (m1 m2 : IO A) :
  keeps_data m1 -> keeps_data m2 -> keeps_data (if c then m1 else m2).
Proof. destruct c; auto. Qed.

(** [pos = fh.tell(); try: body finally: fh.seek(pos)] gives the file
    object back as it was. *)
Lemma try_finally_restores {A} (body : IO A) (h : Handle) :
  keeps_data body ->
  snd (try_finally body (bind (seek (h_tell h)) (fun _ => ret tt)) h) = h.
Proof.
  intros Hk. unfold try_finally. specialize (Hk h).
  destruct (body h) as [r h1]. cbn [snd] in Hk.
  unfold bind, seek, h_seek, h_tell, ret.
  destruct (Z.ltb_spec (Z.of_nat (h_pos h)) 0); [lia|].
  cbn [snd]. rewrite Hk, Nat2Z.id. destruct h; reflexivity.
Qed.

Lemma try_finally_outcome {A} (body : IO A) (h : Handle) :
  fst (try_finally body (bind (seek (h_tell h)) (fun _ => ret tt)) h)
  = fst (body h).
Proof.
  unfold try_finally. destruct (body h) as [r h1].
  unfold bind, seek, h_seek, h_tell, ret.
  destruct (Z.ltb_spec (Z.of_nat (h_pos h)) 0); [lia|]. reflexivity.
Qed.

End IOFacts.

Module RecognizerFacts.
Import IOFacts.

Lemma dvdac3_body_keeps_data (pes : PESPacket.t) (is_first : bool) :
  keeps_data
    (bind (seek (PESPacket.pos pes + PESPacket.header_length pes)) (fun _ =>
     bind (readinto 4) (fun data =>
     bind (peek 2) (fun sync_word =>
     if is_first
        && (negb (DVDAC3Audio.stream_id_ data
                  =? DVDAC3Audio.ac3_substream_number)
            || negb (bytes_eqb sync_word DVDAC3Audio.ac3_sync_word))
     then raise WrongPrivateStream
     else ret (DVDAC3Audio.mk pes is_first data))))).
Proof.
  apply keeps_bind; [apply keeps_seek|intros _].
  apply keeps_bind; [apply keeps_readinto|intros data].
  apply keeps_bind; [apply keeps_peek|intros sync].
  apply keeps_if; [apply keeps_raise|apply keeps_ret].
Qed.

Lemma dvdac3_restores (pes : PESPacket.t) (is_first : bool) (h : Handle) :
  snd (DVDAC3Audio.__init__ pes is_first h) = h.
Proof.
  unfold DVDAC3Audio.__init__.
  destruct (negb _); [reflexivity|].
  unfold bind at 1, tell.
  apply try_finally_restores, dvdac3_body_keeps_data.
Qed.

Lemma ps2pcm_restores (pes : PESPacket.t) (is_first : bool) (h : Handle) :
  snd (PS2PCMAudio.__init__ pes is_first h) = h.
Proof.
  unfold PS2PCMAudio.__init__. unfold bind at 1, tell.
  apply try_finally_restores.
  apply keeps_bind; [apply keeps_seek|intros _].
  apply keeps_bind; [apply keeps_readinto|intros data].
  destruct is_first.
  - destruct (PS2PCMAudio.first_ok data) as [[|]|e];
      [apply keeps_ret|apply keeps_raise|apply keeps_raise].
  - apply keeps_if; [apply keeps_raise|apply keeps_ret].
Qed.

Lemma mpeg2video_restores {Sequence : Type} (Sequence_init : IO Sequence)
    (fuel : nat) (identify_only info_only : bool) (h h' : Handle)
    (r : outcome (list Sequence)) :
  MPEG2Video.__init__ Sequence_init fuel identify_only info_only h
  = Some (r, h') ->
  h_pos h' = h_pos h.
Proof.
  unfold MPEG2Video.__init__.
  destruct (MPEG2Video.body _ _ _ _) as [[r1 h1]|]; [|discriminate].
  unfold h_seek, h_tell.
  destruct (Z.ltb_spec (Z.of_nat (h_pos h)) 0); [lia|].
  intros [= _ <-]. cbn. apply Nat2Z.id.
Qed.

End RecognizerFacts.

Module AC3Facts.

Lemma is_private_stream_1 : is_stream 0xBD "private_stream_1" = true.
Proof. vm_compute. reflexivity. Qed.

Lemma peek_prefix (n : nat) (h : Handle) (l tail : list byte) :
  length l = n -> remaining h = l ++ tail -> peek n h = (Ok l, h).
Proof.
  intros Hl Hrem. unfold peek, h_read.
  destruct (Z.ltb_spec (Z.of_nat n) 0); [lia|].
  rewrite Hrem, Nat2Z.id, firstn_app, Hl, Nat.sub_diag.
  rewrite <- Hl, firstn_all. cbn [firstn]. rewrite app_nil_r.
  now rewrite Nat.eqb_refl.
Qed.

(** The body of the [try] block when the six bytes it looks at are in
    the file. *)
Lemma dvdac3_body (pes : PESPacket.t) (is_first : bool) (h : Handle)
    (p0 p1 p2 p3 p4 p5 : byte) (rest : list byte) :
  0 <= PESPacket.pos pes + PESPacket.header_length pes ->
  skipn (Z.to_nat (PESPacket.pos pes + PESPacket.header_length pes)) (h_data h)
  = p0 :: p1 :: p2 :: p3 :: p4 :: p5 :: rest ->
  fst (bind (seek (PESPacket.pos pes + PESPacket.header_length pes)) (fun _ =>
       bind (readinto 4) (fun data =>
       bind (peek 2) (fun sync_word =>
       if is_first
          && (negb (DVDAC3Audio.stream_id_ data
                    =? DVDAC3Audio.ac3_substream_number)
              || negb (bytes_eqb sync_word DVDAC3Audio.ac3_sync_word))
       then raise WrongPrivateStream
       else ret (DVDAC3Audio.mk pes is_first data)))) h)
  = if is_first
       && (negb (byte_val p0 =? 0x80)
           || negb (bytes_eqb [p4; p5] [x0b; x77]))
    then Raise WrongPrivateStream
    else Ok (DVDAC3Audio.mk pes is_first [p0; p1; p2; p3]).
Proof.
  intros Hp Hpay.
  unfold bind at 1, seek, h_seek.
  destruct (Z.ltb_spec (PESPacket.pos pes + PESPacket.header_length pes) 0); [lia|].
  set (h1 := mkHandle (h_data h) (Z.to_nat (PESPacket.pos pes + PESPacket.header_length pes))).
  assert (Hr1 : remaining h1 = [p0; p1; p2; p3] ++ p4 :: p5 :: rest)
    by exact Hpay.
  unfold bind at 1, readinto, lift.
  rewrite (HeaderFacts.readinto_prefix 4 h1 [p0; p1; p2; p3] _ eq_refl Hr1).
  set (h2 := mkHandle (h_data h1) (h_pos h1 + 4)).
  assert (Hr2 : remaining h2 = [p4; p5] ++ rest).
  { unfold remaining, h2, h1. cbn [h_data h_pos].
    rewrite Nat.add_comm, <- skipn_skipn, Hpay. reflexivity. }
  unfold bind at 1. rewrite (peek_prefix 2 h2 [p4; p5] _ eq_refl Hr2).
  unfold DVDAC3Audio.stream_id_, at_. cbn [nth].
  destruct (is_first && _); reflexivity.
Qed.

End AC3Facts.


(** ** Reinterleaving *)

Module PCMFacts.

Lemma length_samples (data : list byte) :
  length (samples data) = (length data / 2)%nat.
Proof.
  assert (H : forall n (data : list byte), (length data <= n)%nat ->
                length (samples data) = (length data / 2)%nat).
  { induction n as [|n IH]; intros [|a [|b rest]] Hn; try reflexivity;
      cbn [length] in Hn; try lia.
    cbn [samples length]. rewrite IH by lia.
    change (S (S (length rest))) with (2 + length rest)%nat.
    replace (2 + length rest)%nat with (length rest + 1 * 2)%nat by lia.
    rewrite Nat.div_add by lia. lia. }
  apply (H (length data)). lia.
Qed.

(** With two rows the code and the description agree. *)
Lemma reinterleave_two_channels (data out : list byte) :
  reinterleave data = Ok out -> out = reinterleave_channels 2 data.
Proof.
  unfold reinterleave, reinterleave_channels.
  set (el := samples data). set (w := (length el / 2)%nat).
  destruct (negb (len data mod 2 =? 0)); [discriminate|].
  destruct (Z.eqb_spec (len el mod 2) 0) as [Heven|]; [|discriminate].
  cbn [negb]. intros [= <-].
  assert (Hw : length el = (2 * w)%nat).
  { unfold len in Heven. subst w.
    assert (Hm : (length el mod 2 = 0)%nat)
      by (apply Nat2Z.inj; rewrite Nat2Z.inj_mod; exact Heven).
    pose proof (Nat.div_mod_eq (length el) 2). lia. }
  change (map (fun j => firstn w (skipn (j * w) el)) (seq 0 2))
    with [firstn w (skipn (0 * w) el); firstn w (skipn (1 * w) el)].
  rewrite Nat.mul_0_l, Nat.mul_1_l.
  change (skipn 0 el) with el.
  rewrite (firstn_all2 (skipn w el)); [reflexivity|].
  rewrite length_skipn. lia.
Qed.

End PCMFacts.

(* ================================================================== *)
(** * The example streams *)
(* ================================================================== *)

Module PackFacts.

(** The example files are program streams of one pack: the constructor
    of the pack reads them up to the end code and lists the packets the
    theorems below are stated on. *)
Lemma ac3_file_parses_first :
  PackStartHeader.__init__ 1 0 (open_bytes (ac3_file x80))
  = Some (Ok (PackStartHeader.mk 0 pack_header None [ac3_pes x80]),
          mkHandle (ac3_file x80) 39).
Proof. reflexivity. Qed.

Lemma ac3_file_parses_next :
  PackStartHeader.__init__ 1 0 (open_bytes (ac3_file x81))
  = Some (Ok (PackStartHeader.mk 0 pack_header None [ac3_pes x81]),
          mkHandle (ac3_file x81) 39).
Proof. reflexivity. Qed.

Lemma three_channel_file_parses :
  PackStartHeader.__init__ 1 0 (open_bytes three_channel_file)
  = Some (Ok (PackStartHeader.mk 0 pack_header None [three_channel_pes]),
          mkHandle three_channel_file 1613).
Proof. vm_compute. reflexivity. Qed.

(** One round is needed for each packet of the pack: with none, the
    loop over the packets is cut short. *)
Lemma rounds_exhausted :
  PackStartHeader.__init__ 0 0 (open_bytes (ac3_file x80)) = None.
Proof. reflexivity. Qed.

End PackFacts.

(* ================================================================== *)
(** * [MPEG2Video] on a [StreamIdReader] *)
(* ================================================================== *)

Module WalkerFacts.

(** The program parses the file, which leaves the shared file object on
    the program end code, makes a [StreamIdReader] for video stream 0 on
    that file object and gives it to [MPEG2Video].  The reader is a
    [BufferedReader] with a buffer of 4096 bytes over a [StreamReader];
    the first action of the constructor after [fh.tell()] is
    [peek(fh, 4)], for which the empty buffer is filled by one
    [readinto] of the raw reader, and its last is [fh.seek(pos)], which
    reaches the raw reader as [seek] at most.  On the two-pack stream
    these raw calls leave the shared file object at 27, where it was at
    99, and the reader at 0 as on entry. *)
Lemma video_reader_trace :
  exists m h' pkts r buffer' r1 fs1 r2,
    MPEG2ProgramStream.__init__ 2 2 0 (open_bytes two_pack_file)
    = Some (Ok m, h')
    /\ h_pos h' = 99%nat
    /\ StreamIdReader.__init__ m
         (MPEG2ProgramStream.ByName "video stream number 0") 0
       = Ok (pkts, r)
    /\ StreamReader.tell r = Ok 0
    /\ RawReader.readinto 1 (repeat x00 4096) r (fun _ => h')
       = Some (Ok (4, buffer', r1, fs1))
    /\ firstn 4 buffer' = [xaa; xbb; xcc; xdd]
    /\ h_pos (fs1 0%nat) = 27%nat
    /\ StreamReader.seek 0 SEEK_SET r1 = Ok (0, r2)
    /\ StreamReader.tell r2 = Ok 0.
Proof.
  do 8 eexists.
  split; [vm_compute; reflexivity|].
  split; [reflexivity|].
  split; [vm_compute; reflexivity|].
  split; [reflexivity|].
  split; [vm_compute; reflexivity|].
  split; [reflexivity|].
  split; [reflexivity|].
  split; [vm_compute; reflexivity|].
  reflexivity.
Qed.

End WalkerFacts.

(* ================================================================== *)
(** * The bit reader *)
(* ================================================================== *)

(** C2.  Bit reader correctness: for every byte source and every sequence
    of sizes [k1 .. kn] with [1 <= ki <= 32] whose sum is at most eight
    times the number of source bytes, the calls [read(k1)], ...,
    [read(kn)] on a fresh [BitStreamReader] all return, and the values
    returned are those obtained by writing the source bytes as one
    MSB-first bit string, cutting it into consecutive chunks of widths
    [k1 .. kn] and reading each chunk as an MSB-first unsigned binary
    number. *)
Theorem bit_reader_reads_msb_first_chunks
    (bs : list byte) (ks : list Z) (keep_data : bool) :
  Forall (fun k => 1 <= k <= 32) ks ->
  fold_right Z.add 0 ks <= 8 * len bs ->
  exists r',
    BitStreamReader.read_all ks
      (BitStreamReader.__init__ (open_bytes bs) keep_data)
    = Ok (BitStreamReader.spec_values ks bs, r').
Proof.
  intros Hks Hsum.
  set (r := BitStreamReader.__init__ (open_bytes bs) keep_data).
  assert (Hp : BitStreamReader.pending r = BitStreamReader.bit_string bs)
    by reflexivity.
  destruct (BitReaderFacts.read_all_spec ks r) as (r' & Hr).
  - unfold BitStreamReader.wf. cbn. lia.
  - eapply Forall_impl; [|exact Hks]. cbn. intros; lia.
  - rewrite Hp. unfold len in *. rewrite BitLemmas.length_bit_string. lia.
  - exists r'. rewrite Hr, Hp. reflexivity.
Qed.

Lemma bit_reader_reads_msb_first_chunks_witness :
  Forall (fun k => 1 <= k <= 32) [3; 7; 13; 1; 8]
  /\ fold_right Z.add 0 [3; 7; 13; 1; 8] <= 8 * len [xa5; x3c; xff; x01]
  /\ exists r',
       BitStreamReader.read_all [3; 7; 13; 1; 8]
         (BitStreamReader.__init__ (open_bytes [xa5; x3c; xff; x01]) true)
       = Ok (BitStreamReader.spec_values [3; 7; 13; 1; 8]
               [xa5; x3c; xff; x01], r').
Proof.
  assert (H1 : Forall (fun k => 1 <= k <= 32) [3; 7; 13; 1; 8])
    by (repeat constructor; lia).
  assert (H2 : fold_right Z.add 0 [3; 7; 13; 1; 8]
               <= 8 * len [xa5; x3c; xff; x01]) by (cbn; lia).
  split; [exact H1|]. split; [exact H2|].
  exact (bit_reader_reads_msb_first_chunks _ _ true H1 H2).
Defined.

(** C6, as the claim states it, fails: [read(0)] and [read(33)] return a
    value on a reader that has bytes to fetch; no size is rejected for
    being 0 or above 32. *)
Lemma bit_reader_size_not_checked :
  let r := BitStreamReader.__init__
             (open_bytes [xa5; x3c; xff; x01; x80]) false in
  BitStreamReader.read 0 r
  = Ok (0, BitStreamReader.mk
             (mkHandle [xa5; x3c; xff; x01; x80] 1) false 0 165 None)
  /\ BitStreamReader.read 33 r
     = Ok (5544476163,
           BitStreamReader.mk
             (mkHandle [xa5; x3c; xff; x01; x80] 5) false 1 128 None).
Proof. split; reflexivity. Qed.

(** C6, amended.  [BitStreamReader.read(n)] does not check the range of
    [n].  On a reader whose bit cursor is in [0..7], and for [n] below
    [2^53] (where the float [ceil(x / 8)] of the source is exact),
    [read(n)] raises exactly in two cases: the cursor is at a byte
    boundary and the source is exhausted ([IndexError] from [data[0]]),
    or, when that is not so, [n] is negative (from [2**n] in the mask
    computation: [TypeError], and [OverflowError] when
    [n <= -(2^1024 - 2^970)], where [n] does not convert to a float).  In
    every other case, [n = 0] and [n > 32] included, it returns a value,
    and the value [read(0)] returns is 0. *)
Theorem bit_reader_read_raises_iff (r : BitStreamReader.t) (n : Z) (e : exn) :
  BitStreamReader.wf r ->
  n < 2 ^ 53 ->
  let exhausted :=
    BitStreamReader._position r = 0
    /\ remaining (BitStreamReader._fh r) = [] in
  (BitStreamReader.read n r = Raise e
   <-> (exhausted /\ e = IndexError)
       \/ (~ exhausted /\ n < 0
           /\ e = if n <=? - (2 ^ 1024 - 2 ^ 970)
                  then OverflowError else TypeError))
  /\ (forall v r', BitStreamReader.read 0 r = Ok (v, r') -> v = 0).
Proof.
  intros Hwf _ exhausted. subst exhausted.
  split; [|intros v r'; apply BitReaderFacts.read_zero; exact Hwf].
  change (2 ^ 1024 - 2 ^ 970) with BitStreamReader.float_overflow.
  destruct (BitStreamReader.fetch r) as [r1|e1] eqn:Hf.
  - assert (Hne : ~ (BitStreamReader._position r = 0
                     /\ remaining (BitStreamReader._fh r) = [])).
    { intros (Hz & Hrem).
      assert (Hx : BitStreamReader.fetch r = Raise IndexError)
        by (apply BitReaderFacts.fetch_raises; auto).
      congruence. }
    pose proof (BitReaderFacts.fetch_position r r1 Hf) as Hp.
    destruct (BitReaderFacts.read_after_fetch_total r r1 n Hf) as (Hok & Hty).
    { unfold BitStreamReader.wf in Hwf. lia. }
    split.
    + intros Hr. right. destruct (Z.lt_ge_cases n 0) as [Hneg|Hpos].
      * rewrite (Hty Hneg) in Hr. injection Hr as <-. auto.
      * destruct (Hok Hpos) as (v & r' & Hv). congruence.
    + intros [(Hex & _)|(_ & Hneg & ->)]; [contradiction|]. auto.
  - pose proof (proj1 (BitReaderFacts.fetch_raises r e1) Hf)
      as (Hz & Hrem & ->).
    assert (Hr : BitStreamReader.read n r = Raise IndexError)
      by (unfold BitStreamReader.read; rewrite Hf; reflexivity).
    rewrite Hr. split.
    + intros [= <-]. left. auto.
    + intros [(_ & ->)|(Hne & _)]; [reflexivity|]. exfalso. auto.
Qed.

Lemma bit_reader_read_raises_iff_witness :
  let r := BitStreamReader.__init__ (open_bytes [xa5]) false in
  (BitStreamReader.wf r /\ -3 < 2 ^ 53)
  /\ BitStreamReader.read (-3) r = Raise TypeError
  /\ (BitStreamReader.read (-3) r = Raise TypeError
      <-> (BitStreamReader._position r = 0
           /\ remaining (BitStreamReader._fh r) = [])
          /\ TypeError = IndexError
          \/ ~ (BitStreamReader._position r = 0
                /\ remaining (BitStreamReader._fh r) = [])
             /\ -3 < 0
             /\ TypeError = (if -3 <=? - (2 ^ 1024 - 2 ^ 970)
                             then OverflowError else TypeError))
  /\ (forall v r', BitStreamReader.read 0 r = Ok (v, r') -> v = 0).
Proof.
  intros r.
  assert (Hwf : BitStreamReader.wf r) by (unfold BitStreamReader.wf; cbn; lia).
  assert (Hn : -3 < 2 ^ 53) by reflexivity.
  split; [exact (conj Hwf Hn)|].
  split; [reflexivity|].
  exact (bit_reader_read_raises_iff r (-3) TypeError Hwf Hn).
Defined.

(* ================================================================== *)
(** * The segmented reader *)
(* ================================================================== *)

(** C1, as the claim states it, fails: contiguous virtual ranges are not
    enough.  One segment of 10 bytes over a file of 3 bytes is a
    non-empty list contiguous from 0 with [T = 10]; [seek(0)] then
    [read(2)] returns the first two bytes, but [seek(0)] then [read(10)]
    never returns (once the file is exhausted every round of the loop
    reads [b""]), so there is nothing to slice. *)
Lemma segmented_reader_unbacked_read_never_returns :
  let segs := [mkSegmentInfo 0 0 0 10] in
  let fs : Files := fun _ => open_bytes [x01; x02; x03] in
  segs <> []
  /\ StreamReader.contiguous segs
  /\ StreamReader.total_size (StreamReader.__init__ segs) = 10
  /\ (exists r' fs',
        StreamReader.seek_read 1 0 2 (StreamReader.__init__ segs) fs
        = Some (Ok ([x01; x02], r', fs')))
  /\ (forall fuel : nat,
        StreamReader.seek_read fuel 0 10 (StreamReader.__init__ segs) fs
        = None).
Proof.
  cbv zeta.
  split; [discriminate|]. split; [cbn; lia|]. split; [reflexivity|].
  split; [do 2 eexists; reflexivity|].
  intros [|fuel]; [reflexivity|].
  change (StreamReader.seek_read (S fuel) 0 10
            (StreamReader.__init__ [mkSegmentInfo 0 0 0 10])
            (fun _ => open_bytes [x01; x02; x03]))
    with (StreamReader.while_left fuel
            (StreamReader.mk [mkSegmentInfo 0 0 0 10] 10 0 3)
            (set_file (fun _ => open_bytes [x01; x02; x03]) 0
                      (mkHandle [x01; x02; x03] 3))
            7 [x01; x02; x03]).
  apply (StreamFacts.while_left_stuck _ _ _ _ _ (mkSegmentInfo 0 0 0 10));
    try reflexivity; try (cbn; lia).
Qed.

(** C1, amended.  Segmented reader correctness: for a reader over a
    non-empty list of segments whose virtual ranges are contiguous from 0
    and which lie inside their files, with total size [T], and for
    [0 <= a <= b <= T], [seek(a)] then [read(b - a)] returns (the loop
    ends within one round per segment) exactly the slice [[a:b]] of what
    [seek(0)] then [read(T)] returns on the same reader. *)
Theorem segmented_reader_seek_read_is_slice
    (segs : list SegmentInfo) (fs : Files) (pos off a b : Z) (fuel : nat) :
  segs <> [] ->
  StreamReader.contiguous segs ->
  StreamReader.backed fs segs ->
  let T := StreamReader.total_size (StreamReader.__init__ segs) in
  0 <= a <= b -> b <= T ->
  (length segs <= fuel)%nat ->
  exists part r1 fs1 whole r2 fs2,
    StreamReader.seek_read fuel a (b - a) (StreamReader.mk segs T pos off) fs
    = Some (Ok (part, r1, fs1))
    /\ StreamReader.seek_read fuel 0 T r1 fs1 = Some (Ok (whole, r2, fs2))
    /\ part = py_slice whole a b.
Proof.
  intros Hne Hc Hb T Ha HbT Hfuel. subst T.
  rewrite StreamFacts.init_total_size in *.
  destruct (StreamFacts.seek_read_content segs fs pos off a (b - a) fuel)
    as (pos1 & off1 & fs1 & Hpart & Hsame1); auto; try lia.
  pose proof (StreamFacts.backed_ext fs fs1 segs Hsame1 Hb) as Hb1.
  pose proof (StreamFacts.total_nonneg segs
                (StreamFacts.contiguous_sizes segs 0 Hc)) as HT0.
  destruct (StreamFacts.seek_read_content segs fs1 pos1 off1 0
              (StreamReader.total segs) fuel)
    as (pos2 & off2 & fs2 & Hwhole & Hsame2); auto; try lia.
  do 6 eexists. split; [exact Hpart|]. split; [exact Hwhole|].
  pose proof (StreamFacts.length_content fs1 segs Hb1
                (StreamFacts.contiguous_sizes segs 0 Hc)) as Hlen.
  change (skipn (Z.to_nat 0) (StreamReader.content fs1 segs))
    with (StreamReader.content fs1 segs).
  rewrite (firstn_all2 (StreamReader.content fs1 segs))
    by (unfold len in Hlen; lia).
  rewrite StreamFacts.py_slice_inside by lia.
  now rewrite (StreamFacts.content_ext fs fs1 segs Hsame1).
Qed.

Lemma segmented_reader_seek_read_is_slice_witness :
  let file0 := [x00; x01; x02; x03; x04; x05; x06; x07; x08; x09] in
  let file1 := [x10; x11; x12; x13; x14; x15] in
  let fs : Files :=
    fun i => match i with O => open_bytes file0 | _ => open_bytes file1 end in
  let segs := [mkSegmentInfo 0 2 0 3; mkSegmentInfo 1 1 3 0;
               mkSegmentInfo 1 0 3 4; mkSegmentInfo 0 7 7 3] in
  let T := StreamReader.total_size (StreamReader.__init__ segs) in
  (segs <> [] /\ StreamReader.contiguous segs /\ StreamReader.backed fs segs
   /\ 0 <= 2 <= 8 /\ 8 <= T /\ (length segs <= 4)%nat)
  /\ exists part r1 fs1 whole r2 fs2,
       StreamReader.seek_read 4 2 (8 - 2) (StreamReader.mk segs T 0 0) fs
       = Some (Ok (part, r1, fs1))
       /\ StreamReader.seek_read 4 0 T r1 fs1 = Some (Ok (whole, r2, fs2))
       /\ part = py_slice whole 2 8.
Proof.
  intros file0 file1 fs segs T.
  assert (H1 : segs <> []) by discriminate.
  assert (H2 : StreamReader.contiguous segs)
    by (unfold segs; cbn; repeat split; lia).
  assert (H3 : StreamReader.backed fs segs)
    by (unfold segs, fs, file0, file1; repeat constructor; cbn; lia).
  assert (H4 : 0 <= 2 <= 8) by lia.
  assert (H5 : 8 <= T) by (unfold T, segs; cbn; lia).
  assert (H6 : (length segs <= 4)%nat) by (unfold segs; cbn; lia).
  split; [exact (conj H1 (conj H2 (conj H3 (conj H4 (conj H5 H6)))))|].
  exact (segmented_reader_seek_read_is_slice segs fs 0 0 2 8 4
           H1 H2 H3 H4 H5 H6).
Defined.

(** C5 (code defect).  From the current position the lower clamp is
    missing: on a reader over one 10-byte segment standing at position 4,
    [seek(-7, SEEK_CUR)] returns -3 and leaves the reader at segment
    index -1 with [tell() = -3], where the claim (and the branches for the
    two other origins) give 0. *)
Theorem seek_cur_not_clamped_at_zero :
  let segs := [mkSegmentInfo 0 0 0 10] in
  let r0 := StreamReader.__init__ segs in
  exists r4,
    StreamReader.seek 4 SEEK_SET r0 = Ok (4, r4)
    /\ StreamReader.tell r4 = Ok 4
    /\ StreamReader.seek (-7) SEEK_CUR r4
       = Ok (-3, StreamReader.mk segs 10 (-1) (-3))
    /\ StreamReader.tell (StreamReader.mk segs 10 (-1) (-3)) = Ok (-3)
    /\ StreamReader.seek (-7) SEEK_SET r4
       = Ok (0, StreamReader.mk segs 10 0 0)
    /\ StreamReader.seek (-17) SEEK_END r4
       = Ok (0, StreamReader.mk segs 10 0 0).
Proof.
  eexists. repeat split; reflexivity.
Qed.

(* ================================================================== *)
(** * Pack and PES headers *)
(* ================================================================== *)

(** C4.  Marker enforcement: take any 14 header bytes with the start code
    and the fixed bits 01, clear one of the six marker bits (byte 4 mask
    0x04, byte 6 mask 0x04, byte 8 mask 0x04, byte 9 mask 0x01, byte 12
    mask 0x02, byte 12 mask 0x01); parsing a pack from a file that
    continues with these bytes raises [InvalidMarkerException], whatever
    follows the header and whatever number of rounds the loops are
    given: the stuffing, the system header and the packets are not
    reached. *)
Theorem pack_header_marker_enforced
    (rounds : nat) (pkt_no : Z) (h : Handle)
    (data tail : list byte) (i : nat) (mask : Z) :
  length data = 14%nat ->
  PackStartHeader.header data = PackStartHeader.start_code ->
  PackStartHeader.b_01 data = 1 ->
  In (i, mask) PackStartHeader.markers ->
  remaining h = clear_bits data i mask ++ tail ->
  exists h1,
    PackStartHeader.__init__ rounds pkt_no h
    = Some (Raise InvalidMarkerException, h1).
Proof.
  intros Hlen _ Hb01 Hin Hrem.
  do 14 (destruct data as [|? data]; [discriminate|]).
  destruct data; [|discriminate]. clear Hlen.
  unfold PackStartHeader.__init__, lbind, run, tell, readinto, lift,
    PackStartHeader.size.
  unfold PackStartHeader.b_01, at_ in Hb01. cbn [nth] in Hb01.
  cbn [PackStartHeader.markers In] in Hin.
  repeat (destruct Hin as [Hin|Hin]; [injection Hin as <- <-|]);
    try contradiction.
  all: match type of Hrem with
       | _ = ?l ++ _ =>
           rewrite (HeaderFacts.readinto_prefix 14 h l tail eq_refl Hrem)
       end.
  all: unfold PackStartHeader.b_01, PackStartHeader.marker_0,
         PackStartHeader.marker_1, PackStartHeader.marker_2,
         PackStartHeader.marker_3, PackStartHeader.marker_4,
         PackStartHeader.marker_5, at_, clear_bits;
       cbn [firstn skipn map app nth].
  all: rewrite ?HeaderFacts.cleared_high_bits, ?HeaderFacts.cleared_bit_2,
         ?HeaderFacts.cleared_bit_1, ?HeaderFacts.cleared_bit_0, ?Hb01.
  all: change (1 =? 1) with true; change (0 =? 0) with true; cbn [negb].
  all: rewrite ?orb_true_r; cbn [orb]; eexists; reflexivity.
Qed.

Lemma pack_header_marker_enforced_witness :
  let h := open_bytes (clear_bits pack_header 9 0x01 ++ program_end_code) in
  (length pack_header = 14%nat
   /\ PackStartHeader.header pack_header = PackStartHeader.start_code
   /\ PackStartHeader.b_01 pack_header = 1
   /\ In (9%nat, 0x01) PackStartHeader.markers
   /\ remaining h = clear_bits pack_header 9 0x01 ++ program_end_code)
  /\ exists h1,
       PackStartHeader.__init__ 1 0 h
       = Some (Raise InvalidMarkerException, h1).
Proof.
  intros h.
  assert (H1 : length pack_header = 14%nat) by reflexivity.
  assert (H2 : PackStartHeader.header pack_header
               = PackStartHeader.start_code) by reflexivity.
  assert (H3 : PackStartHeader.b_01 pack_header = 1) by reflexivity.
  assert (H4 : In (9%nat, 0x01) PackStartHeader.markers)
    by (cbn; auto 10).
  assert (H5 : remaining h
               = clear_bits pack_header 9 0x01 ++ program_end_code)
    by reflexivity.
  split; [exact (conj H1 (conj H2 (conj H3 (conj H4 H5))))|].
  exact (pack_header_marker_enforced 1 0 h pack_header program_end_code
           9 0x01 H1 H2 H3 H4 H5).
Defined.




(** C7, as the claim states it, fails: the block [20 00 00 00 00] has the
    prefix 0b0010 and its three markers at 0, and it parses. *)
Lemma flag_pts_markers_not_checked :
  let data := [x20; x00; x00; x00; x00] in
  FlagPTS.c0 data = 0 /\ FlagPTS.c1 data = 0 /\ FlagPTS.c2 data = 0
  /\ FlagPTS.__init__ (open_bytes data)
     = (Ok (FlagPTS.mk data), mkHandle data 5).
Proof. repeat split. Qed.

(** C7, amended.  Parsing a PTS-only sub-header validates the 4-bit
    prefix only: it raises [InvalidFixedBitsException] when the prefix of
    the five bytes read is not 0b0010 and returns otherwise, whatever the
    three marker bits (the properties [c0], [c1], [c2]) are; it never
    raises [InvalidMarkerException]. *)
Theorem flag_pts_validates_prefix_only (h : Handle) :
  let data := fst (h_readinto 5 h) in
  let h1 := snd (h_readinto 5 h) in
  FlagPTS.__init__ h
  = (if FlagPTS.b_0010 data =? 2 then Ok (FlagPTS.mk data)
     else Raise InvalidFixedBitsException, h1)
  /\ fst (FlagPTS.__init__ h) <> Raise InvalidMarkerException.
Proof.
  intros data h1. subst data h1.
  unfold FlagPTS.__init__, bind, readinto, lift.
  destruct (h_readinto 5 h) as [data h1]. cbn [fst snd].
  destruct (FlagPTS.b_0010 data =? 2); cbn; split;
    reflexivity || discriminate.
Qed.

(* ================================================================== *)
(** * The recognizers *)
(* ================================================================== *)

(** C8, as the claim states it, fails: on a PES that is not the first of
    its sub-stream, with [header_length = 0x11], the recognizer returns
    although the first payload byte is 0x81. *)
Lemma dvdac3_next_pes_payload_not_checked :
  let pes := ac3_pes x81 in
  let h := open_bytes (ac3_file x81) in
  PESPacket.header_length pes = 0x11
  /\ at_ (skipn 31 (h_data h)) 0 = 0x81
  /\ DVDAC3Audio.__init__ pes false h
     = (Ok (DVDAC3Audio.mk pes false [x81; x01; x00; x01]), h).
Proof. repeat split. Qed.

(** C8, amended.  Take a [private_stream_1] PES whose first six payload
    bytes are in the file.  For the first PES of a sub-stream the
    recognizer returns exactly when [header_length = 0x11], the first
    payload byte is 0x80 and the bytes at payload offsets 4 and 5 are
    [0B 77]; for every later PES it returns exactly when
    [header_length = 0x11], the payload not being examined.  Otherwise it
    raises [WrongPrivateStream].  When it returns,
    [data_length = pes_packet_data_bytes_n - 4]. *)
Theorem dvdac3_recognition (pes : PESPacket.t) (is_first : bool) (h : Handle) :
  PESPacket.stream_id pes = 0xBD ->
  0 <= PESPacket.pos pes + PESPacket.header_length pes ->
  PESPacket.pos pes + PESPacket.header_length pes + 6 <= len (h_data h) ->
  let payload :=
    skipn (Z.to_nat (PESPacket.pos pes + PESPacket.header_length pes)) (h_data h) in
  let recognized :=
    (PESPacket.header_length pes =? 0x11)
    && (negb is_first
        || ((at_ payload 0 =? 0x80)
            && bytes_eqb (py_slice payload 4 6) [x0b; x77])) in
  DVDAC3Audio.__init__ pes is_first h
  = (if recognized
     then Ok (DVDAC3Audio.mk pes is_first (py_slice payload 0 4))
     else Raise WrongPrivateStream, h)
  /\ DVDAC3Audio.data_length
       (DVDAC3Audio.mk pes is_first (py_slice payload 0 4))
     = PESPacket.pes_packet_data_bytes_n pes - 4.
Proof.
  intros Hid Hp Hfit payload recognized.
  split; [|reflexivity].
  assert (Hlen : (6 <= length payload)%nat).
  { unfold payload, len in *. rewrite length_skipn. lia. }
  destruct payload as [|p0 [|p1 [|p2 [|p3 [|p4 [|p5 rest]]]]]] eqn:Hpay;
    cbn [length] in Hlen; try lia.
  apply injective_projections;
    [|cbn [snd]; apply RecognizerFacts.dvdac3_restores].
  unfold DVDAC3Audio.__init__. rewrite Hid, AC3Facts.is_private_stream_1.
  subst recognized. cbn [andb].
  assert (Hs1 : py_slice (p0 :: p1 :: p2 :: p3 :: p4 :: p5 :: rest) 4 6
                = [p4; p5]).
  { rewrite StreamFacts.py_slice_inside by (unfold len; cbn [length]; lia).
    reflexivity. }
  assert (Hs2 : py_slice (p0 :: p1 :: p2 :: p3 :: p4 :: p5 :: rest) 0 4
                = [p0; p1; p2; p3]).
  { rewrite StreamFacts.py_slice_inside by (unfold len; cbn [length]; lia).
    reflexivity. }
  rewrite Hs1, Hs2. unfold at_. cbn [nth fst].
  destruct (PESPacket.header_length pes =? 0x11); cbn [negb andb]; [|reflexivity].
  unfold bind at 1, tell.
  rewrite IOFacts.try_finally_outcome.
  rewrite (AC3Facts.dvdac3_body pes is_first h p0 p1 p2 p3 p4 p5 rest Hp Hpay).
  destruct is_first; cbn [negb andb orb]; [|reflexivity].
  destruct (byte_val p0 =? 0x80); cbn [negb andb orb]; [|reflexivity].
  destruct (bytes_eqb [p4; p5] [x0b; x77]); reflexivity.
Qed.

Lemma dvdac3_recognition_witness :
  let pes := ac3_pes x80 in
  let h := open_bytes (ac3_file x80) in
  let payload :=
    skipn (Z.to_nat (PESPacket.pos pes + PESPacket.header_length pes))
          (h_data h) in
  (PESPacket.stream_id pes = 0xBD
   /\ 0 <= PESPacket.pos pes + PESPacket.header_length pes
   /\ PESPacket.pos pes + PESPacket.header_length pes + 6 <= len (h_data h))
  /\ DVDAC3Audio.__init__ pes true h
     = (if (PESPacket.header_length pes =? 0x11)
           && (negb true
               || ((at_ payload 0 =? 0x80)
                   && bytes_eqb (py_slice payload 4 6) [x0b; x77]))
        then Ok (DVDAC3Audio.mk pes true (py_slice payload 0 4))
        else Raise WrongPrivateStream, h)
  /\ DVDAC3Audio.data_length
       (DVDAC3Audio.mk pes true (py_slice payload 0 4))
     = PESPacket.pes_packet_data_bytes_n pes - 4.
Proof.
  intros pes h payload.
  assert (H1 : PESPacket.stream_id pes = 0xBD) by reflexivity.
  assert (H2 : 0 <= PESPacket.pos pes + PESPacket.header_length pes)
    by (cbn; lia).
  assert (H3 : PESPacket.pos pes + PESPacket.header_length pes + 6
               <= len (h_data h)) by (cbn; lia).
  split; [exact (conj H1 (conj H2 H3))|].
  exact (dvdac3_recognition pes true h H1 H2 H3).
Defined.

(** C10, as the claim states it, fails for [MPEG2Video]: the shared
    underlying file is not restored.  The program parses the file
    (cursor left at 99 on the two-pack stream), makes a [StreamIdReader]
    for video stream 0 on it and gives that reader to [MPEG2Video].  The
    constructor's [peek(fh, 4)] makes the buffered reader fill its
    4096-byte buffer by one [StreamReader.readinto], which seeks and
    reads the shared file and leaves it at 27; the four bytes are not a
    sequence header code, so the constructor raises, after
    [fh.seek(pos)], which brings the reader back to 0 and cannot move
    the file: [StreamReader.seek] does not touch it. *)
Lemma mpeg2video_reader_moves_shared_file :
  exists m h' pkts r buffer' r1 fs1 r2,
    MPEG2ProgramStream.__init__ 2 2 0 (open_bytes two_pack_file)
    = Some (Ok m, h')
    /\ StreamIdReader.__init__ m
         (MPEG2ProgramStream.ByName "video stream number 0") 0
       = Ok (pkts, r)
    /\ RawReader.readinto 1 (repeat x00 4096) r (fun _ => h')
       = Some (Ok (4, buffer', r1, fs1))
    /\ bytes_eqb (firstn 4 buffer') MPEG2Video.sequence_header_code = false
    /\ StreamReader.seek 0 SEEK_SET r1 = Ok (0, r2)
    /\ h_pos h' = 99%nat
    /\ h_pos (fs1 0%nat) = 27%nat.
Proof.
  destruct WalkerFacts.video_reader_trace
    as (m & h' & pkts & r & buffer' & r1 & fs1 & r2
        & H1 & H2 & H3 & H4 & H5 & H6 & H7 & H8 & H9).
  exists m, h', pkts, r, buffer', r1, fs1, r2.
  rewrite H6. repeat split; assumption.
Qed.

(** C10, amended.  The recognizer constructors [DVDAC3Audio] and
    [PS2PCMAudio], which are given the shared file itself, hand it back
    exactly as they received it, whether they return or raise.
    [MPEG2Video] undoes its reads by [fh.seek(pos)] on the object it was
    given: given a file object itself, the position of that object is
    the one on entry whenever the constructor returns or raises, for any
    parser of the sequences.  It does not restore the shared file under
    a [StreamIdReader], which is what the program gives it: on the
    two-pack stream, the raw calls of the constructor (the [readinto]
    that fills the buffer for its first [peek], the [seek] of its
    [fh.seek(pos)]) leave the reader at 0, as on entry, and the shared
    file at 27, where it was at 99. *)
Theorem constructors_restore_position :
  (forall pes is_first h, snd (DVDAC3Audio.__init__ pes is_first h) = h)
  /\ (forall pes is_first h, snd (PS2PCMAudio.__init__ pes is_first h) = h)
  /\ (forall (Sequence : Type) (Sequence_init : IO Sequence)
             (fuel : nat) (identify_only info_only : bool)
             (h h' : Handle) (r : outcome (list Sequence)),
         MPEG2Video.__init__ Sequence_init fuel identify_only info_only h
         = Some (r, h') ->
         h_pos h' = h_pos h)
  /\ (exists m h' pkts r buffer' r1 fs1 r2,
        MPEG2ProgramStream.__init__ 2 2 0 (open_bytes two_pack_file)
        = Some (Ok m, h')
        /\ h_pos h' = 99%nat
        /\ StreamIdReader.__init__ m
             (MPEG2ProgramStream.ByName "video stream number 0") 0
           = Ok (pkts, r)
        /\ StreamReader.tell r = Ok 0
        /\ RawReader.readinto 1 (repeat x00 4096) r (fun _ => h')
           = Some (Ok (4, buffer', r1, fs1))
        /\ firstn 4 buffer' = [xaa; xbb; xcc; xdd]
        /\ h_pos (fs1 0%nat) = 27%nat
        /\ StreamReader.seek 0 SEEK_SET r1 = Ok (0, r2)
        /\ StreamReader.tell r2 = Ok 0).
Proof.
  split; [exact RecognizerFacts.dvdac3_restores|].
  split; [exact RecognizerFacts.ps2pcm_restores|].
  split; [|exact WalkerFacts.video_reader_trace].
  intros Sequence Sequence_init fuel identify_only info_only h h' r.
  apply RecognizerFacts.mpeg2video_restores.
Qed.

Lemma constructors_restore_position_witness :
  let h := mkHandle [xff; x00; x00; x01; xb3; x00; x00; x01; xb7] 1 in
  let h' := h in
  let r := Ok [[x00; x00; x01; xb3]] in
  MPEG2Video.__init__ (readinto 4) 2 false false h = Some (r, h')
  /\ h_pos h' = h_pos h.
Proof.
  intros h h' r.
  assert (H : MPEG2Video.__init__ (readinto 4) 2 false false h
              = Some (r, h')) by reflexivity.
  split; [exact H|].
  exact (proj1 (proj2 (proj2 constructors_restore_position))
           (list byte) (readinto 4) 2%nat false false h h' r H).
Defined.

(* ================================================================== *)
(** * The PS2 PCM stream *)
(* ================================================================== *)

(** C9 (code defect).  [reinterleave] reshapes every block to two rows,
    whatever the number of channels.  On a stream that the recognizer
    accepts with 3 channels (interleave 0x200), reading the interleave
    block of [3 * 0x200] bytes that follows the WAV header returns the
    block cut in two rows of 384 samples and transposed (it starts
    [A B A B]), not the block reshaped to [(3, 0x100)] and transposed (it
    starts [A B C A]) as the claim describes. *)
Theorem ps2pcm_three_channel_block_misinterleaved :
  exists a s fs out s' fs',
    PS2PCMAudio.__init__ three_channel_pes true (open_bytes three_channel_file)
    = (Ok a, open_bytes three_channel_file)
    /\ PS2PCMStream.__init__ (open_bytes three_channel_file)
         [three_channel_pes]
       = Ok (s, fs)
    /\ PS2PCMStream.num_channels s = 3
    /\ PS2PCMStream.audio_interleave s = 0x200
    /\ PS2PCMStream.mbind (PS2PCMStream.seek 44)
         (fun _ => PS2PCMStream.read 2 (3 * 0x200)) s fs
       = Some (Ok (out, s', fs'))
    /\ reinterleave three_channel_block = Ok out
    /\ firstn 8 out = [xaa; xaa; xbb; xbb; xaa; xaa; xbb; xbb]
    /\ firstn 8 (reinterleave_channels 3 three_channel_block)
       = [xaa; xaa; xbb; xbb; xcc; xcc; xaa; xaa]
    /\ out <> reinterleave_channels 3 three_channel_block.
Proof.
  do 6 eexists.
  split; [vm_compute; reflexivity|].
  split; [vm_compute; reflexivity|].
  split; [reflexivity|]. split; [reflexivity|].
  split; [vm_compute; reflexivity|].
  split; [vm_compute; reflexivity|].
  split; [vm_compute; reflexivity|].
  split; [vm_compute; reflexivity|].
  intros H. apply (f_equal (firstn 8)) in H. vm_compute in H. discriminate.
Qed.

(* ================================================================== *)
(** * Further properties of the bit reader *)
(* ================================================================== *)

Module BitReaderMore.
Import BitStreamReader BitLemmas BitReaderFacts Bits.

Lemma firstn_firstn_skipn {A} (a b : nat) (l : list A) :
  firstn a l ++ firstn b (skipn a l) = firstn (a + b) l.
Proof.
  revert l. induction a as [|a IH]; intros l; [reflexivity|].
  destruct l as [|x l]; [now rewrite !firstn_nil|].
  cbn [firstn skipn Nat.add app]. now rewrite IH.
Qed.

Lemma between_app (p q r : nat) (l : list byte) :
  (p <= q <= r)%nat -> between p q l ++ between q r l = between p r l.
Proof.
  intros H. unfold between.
  replace (skipn q l) with (skipn (q - p) (skipn p l))
    by (rewrite skipn_skipn; f_equal; lia).
  rewrite firstn_firstn_skipn. f_equal. lia.
Qed.

Lemma between_same (p : nat) (l : list byte) : between p p l = [].
Proof. unfold between. now rewrite Nat.sub_diag. Qed.

(** What [fh.read(n)] returns lies between the two cursors. *)
Lemma h_read_between (n : Z) (h : Handle) :
  0 <= n ->
  h_data (snd (h_read n h)) = h_data h
  /\ h_pos (snd (h_read n h)) = (h_pos h + length (fst (h_read n h)))%nat
  /\ fst (h_read n h)
     = between (h_pos h) (h_pos (snd (h_read n h))) (h_data h).
Proof.
  intros Hn. unfold h_read, remaining, between.
  destruct (Z.ltb_spec n 0); [lia|]. cbn [fst snd h_data h_pos].
  repeat split.
  replace (h_pos h + length (firstn (Z.to_nat n) (skipn (h_pos h) (h_data h)))
           - h_pos h)%nat
    with (length (firstn (Z.to_nat n) (skipn (h_pos h) (h_data h)))) by lia.
  rewrite length_firstn.
  destruct (Nat.le_ge_cases (Z.to_nat n) (length (skipn (h_pos h) (h_data h)))).
  - now rewrite Nat.min_l.
  - rewrite Nat.min_r by assumption.
    now rewrite !firstn_all2 by lia.
Qed.

Lemma data_write_app (d : option (list byte)) (a b : list byte) :
  data_write (data_write d a) b = data_write d (a ++ b).
Proof. destruct d; cbn; [now rewrite app_assoc|reflexivity]. Qed.

(** One call of [read] appends to the side buffer the bytes it takes
    from the file, and takes them in order. *)
Lemma read_data (k v : Z) (r r' : t) :
  read k r = Ok (v, r') ->
  h_data (_fh r') = h_data (_fh r)
  /\ (h_pos (_fh r) <= h_pos (_fh r'))%nat
  /\ _keep_data r' = _keep_data r
  /\ _data r'
     = data_write (_data r)
         (between (h_pos (_fh r)) (h_pos (_fh r')) (h_data (_fh r))).
Proof.
  unfold read.
  destruct (fetch r) as [r1|e] eqn:Hf; [|discriminate]. cbn [obind].
  assert (H1 : h_data (_fh r1) = h_data (_fh r)
               /\ (h_pos (_fh r) <= h_pos (_fh r1))%nat
               /\ _keep_data r1 = _keep_data r
               /\ _data r1
                  = data_write (_data r)
                      (between (h_pos (_fh r)) (h_pos (_fh r1))
                               (h_data (_fh r)))).
  { unfold fetch in Hf. destruct (_position r =? 0).
    - destruct (h_read_between 1 (_fh r)) as (Hd & Hp & Hg); [lia|].
      destruct (h_read 1 (_fh r)) as [data fh1]. cbn [fst snd] in *.
      destruct (py_index data 0); [|discriminate].
      cbn [obind] in Hf. injection Hf as <-. cbn.
      repeat split; [exact Hd|lia|now rewrite <- Hg].
    - injection Hf as <-. rewrite between_same.
      repeat split; [lia|]. destruct (_data r); cbn;
        [now rewrite app_nil_r|reflexivity]. }
  destruct H1 as (Hd1 & Hp1 & Hk1 & Hw1).
  set (n := (Z.max 0 (k - (8 - _position r1)) + 7) / 8).
  assert (Hn : 0 <= n) by (unfold n; dlia).
  destruct (h_read_between n (_fh r1)) as (Hd & Hp & Hg); [exact Hn|].
  destruct (h_read n (_fh r1)) as [ebs fh2]. cbn [fst snd] in *.
  destruct (_make_mask _ _) as [[mask sh]|]; [|discriminate].
  cbn [obind]. cbn beta iota.
  destruct (py_shiftl _ _); [|discriminate]. cbn [obind].
  destruct (for_extra_bytes _ _) as [s|]; [|discriminate]. cbn [obind].
  intros [= _ <-]. cbn [_fh _keep_data _data].
  repeat split; [congruence|lia|exact Hk1|].
  rewrite Hw1, data_write_app. f_equal.
  rewrite Hg, Hd1. apply between_app. lia.
Qed.

Lemma read_all_data (ks : list Z) :
  forall (r r' : t) (vs : list Z),
    read_all ks r = Ok (vs, r') ->
    h_data (_fh r') = h_data (_fh r)
    /\ (h_pos (_fh r) <= h_pos (_fh r'))%nat
    /\ _keep_data r' = _keep_data r
    /\ _data r'
       = data_write (_data r)
           (between (h_pos (_fh r)) (h_pos (_fh r')) (h_data (_fh r))).
Proof.
  induction ks as [|k ks IH]; intros r r' vs.
  - intros [= _ <-]. rewrite between_same.
    repeat split; [lia|]. destruct (_data r); cbn;
      [now rewrite app_nil_r|reflexivity].
  - cbn [read_all].
    destruct (read k r) as [[v r1]|] eqn:Hr; [|discriminate].
    cbn [obind]. cbn beta iota.
    destruct (read_all ks r1) as [[vs' r2]|] eqn:Hrs; [|discriminate].
    cbn [obind]. cbn beta iota. intros [= _ <-].
    apply read_data in Hr. destruct Hr as (Hd1 & Hp1 & Hk1 & Hw1).
    apply IH in Hrs. destruct Hrs as (Hd2 & Hp2 & Hk2 & Hw2).
    repeat split; [congruence|lia|congruence|].
    rewrite Hw2, Hw1, data_write_app. f_equal.
    rewrite Hd1. apply between_app. lia.
Qed.

Lemma fetch_cursor (r r1 : t) :
  fetch r = Ok r1 ->
  h_pos (_fh r1)
  = (h_pos (_fh r) + (if (_position r =? 0)%Z then 1 else 0))%nat.
Proof.
  unfold fetch. destruct (_position r =? 0).
  - destruct (h_read_between 1 (_fh r)) as (_ & Hp & Hg); [lia|].
    unfold h_read in *. cbn [fst snd] in *.
    change (1 <? 0) with false in *. cbn iota in *.
    destruct (remaining (_fh r)) as [|b tl]; [discriminate|].
    cbn [Z.to_nat Pos.to_nat Pos.iter_op firstn length] in *.
    cbn. intros [= <-]. cbn. lia.
  - intros [= <-]. lia.
Qed.

(** One call of [read], from the state reached after the fetch: the bit
    cursor and the file cursor afterwards. *)
Lemma read_after_fetch_cursor (r r1 r' : t) (k v : Z) :
  fetch r = Ok r1 -> 0 <= _position r1 < 8 ->
  let A := skipn (Z.to_nat (_position r1)) (low_bits 8 (_current_byte r1)) in
  let B := bit_string (remaining (_fh r1)) in
  1 <= k <= len (A ++ B) ->
  read k r = Ok (v, r') ->
  _position r' = (_position r1 + k) mod 8
  /\ h_tell (_fh r')
     = h_tell (_fh r1) + (Z.max 0 (k - (8 - _position r1)) + 7) / 8.
Proof.
  intros Hf Hp A B Hk. unfold read. rewrite Hf. cbn [obind].
  set (p := _position r1) in *. set (cur := _current_byte r1) in *.
  assert (HlenA : length A = Z.to_nat (8 - p)).
  { unfold A. rewrite length_skipn, length_low_bits. lia. }
  assert (HlenB : length B = (8 * length (remaining (_fh r1)))%nat)
    by apply length_bit_string.
  unfold len in Hk. rewrite length_app in Hk.
  set (E := Z.max 0 (k - (8 - p))).
  assert (Hnb : (E + 7) / 8 <= len (remaining (_fh r1)))
    by (unfold len, E; dlia).
  destruct (h_read_spec ((E + 7) / 8) (_fh r1)) as (Hgot & _);
    [unfold E; dlia|].
  destruct (h_read_between ((E + 7) / 8) (_fh r1)) as (_ & Hpos & _);
    [unfold E; dlia|].
  destruct (h_read ((E + 7) / 8) (_fh r1)) as [ebs fh2].
  cbn [fst snd] in *.
  assert (Hlen : len ebs = (E + 7) / 8).
  { unfold len in *. rewrite Hgot, length_firstn. unfold E in *. dlia. }
  rewrite make_mask_ok by lia. cbn [obind]. cbn beta iota.
  rewrite py_shiftl_ok by lia. cbn [obind].
  replace (k - Z.min k (8 - p)) with E by (unfold E; lia).
  rewrite Z.lor_0_l.
  match goal with
  | |- context [for_extra_bytes ebs (mkLocals ?v0 E E ?np ?cb)] =>
      destruct (for_extra_bytes_spec ebs v0 E np cb)
        as (s & Hs & _ & Hnp & _)
  end.
  { unfold E; lia. } { exact Hlen. }
  { apply Z.mod_mul. apply Z.pow_nonzero; unfold E; lia. }
  rewrite Hs. cbn [obind]. intros [= _ <-]. cbn [_position _fh].
  split.
  - rewrite Hnp. unfold E. destruct (Z.eqb_spec (Z.max 0 (k - (8 - p))) 0).
    + f_equal. lia.
    + dlia.
  - unfold h_tell. rewrite Hpos. unfold len in Hlen. lia.
Qed.

(** One call of [read] on a reader that has the bits asked for. *)
Lemma read_cursor (r r' : t) (k v : Z) :
  wf r -> 1 <= k <= len (pending r) ->
  read k r = Ok (v, r') ->
  _position r' = (_position r + k) mod 8
  /\ h_tell (_fh r')
     = h_tell (_fh r) + ((_position r + k + 7) / 8 - (_position r + 7) / 8).
Proof.
  intros Hwf Hk Hr. unfold pending in Hk. unfold wf in Hwf.
  destruct (Z.eqb_spec (_position r) 0) as [Hz|Hnz].
  - cbn [app] in Hk.
    destruct (remaining (_fh r)) as [|b tl] eqn:Hrem;
      [unfold len in Hk; cbn in Hk; lia|].
    destruct (fetch_boundary r b tl Hz Hrem) as (r1 & Hf & Hp1 & Hc1 & Hr1).
    pose proof (fetch_cursor r r1 Hf) as Hc.
    destruct (Z.eqb_spec (_position r) 0); [|lia].
    pose proof (read_after_fetch_cursor r r1 r' k v Hf) as H.
    rewrite Hp1, Hc1, Hr1 in H. cbn [Z.to_nat skipn] in H.
    destruct H as (Ha & Hb); [lia|exact Hk|exact Hr|].
    rewrite Hz. split; [exact Ha|].
    rewrite Hb. unfold h_tell. rewrite Hc. dlia.
  - pose proof (read_after_fetch_cursor r r r' k v (fetch_inside r Hnz) Hwf)
      as H.
    cbv zeta in H. destruct (H Hk Hr) as (Ha & Hb).
    split; [exact Ha|]. rewrite Hb. dlia.
Qed.

(** After [B] bits read from a fresh reader on [fh]. *)
Lemma read_all_cursor (ks : list Z) :
  forall (r : t) (fh : Handle) (B : Z),
    wf r -> 0 <= B -> Forall (fun k => 1 <= k) ks ->
    fold_right Z.add 0 ks <= len (pending r) ->
    _position r = B mod 8 ->
    h_tell (_fh r) = h_tell fh + (B + 7) / 8 ->
    exists vs r',
      read_all ks r = Ok (vs, r')
      /\ _position r' = (B + fold_right Z.add 0 ks) mod 8
      /\ h_tell (_fh r')
         = h_tell fh + (B + fold_right Z.add 0 ks + 7) / 8.
Proof.
  induction ks as [|k ks IH]; intros r fh B Hwf HB Hks Hsum Hp Hc.
  - exists [], r. cbn [read_all fold_right]. rewrite Z.add_0_r. auto.
  - inversion Hks as [|? ? Hk Hks']; subst.
    cbn [fold_right] in *.
    assert (0 <= fold_right Z.add 0 ks).
    { clear - Hks'. induction Hks'; cbn [fold_right]; lia. }
    destruct (read_spec r k Hwf) as (r1 & Hr & Hwf1 & Hp1); [lia|].
    destruct (read_cursor r r1 k _ Hwf ltac:(lia) Hr) as (Hpos1 & Hcur1).
    destruct (IH r1 fh (B + k) Hwf1) as (vs & r2 & Hr2 & Hpos2 & Hcur2);
      try lia; auto.
    { rewrite Hp1. unfold len in *. rewrite length_skipn. lia. }
    { rewrite Hpos1, Hp. dlia. }
    { rewrite Hcur1, Hc, Hp. dlia. }
    eexists. exists r2. cbn [read_all]. rewrite Hr. cbn [obind].
    cbn beta iota. rewrite Hr2. cbn [obind]. cbn beta iota.
    split; [reflexivity|]. rewrite Z.add_assoc. auto.
Qed.

End BitReaderMore.

(* ================================================================== *)
(** * Further properties of the segmented reader *)
(* ================================================================== *)

Module StreamMore.
Import StreamReader StreamFacts RawReader.

Lemma len_app {A} (a b : list A) : len (a ++ b) = len a + len b.
Proof. unfold len. rewrite length_app. lia. Qed.

(** From inside segment [s], the loop delivers what is asked for, or
    what is left of the stream when that is less, and leaves the reader
    at the position after the bytes delivered. *)
Lemma while_left_run (post : list SegmentInfo) :
  forall pre s o left data fs fuel,
    backed fs (pre ++ s :: post) ->
    Forall (fun s => 0 <= data_size s) (s :: post) ->
    0 <= o <= data_size s ->
    0 <= left ->
    (length post < fuel)%nat ->
    exists r' fs',
      while_left fuel
        (mk (pre ++ s :: post) (total (pre ++ s :: post)) (len pre) o)
        fs left data
      = Some (Ok (data ++ firstn (Z.to_nat left)
                            (skipn (Z.to_nat o) (segment_bytes fs s)
                             ++ content fs post),
                  r', fs'))
      /\ same_data fs fs'
      /\ at_pos (pre ++ s :: post) r'
           (total pre + o + Z.min left (data_size s - o + total post)).
Proof.
  induction post as [|s' post IH];
    intros pre s o left data fs fuel Hb Hsz Ho Hl Hfuel.
  all: rewrite while_left_eq; cbn [position segment_info offset total_size].
  all: pose proof (proj1 (Forall_app _ _ _) Hb) as (_ & Hbs).
  all: inversion Hbs as [|? ? (Hra & Hfit) Hbpost]; subst.
  all: inversion Hsz as [|? ? Hs0 Hszpost]; subst.
  all: match goal with
       | |- context [at_pos (_ ++ _ :: ?P)] =>
           assert (Htp : 0 <= total P) by (apply total_nonneg; assumption)
       end.
  all: destruct (Z.ltb_spec 0 left) as [Hpos|Hzero];
    [|assert (left = 0) by lia; subst left; cbn [andb Z.to_nat firstn];
      rewrite app_nil_r; eexists; eexists; split; [reflexivity|];
      split; [intros i; reflexivity|];
      split; [reflexivity|]; split; [reflexivity|]; left;
      exists pre, s; eexists; cbn [position offset];
      repeat split; try reflexivity; try lia;
      try (cbn in *; lia)].
  all: destruct fuel as [|fuel]; [lia|].
  - (* [s] is the last segment *)
    change (total []) with 0 in *.
    replace (len pre <? len (pre ++ [s])) with true
      by (symmetry; apply Z.ltb_lt; unfold len; rewrite length_app; cbn; lia).
    cbn [andb]. rewrite py_index_middle.
    set (n := Z.min left (data_size s - o)).
    destruct (read_chunk fs s o n (fs (fh s)))
      as (h1 & h2 & Hseek & Hread & Hd2 & Hlen); try lia; auto.
    rewrite Hseek, Hread. cbv zeta. rewrite Hlen.
    pose proof (same_data_set_file fs (fh s) h2 Hd2) as Hsame.
    assert (Hseglen : length (skipn (Z.to_nat o) (segment_bytes fs s))
                      = Z.to_nat (data_size s - o)).
    { rewrite length_skipn, length_segment_bytes by lia. lia. }
    cbn [content map concat]. rewrite app_nil_r.
    destruct (Z.leb_spec (data_size s) (o + n)) as [Hfull|Hpart].
    + rewrite while_left_eq. cbn [position segment_info].
      replace (len pre + 1 <? len (pre ++ [s])) with false
        by (symmetry; apply Z.ltb_ge; rewrite len_app; cbn; lia).
      rewrite andb_false_r.
      eexists. eexists. split; [|split; [exact Hsame|]].
      * do 3 f_equal. apply (f_equal (fun x => (x, _))). f_equal.
        rewrite !firstn_all2 by lia. reflexivity.
      * split; [reflexivity|]. split; [reflexivity|]. right.
        cbn [position]. split; [rewrite len_app; cbn; lia|].
        rewrite total_app. cbn. lia.
    + assert (Hn : n = left) by lia.
      rewrite while_left_eq. rewrite Hn, Z.sub_diag.
      cbn [Z.ltb Z.compare andb].
      eexists. eexists. split; [reflexivity|]. split; [exact Hsame|].
      split; [reflexivity|]. split; [reflexivity|]. left.
      exists pre, s, []. cbn [position offset].
      repeat split; try lia.
  - (* more segments follow *)
    replace (len pre <? len (pre ++ s :: s' :: post)) with true
      by (symmetry; apply Z.ltb_lt; unfold len; rewrite length_app; cbn; lia).
    cbn [andb]. rewrite py_index_middle.
    set (n := Z.min left (data_size s - o)).
    destruct (read_chunk fs s o n (fs (fh s)))
      as (h1 & h2 & Hseek & Hread & Hd2 & Hlen); try lia; auto.
    rewrite Hseek, Hread. cbv zeta. rewrite Hlen.
    pose proof (same_data_set_file fs (fh s) h2 Hd2) as Hsame.
    set (fs1 := set_file fs (fh s) h2) in *.
    assert (Hseglen : length (skipn (Z.to_nat o) (segment_bytes fs s))
                      = Z.to_nat (data_size s - o)).
    { rewrite length_skipn, length_segment_bytes by lia. lia. }
    assert (HT : total (pre ++ s :: s' :: post)
                 = total ((pre ++ [s]) ++ s' :: post))
      by (rewrite <- app_assoc; reflexivity).
    destruct (Z.leb_spec (data_size s) (o + n)) as [Hfull|Hpart].
    + (* the segment is used up: on to the next one *)
      assert (Hn : n = data_size s - o) by lia.
      rewrite HT.
      replace (pre ++ s :: s' :: post) with ((pre ++ [s]) ++ s' :: post)
        by (rewrite <- app_assoc; reflexivity).
      replace (len pre + 1) with (len (pre ++ [s]))
        by (unfold len; rewrite length_app; cbn; lia).
      inversion Hszpost as [|? ? Hs'0 Hszpost']; subst.
      destruct (IH (pre ++ [s]) s' 0 (left - n)
                   (data ++ firstn (Z.to_nat n)
                              (skipn (Z.to_nat o) (segment_bytes fs s)))
                   fs1 fuel)
        as (r' & fs' & Hrun & Hsame' & Hat).
      * apply (backed_ext fs); auto. rewrite <- app_assoc. exact Hb.
      * exact Hszpost.
      * lia.
      * lia.
      * cbn [length] in Hfuel. lia.
      * exists r', fs'. split; [|split].
        -- rewrite Hrun. do 3 f_equal. apply (f_equal (fun x => (x, r'))).
           rewrite <- app_assoc.
           apply (f_equal (app data)).
           rewrite (firstn_all2 (skipn (Z.to_nat o) (segment_bytes fs s)))
             by lia.
           rewrite (firstn_app (Z.to_nat left)), Hseglen.
           rewrite (firstn_all2 (skipn (Z.to_nat o) (segment_bytes fs s)))
             by lia.
           f_equal.
           replace (Z.to_nat left - Z.to_nat (data_size s - o))%nat
             with (Z.to_nat (left - n)) by lia.
           cbn [Z.to_nat skipn content map concat].
           rewrite <- (segment_bytes_ext fs fs1) by exact Hsame.
           f_equal. f_equal.
           fold (content fs1 post). fold (content fs post).
           symmetry. apply content_ext. exact Hsame.
        -- intros i. rewrite (Hsame i). apply Hsame'.
        -- replace (total pre + o
                    + Z.min left (data_size s - o + total (s' :: post)))
             with (total (pre ++ [s]) + 0
                   + Z.min (left - n) (data_size s' - 0 + total post)).
           ++ exact Hat.
           ++ rewrite total_app. cbn [total fold_right]. unfold total. lia.
    + (* the request ends inside the segment *)
      assert (Hn : n = left) by lia.
      rewrite while_left_eq. rewrite Hn, Z.sub_diag.
      cbn [Z.ltb Z.compare andb].
      eexists. exists fs1.
      split; [|split; [exact Hsame|]].
      * do 3 f_equal. apply (f_equal (fun x => (x, _))). f_equal.
        rewrite firstn_app, Hseglen.
        replace (Z.to_nat left - Z.to_nat (data_size s - o))%nat with 0%nat
          by lia.
        cbn [firstn]. now rewrite app_nil_r.
      * split; [reflexivity|]. split; [reflexivity|]. left.
        exists pre, s, (s' :: post). cbn [position offset].
        assert (0 <= total (s' :: post)) by (apply total_nonneg; auto).
        repeat split; try lia.
Qed.

Lemma contiguous_total_pre (pre : list SegmentInfo) (s : SegmentInfo)
    (post : list SegmentInfo) :
  contiguous (pre ++ s :: post) ->
  virtual_start s = total pre
  /\ Forall (fun s => 0 <= data_size s) (pre ++ s :: post).
Proof.
  intros Hc. split.
  - apply contiguous_split in Hc. destruct Hc as (Hv & _). lia.
  - apply (contiguous_sizes _ 0). exact Hc.
Qed.

Lemma content_app (fs : Files) (a b : list SegmentInfo) :
  content fs (a ++ b) = content fs a ++ content fs b.
Proof. unfold content. now rewrite map_app, concat_app. Qed.

Lemma skipn_content (fs : Files) (pre : list SegmentInfo) (s : SegmentInfo)
    (post : list SegmentInfo) (o : Z) :
  backed fs (pre ++ s :: post) ->
  Forall (fun s => 0 <= data_size s) (pre ++ s :: post) ->
  0 <= o <= data_size s ->
  skipn (Z.to_nat (total pre + o)) (content fs (pre ++ s :: post))
  = skipn (Z.to_nat o) (segment_bytes fs s) ++ content fs post.
Proof.
  intros Hb Hsz Ho.
  apply Forall_app in Hb. destruct Hb as (Hbpre & Hbs).
  apply Forall_app in Hsz. destruct Hsz as (Hszpre & Hszs).
  inversion Hbs as [|? ? (Hra & Hfit) _]; subst.
  pose proof (length_content fs pre Hbpre Hszpre) as L. unfold len in L.
  pose proof (total_nonneg pre Hszpre) as Hpre0.
  rewrite content_app. change (content fs (s :: post))
    with (segment_bytes fs s ++ content fs post).
  rewrite skipn_app.
  rewrite (skipn_all2 (content fs pre)) by lia. cbn [app].
  replace (Z.to_nat (total pre + o) - length (content fs pre))%nat
    with (Z.to_nat o) by lia.
  rewrite skipn_app, length_segment_bytes by lia.
  replace (Z.to_nat o - Z.to_nat (data_size s))%nat with 0%nat by lia.
  reflexivity.
Qed.

Lemma skipn_content_end (fs : Files) (segs : list SegmentInfo) :
  backed fs segs -> Forall (fun s => 0 <= data_size s) segs ->
  skipn (Z.to_nat (total segs)) (content fs segs) = [].
Proof.
  intros Hb Hsz. apply skipn_all2.
  pose proof (length_content fs segs Hb Hsz) as L. unfold len in L. lia.
Qed.

(** [read(n)], [n >= 0], from any position a well-formed reader can be
    at. *)
Lemma read_at_pos (segs : list SegmentInfo) (fs : Files) (r : t)
    (x n : Z) (fuel : nat) :
  contiguous segs -> backed fs segs -> at_pos segs r x ->
  0 <= n -> (length segs <= fuel)%nat ->
  exists r' fs',
    read fuel n r fs
    = Some (Ok (firstn (Z.to_nat n) (skipn (Z.to_nat x) (content fs segs)),
                r', fs'))
    /\ same_data fs fs'
    /\ at_pos segs r' (Z.min (x + n) (total segs)).
Proof.
  intros Hc Hb (Hsi & HT & Hat) Hn Hfuel.
  pose proof (contiguous_sizes _ _ Hc) as Hsz.
  destruct r as [si T p o]. cbn [segment_info total_size position offset] in *.
  subst si T. unfold read. destruct (Z.ltb_spec n 0); [lia|].
  destruct Hat as [(pre & s & post & -> & -> & Ho & ->)|(-> & ->)].
  - destruct (while_left_run post pre s o n [] fs fuel Hb)
      as (r' & fs' & Hrun & Hsame & Hat').
    { apply Forall_app in Hsz. tauto. }
    { exact Ho. } { exact Hn. }
    { rewrite length_app in Hfuel. cbn in Hfuel. lia. }
    exists r', fs'. split; [|split; [exact Hsame|]].
    + rewrite Hrun. cbn [app]. rewrite skipn_content by assumption.
      reflexivity.
    + replace (Z.min (total pre + o + n) (total (pre ++ s :: post)))
        with (total pre + o + Z.min n (data_size s - o + total post)).
      * exact Hat'.
      * rewrite total_app. cbn [total fold_right]. unfold total. lia.
  - rewrite while_left_eq. cbn [position segment_info].
    rewrite Z.ltb_irrefl, andb_false_r.
    eexists. eexists. split; [|split; [intros i; reflexivity|]].
    + rewrite skipn_content_end by assumption. now rewrite firstn_nil.
    + pose proof (total_nonneg segs Hsz).
      rewrite Z.min_r by lia.
      split; [reflexivity|]. split; [reflexivity|]. right. auto.
Qed.

Lemma py_index_last {A} (pre : list A) (l : A) :
  py_index (pre ++ [l]) (-1) = Ok l.
Proof.
  unfold py_index. change (-1 <? 0) with true. cbn iota.
  rewrite len_app. change (len [l]) with 1.
  replace (len pre + 1 + -1) with (len pre) by lia.
  destruct (Z.ltb_spec (len pre) 0); [unfold len in *; lia|].
  destruct (Z.leb_spec (len pre + 1) (len pre)); [lia|]. cbn [orb].
  unfold len. rewrite Nat2Z.id, nth_error_app2, Nat.sub_diag by lia.
  reflexivity.
Qed.

(** [tell()] returns the position the reader is at. *)
Lemma tell_at_pos (segs : list SegmentInfo) (r : t) (x : Z) :
  segs <> [] -> contiguous segs -> at_pos segs r x -> tell r = Ok x.
Proof.
  intros Hne Hc (Hsi & HT & Hat).
  unfold tell, _current_virtual_pos. rewrite Hsi.
  destruct Hat as [(pre & s & post & -> & -> & Ho & ->)|(-> & ->)].
  - destruct (Z.leb_spec (len (pre ++ s :: post)) (len pre)) as [H|_].
    { rewrite len_app in H. unfold len in H. cbn in H. lia. }
    rewrite py_index_middle. cbn [obind].
    apply contiguous_total_pre in Hc. destruct Hc as (-> & _). reflexivity.
  - rewrite Z.leb_refl.
    destruct (exists_last Hne) as (pre & l & ->).
    rewrite py_index_last. cbn [obind].
    apply contiguous_total_pre in Hc. destruct Hc as (-> & _).
    rewrite total_app. cbn. f_equal. lia.
Qed.

Lemma seek_set_at_pos (segs : list SegmentInfo) (r : t) (a : Z) :
  segs <> [] -> contiguous segs ->
  segment_info r = segs -> total_size r = total segs ->
  exists r',
    seek a SEEK_SET r = Ok (Z.min (Z.max 0 a) (total segs), r')
    /\ at_pos segs r' (Z.min (Z.max 0 a) (total segs)).
Proof.
  intros Hne Hc Hsi HT. destruct r as [si T p o]. cbn in Hsi, HT. subst si T.
  pose proof (total_nonneg segs (contiguous_sizes _ _ Hc)) as HT0.
  set (x := Z.min (Z.max 0 a) (total segs)).
  destruct (seek_set_split segs (total segs) p o x Hne Hc eq_refl)
    as (pre & s & post & Hsplit & Hseek & Hrange); [unfold x; lia|].
  assert (Heq : seek a SEEK_SET (mk segs (total segs) p o)
                = seek x SEEK_SET (mk segs (total segs) p o)).
  { unfold seek. change (SEEK_SET =? SEEK_SET) with true. cbn iota.
    cbn [total_size].
    replace (Z.min (Z.max 0 x) (total segs)) with x by (unfold x; lia).
    reflexivity. }
  rewrite Heq, Hseek. eexists. split; [reflexivity|].
  split; [reflexivity|]. split; [reflexivity|]. left.
  exists pre, s, post. cbn [position offset].
  rewrite Hsplit in Hc. apply contiguous_total_pre in Hc.
  destruct Hc as (Hv & _). repeat split; try lia. exact Hsplit.
Qed.

Lemma seek_end_as_set (r : t) (a : Z) :
  0 <= total_size r ->
  seek a SEEK_END r
  = seek (Z.max 0 (total_size r + Z.min a 0)) SEEK_SET r.
Proof.
  intros HT. unfold seek.
  change (SEEK_END =? SEEK_SET) with false.
  change (SEEK_END =? SEEK_CUR) with false.
  change (SEEK_END =? SEEK_END) with true.
  change (SEEK_SET =? SEEK_SET) with true. cbn iota.
  replace (Z.min (Z.max 0 (Z.max 0 (total_size r + Z.min a 0)))
                 (total_size r))
    with (Z.max 0 (total_size r + Z.min a 0)) by lia.
  reflexivity.
Qed.

Lemma py_slice_nonneg {A} (l : list A) (a b : Z) :
  0 <= a <= b ->
  py_slice l a b = firstn (Z.to_nat (b - a)) (skipn (Z.to_nat a) l).
Proof.
  intros H. unfold py_slice, slice_bound.
  destruct (Z.ltb_spec a 0); [lia|]. destruct (Z.ltb_spec b 0); [lia|].
  destruct (Z.le_gt_cases a (len l)) as [Ha|Ha].
  - rewrite (Z.min_l a) by lia.
    destruct (Z.le_gt_cases b (len l)) as [Hb|Hb].
    + now rewrite Z.min_l by lia.
    + rewrite Z.min_r by lia.
      rewrite !firstn_all2; [reflexivity| |];
        rewrite length_skipn; unfold len in *; lia.
  - rewrite !Z.min_r by lia. rewrite Z.sub_diag. cbn [Z.to_nat firstn].
    rewrite (skipn_all2 l) by (unfold len in *; lia).
    now rewrite firstn_nil.
Qed.

Lemma skipn_min {A} (l : list A) (x : Z) :
  skipn (Z.to_nat (Z.min x (len l))) l = skipn (Z.to_nat x) l.
Proof.
  destruct (Z.le_gt_cases x (len l)).
  - now rewrite Z.min_l.
  - rewrite Z.min_r by lia.
    rewrite !skipn_all2; [reflexivity| |]; unfold len in *; lia.
Qed.

(** [read(size)] with a negative [size] asks for what is left. *)
Lemma read_negative (segs : list SegmentInfo) (fs : Files) (r : t)
    (x n : Z) (fuel : nat) :
  segs <> [] -> contiguous segs -> at_pos segs r x -> n < 0 ->
  read fuel n r fs = read fuel (total segs - x) r fs.
Proof.
  intros Hne Hc Hat Hn.
  assert (Hx : x <= total segs).
  { pose proof (contiguous_sizes _ _ Hc) as Hsz.
    destruct Hat as (_ & _ & [(pre & s & post & -> & _ & Ho & ->)|(_ & ->)]);
      [|lia].
    apply Forall_app in Hsz. destruct Hsz as (_ & Hsz).
    inversion Hsz; subst.
    rewrite total_app. cbn [total fold_right].
    assert (0 <= total post) by (apply total_nonneg; assumption).
    unfold total in *. lia. }
  pose proof (tell_at_pos segs r x Hne Hc Hat) as Ht.
  unfold tell in Ht. unfold read.
  destruct (Z.ltb_spec n 0); [|lia]. rewrite Ht. cbn [obind].
  destruct Hat as (_ & -> & _).
  destruct (Z.ltb_spec (total segs - x) 0); [lia|]. reflexivity.
Qed.

Lemma init_at_start (segs : list SegmentInfo) :
  segment_info (__init__ segs) = segs
  /\ total_size (__init__ segs) = total segs.
Proof. split; [reflexivity|apply init_total_size]. Qed.

End StreamMore.

(* ================================================================== *)
(** * psdemuxer/utils.py *)
(* ================================================================== *)

Module UtilsFacts.
Import Utils.

Lemma h_read_prefix (n : nat) (h : Handle) (l tail : list byte) :
  length l = n -> remaining h = l ++ tail ->
  h_read (Z.of_nat n) h = (l, mkHandle (h_data h) (h_pos h + n)).
Proof.
  intros Hl Hrem. unfold h_read. rewrite Hrem.
  destruct (Z.ltb_spec (Z.of_nat n) 0); [lia|].
  rewrite Nat2Z.id, <- Hl, firstn_app, Nat.sub_diag, firstn_all.
  cbn [firstn]. now rewrite app_nil_r.
Qed.

Lemma remaining_advance (h : Handle) (l tail : list byte) :
  remaining h = l ++ tail ->
  remaining (mkHandle (h_data h) (h_pos h + length l)) = tail.
Proof.
  unfold remaining. cbn [h_data h_pos]. intros H.
  rewrite Nat.add_comm, <- skipn_skipn, H, skipn_app, Nat.sub_diag, skipn_all.
  reflexivity.
Qed.

(** One turn of the loop that does not find the prefix. *)
Lemma next_start_code_step (fuel : nat) (cz : bool) (h : Handle)
    (b b1 b2 : byte) (tail : list byte) :
  remaining h = b :: b1 :: b2 :: tail ->
  [b; b1; b2] <> start_code_prefix ->
  next_start_code (S fuel) cz h
  = if cz && negb (bytes_eqb [b] [x00])
    then Some (Raise MPEG2FileFormatException,
               mkHandle (h_data h) (h_pos h + 1))
    else next_start_code fuel cz (mkHandle (h_data h) (h_pos h + 1)).
Proof.
  intros Hrem Hne. cbn [next_start_code]. unfold lbind at 1, run at 1.
  rewrite (AC3Facts.peek_prefix 3 h [b; b1; b2] tail eq_refl Hrem).
  unfold bytes_eqb at 1.
  destruct (list_eq_dec Byte.byte_eq_dec [b; b1; b2] start_code_prefix);
    [contradiction|].
  unfold lbind at 1, run at 1, read, lift.
  pose proof (h_read_prefix 1 h [b] (b1 :: b2 :: tail) eq_refl Hrem) as Hr.
  change (Z.of_nat 1) with 1 in Hr. rewrite Hr.
  destruct (cz && negb (bytes_eqb [b] [x00])); reflexivity.
Qed.

Lemma next_start_code_found (fuel : nat) (cz : bool) (h : Handle)
    (tail : list byte) :
  remaining h = start_code_prefix ++ tail ->
  next_start_code (S fuel) cz h = Some (Ok tt, h).
Proof.
  intros Hrem. cbn [next_start_code]. unfold lbind, run.
  now rewrite (AC3Facts.peek_prefix 3 h start_code_prefix tail eq_refl Hrem).
Qed.

End UtilsFacts.

(* ================================================================== *)
(** * Packs and PES packets *)
(* ================================================================== *)

Module PackMore.
Import IOFacts FlagFacts.

Lemma keeps_when {A} (flag : Z) (c : IO A) :
  keeps_data c -> keeps_data (when flag c).
Proof.
  intros H. unfold when. apply keeps_if; [|apply keeps_ret].
  apply keeps_bind; [exact H|intros; apply keeps_ret].
Qed.

Lemma keeps_assert (c : bool) : keeps_data (assert_ c).
Proof. unfold assert_. destruct c; [apply keeps_ret|apply keeps_raise]. Qed.

Ltac keeps :=
  repeat first
    [ apply keeps_ret | apply keeps_raise | apply keeps_tell
    | apply keeps_seek | apply keeps_seek_cur | apply keeps_read
    | apply keeps_readinto | apply keeps_peek | apply keeps_assert
    | assumption
    | apply keeps_when
    | apply keeps_if
    | apply keeps_bind; [|intro] ].

Lemma keeps_FlagPTS : keeps_data FlagPTS.__init__.
Proof. unfold FlagPTS.__init__. keeps. Qed.

Lemma keeps_FlagPTSDTS : keeps_data FlagPTSDTS.__init__.
Proof. unfold FlagPTSDTS.__init__. keeps. Qed.

Lemma keeps_FlagESCR : keeps_data FlagESCR.__init__.
Proof. unfold FlagESCR.__init__. keeps. Qed.

Lemma keeps_FlagESRate : keeps_data FlagESRate.__init__.
Proof. unfold FlagESRate.__init__. keeps. Qed.

Lemma keeps_DMS : keeps_data DMSTrickModeControl.__init__.
Proof. unfold DMSTrickModeControl.__init__. keeps. Qed.

Lemma keeps_Copy : keeps_data AdditionalCopyInfoFlag.__init__.
Proof. unfold AdditionalCopyInfoFlag.__init__. keeps. Qed.

Lemma keeps_CRC : keeps_data CRCFlag.__init__.
Proof. unfold CRCFlag.__init__. keeps. Qed.

Lemma keeps_Counter : keeps_data ProgramPacketSequenceCounter.__init__.
Proof. unfold ProgramPacketSequenceCounter.__init__. keeps. Qed.

Lemma keeps_PSTD : keeps_data PSTDBuffer.__init__.
Proof. unfold PSTDBuffer.__init__. keeps. Qed.

Lemma keeps_Tref : keeps_data TrefExtension.__init__.
Proof. unfold TrefExtension.__init__. keeps. Qed.

Lemma keeps_Reserved (data : list byte) :
  keeps_data (StreamIdExtensionReserved.__init__ data).
Proof.
  unfold StreamIdExtensionReserved.__init__. pose proof keeps_Tref. keeps.
Qed.

Lemma keeps_Extension2 : keeps_data Extension2.__init__.
Proof.
  unfold Extension2.__init__. pose proof keeps_Reserved as H.
  keeps.
Qed.

Lemma keeps_PrivateData : keeps_data PrivateData.__init__.
Proof. unfold PrivateData.__init__. keeps. Qed.

Lemma keeps_ExtensionFlag : keeps_data ExtensionFlag.__init__.
Proof.
  unfold ExtensionFlag.__init__.
  pose proof keeps_PrivateData. pose proof keeps_Counter.
  pose proof keeps_PSTD. pose proof keeps_Extension2. keeps.
Qed.

Lemma keeps_parse_pts_dts (data : list byte) :
  keeps_data (FlagData.parse_pts_dts data).
Proof.
  unfold FlagData.parse_pts_dts.
  pose proof keeps_FlagPTS. pose proof keeps_FlagPTSDTS. keeps.
Qed.

Lemma keeps_parse_from_escr (data : list byte) (pos : Z)
    (flag : option FlagData.pts_dts) :
  keeps_data (FlagData.parse_from_escr data pos flag).
Proof.
  unfold FlagData.parse_from_escr.
  pose proof keeps_FlagESCR. pose proof keeps_FlagESRate.
  pose proof keeps_DMS. pose proof keeps_Copy. pose proof keeps_CRC.
  pose proof keeps_ExtensionFlag. keeps.
Qed.

Lemma keeps_FlagData : keeps_data FlagData.__init__.
Proof.
  unfold FlagData.__init__.
  pose proof keeps_parse_pts_dts as H1.
  pose proof keeps_parse_from_escr as H2.
  keeps.
Qed.

Lemma keeps_PESPacket (pkt_no : Z) : keeps_data (PESPacket.__init__ pkt_no).
Proof.
  unfold PESPacket.__init__. pose proof keeps_FlagData. keeps.
Qed.

(** What a computation that returns leaves of the file. *)
Lemma keeps_ok {A} (m : IO A) (h h' : Handle) (r : outcome A) :
  keeps_data m -> m h = (r, h') -> h_data h' = h_data h.
Proof. intros Hk H. specialize (Hk h). now rewrite H in Hk. Qed.

Lemma readinto_ok (n : nat) (h : Handle) :
  (n <= length (remaining h))%nat ->
  readinto n h
  = (Ok (firstn n (remaining h)), mkHandle (h_data h) (h_pos h + n)).
Proof.
  intros Hn. unfold readinto, lift.
  rewrite (HeaderFacts.readinto_prefix n h (firstn n (remaining h))
             (skipn n (remaining h))).
  - reflexivity.
  - rewrite length_firstn. lia.
  - now rewrite firstn_skipn.
Qed.

Lemma bytes_eqb_eq (a b : list byte) : bytes_eqb a b = true -> a = b.
Proof.
  unfold bytes_eqb. destruct (list_eq_dec Byte.byte_eq_dec a b);
    [auto|discriminate].
Qed.

Lemma assert_ok (c : bool) (h h' : Handle) (u : unit) :
  assert_ c h = (Ok u, h') -> c = true /\ h' = h.
Proof.
  unfold assert_. destruct c; [|discriminate].
  unfold ret. intros [= <-]. auto.
Qed.

(** The end of [FlagData.__init__]: the stuffing brings the cursor to
    [pos + pes_header_data_length]. *)
Lemma parse_from_escr_end (data : list byte) (pos : Z)
    (flag : option FlagData.pts_dts) (h h' : Handle) (fd : FlagData.t) :
  FlagData.parse_from_escr data pos flag h = (Ok fd, h') ->
  FlagData.data fd = data
  /\ h_tell h' = pos + FlagData.pes_header_data_length data
  /\ Forall (eq xff) (FlagData.stuffing_bytes fd).
Proof.
  unfold FlagData.parse_from_escr. intros H.
  do 6 (apply bind_ok in H; destruct H as (? & ? & _ & H)).
  apply bind_ok in H. destruct H as (now & h1 & Htell & H).
  unfold tell in Htell. injection Htell as <- <-.
  apply bind_ok in H. destruct H as (u1 & h2 & Ha1 & H).
  apply assert_ok in Ha1. destruct Ha1 as (Hbl & ->).
  apply bind_ok in H. destruct H as (stuffing & h3 & Hread & H).
  apply bind_ok in H. destruct H as (u2 & h4 & Ha2 & H).
  apply assert_ok in Ha2. destruct Ha2 as (Hlen & ->).
  apply bind_ok in H. destruct H as (u3 & h5 & Ha3 & H).
  apply assert_ok in Ha3. destruct Ha3 as (Hff & ->).
  unfold ret in H. injection H as <- <-. cbn [FlagData.data
    FlagData.stuffing_bytes].
  apply Z.leb_le in Hbl. apply Z.eqb_eq in Hlen. apply bytes_eqb_eq in Hff.
  split; [reflexivity|]. split.
  - unfold read, lift in Hread.
    match type of Hread with
    | context [h_read ?n ?hh] =>
        destruct (BitReaderMore.h_read_between n hh Hbl) as (_ & Hp & _);
        destruct (h_read n hh) as [got hh']
    end.
    cbn [fst snd] in Hp. injection Hread as -> ->.
    unfold h_tell in *. rewrite Hp. unfold len in Hlen. lia.
  - rewrite Hff. apply Forall_forall. intros b0 Hin.
    apply repeat_spec in Hin. auto.
Qed.

(** [FlagData.__init__] on a file that holds the three flag bytes. *)
Lemma flag_data_span (h h' : Handle) (fd : FlagData.t) :
  (3 <= length (remaining h))%nat ->
  FlagData.__init__ h = (Ok fd, h') ->
  FlagData.data fd = firstn 3 (remaining h)
  /\ h_tell h'
     = h_tell h + 3 + FlagData.pes_header_data_length (FlagData.data fd)
  /\ Forall (eq xff) (FlagData.stuffing_bytes fd)
  /\ h_data h' = h_data h.
Proof.
  intros H3 H.
  pose proof (keeps_ok _ _ _ _ keeps_FlagData H) as Hd.
  unfold FlagData.__init__ in H.
  apply bind_ok in H. destruct H as (data & h1 & Hread & H).
  rewrite (readinto_ok 3 h H3) in Hread.
  injection Hread as <- <-.
  destruct (negb _); [discriminate|].
  apply bind_ok in H. destruct H as (pos & h2 & Htell & H).
  unfold tell in Htell. injection Htell as <- <-.
  apply bind_ok in H. destruct H as (flag & h3 & _ & H).
  apply parse_from_escr_end in H. destruct H as (Hdata & Hpos & Hff).
  rewrite Hdata. repeat split; try assumption.
  rewrite Hpos. unfold h_tell. cbn [h_pos]. lia.
Qed.

Lemma seek_cur_ok (d z : Z) (h h' : Handle) :
  seek_cur d h = (Ok z, h') ->
  h_tell h' = h_tell h + d /\ h_data h' = h_data h.
Proof.
  unfold seek_cur, h_seek_cur, h_seek.
  destruct (Z.ltb_spec (h_tell h + d) 0); [discriminate|].
  intros [= _ <-]. unfold h_tell in *. cbn [h_pos h_data]. split; [lia|auto].
Qed.

Lemma peek_ok (n : nat) (d : list byte) (h h' : Handle) :
  peek n h = (Ok d, h') ->
  h' = h /\ d = firstn n (remaining h) /\ (n <= length (remaining h))%nat.
Proof.
  unfold peek, h_read. destruct (Z.ltb_spec (Z.of_nat n) 0); [lia|].
  rewrite Nat2Z.id.
  destruct (Nat.eqb_spec (length (firstn n (remaining h))) n) as [Hn|Hn].
  - intros [= <- <-]. rewrite length_firstn in Hn. repeat split. lia.
  - destruct (h_seek_cur _ _) as [[?|?] ?]; discriminate.
Qed.

(** The names that [PESPacket.__init__] looks up.  [DSMCC_stream] is
    the name of no stream id, so the test on it never holds. *)
Lemma is_stream_names (sid : Z) :
  is_stream sid "program_stream_map" = (sid =? 0xBC)
  /\ is_stream sid "private_stream_1" = (sid =? 0xBD)
  /\ is_stream sid "padding_stream" = (sid =? 0xBE)
  /\ is_stream sid "private_stream_2" = (sid =? 0xBF)
  /\ is_stream sid "ECM_stream" = (sid =? 0xF0)
  /\ is_stream sid "EMM_stream" = (sid =? 0xF1)
  /\ is_stream sid "program_stream_directory" = (sid =? 0xFF)
  /\ is_stream sid "DSMCC_stream" = false
  /\ is_stream sid "ISO/Rec. ITU-T H.222.1 type E" = (sid =? 0xF8).
Proof.
  unfold is_stream.
  replace (get_stream_id_by_name "program_stream_map") with (Some 0xBC)
    by (vm_compute; reflexivity).
  replace (get_stream_id_by_name "private_stream_1") with (Some 0xBD)
    by (vm_compute; reflexivity).
  replace (get_stream_id_by_name "padding_stream") with (Some 0xBE)
    by (vm_compute; reflexivity).
  replace (get_stream_id_by_name "private_stream_2") with (Some 0xBF)
    by (vm_compute; reflexivity).
  replace (get_stream_id_by_name "ECM_stream") with (Some 0xF0)
    by (vm_compute; reflexivity).
  replace (get_stream_id_by_name "EMM_stream") with (Some 0xF1)
    by (vm_compute; reflexivity).
  replace (get_stream_id_by_name "program_stream_directory") with (Some 0xFF)
    by (vm_compute; reflexivity).
  replace (get_stream_id_by_name "DSMCC_stream") with (@None Z)
    by (vm_compute; reflexivity).
  replace (get_stream_id_by_name "ISO/Rec. ITU-T H.222.1 type E")
    with (Some 0xF8) by (vm_compute; reflexivity).
  repeat split.
Qed.

Lemma plain_ids_spec (sid : Z) :
  In sid plain_ids
  <-> (sid =? 0xBC) || (sid =? 0xF0) || (sid =? 0xF1) || (sid =? 0xFF)
      || false || (sid =? 0xF8) || (sid =? 0xBE) = true.
Proof.
  unfold plain_ids. cbn [In]. rewrite !orb_true_iff, !Z.eqb_eq. intuition lia.
Qed.

(** [PESPacket.__init__] on a file that holds the six bytes of the
    packet header. *)
Lemma pes_packet_shape (pkt_no : Z) (h h' : Handle) (p : PESPacket.t) :
  (6 <= length (remaining h))%nat ->
  PESPacket.__init__ pkt_no h = (Ok p, h') ->
  PESPacket.no p = pkt_no
  /\ PESPacket.pos p = h_tell h
  /\ PESPacket.data p = firstn 6 (remaining h)
  /\ PESPacket.header_length p + PESPacket.pes_packet_data_bytes_n p
     = PESPacket.pes_full_packet_length (PESPacket.data p)
  /\ h_tell h' = h_tell h + PESPacket.pes_full_packet_length (PESPacket.data p)
  /\ h_data h' = h_data h
  /\ 0 <= PESPacket.pos p + PESPacket.header_length p
  /\ (In (PESPacket.stream_id p) plain_ids
      -> PESPacket.flag_data p = None /\ PESPacket.header_length p = 6)
  /\ (~ In (PESPacket.stream_id p) plain_ids
      -> exists fd hf,
           PESPacket.flag_data p = Some fd
           /\ FlagData.__init__ (mkHandle (h_data h) (h_pos h + 6))
              = (Ok fd, hf)
           /\ PESPacket.header_length p = h_tell hf - h_tell h).
Proof.
  intros H6 H.
  pose proof (keeps_ok _ _ _ _ (keeps_PESPacket pkt_no) H) as Hd.
  unfold PESPacket.__init__ in H.
  apply bind_ok in H. destruct H as (self_pos & h0 & Htell & H).
  unfold tell in Htell. injection Htell as <- <-.
  apply bind_ok in H. destruct H as (data & h1 & Hread & H).
  rewrite (readinto_ok 6 h H6) in Hread.
  remember (firstn 6 (remaining h)) as data6 eqn:Hdata6.
  injection Hread as <- <-.
  apply bind_ok in H. destruct H as (pos & h2 & Htell & H).
  unfold tell in Htell. injection Htell as <- <-.
  cbv zeta in H.
  set (sid := PESPacket.stream_id_ data6) in *.
  destruct (is_stream_names sid)
    as (E1 & E2 & E3 & E4 & E5 & E6 & E7 & E8 & E9).
  rewrite E1, E2, E3, E4, E5, E6, E7, E8, E9 in H.
  set (h6 := mkHandle (h_data h) (h_pos h + 6)) in *.
  assert (Hh6 : h_tell h6 = h_tell h + 6) by (unfold h_tell; cbn; lia).
  unfold PESPacket.pes_full_packet_length.
  pose proof (plain_ids_spec sid) as Hplain.
  destruct (negb (sid =? 0xBC) && negb (sid =? 0xBE) && negb (sid =? 0xBF)
            && negb (sid =? 0xF0) && negb (sid =? 0xF1)
            && negb (sid =? 0xFF) && negb false && negb (sid =? 0xF8))
    eqn:Hflag.
  - (* the packet has flag data *)
    assert (Hnp : ~ In sid plain_ids).
    { rewrite Hplain. rewrite !andb_true_iff, !negb_true_iff in Hflag.
      destruct Hflag as (((((((-> & ->) & _) & ->) & ->) & ->) & _) & ->).
      discriminate. }
    apply bind_ok in H. destruct H as (fd & hf & Hfd & H).
    apply bind_ok in H. destruct H as (now & hf' & Htell & H).
    unfold tell in Htell. injection Htell as <- <-.
    apply bind_ok in H. destruct H as (now' & hf' & Htell & H).
    unfold tell in Htell. injection Htell as <- <-.
    apply bind_ok in H. destruct H as (psid & hp & Hpeek & H).
    assert (hp = hf).
    { destruct (sid =? 0xBD).
      - apply bind_ok in Hpeek. destruct Hpeek as (nx & hq & Hpk & Hret).
        apply peek_ok in Hpk. destruct Hpk as (-> & _).
        unfold ret in Hret. now injection Hret as _ <-.
      - unfold ret in Hpeek. now injection Hpeek as _ <-. }
    subst hp.
    apply bind_ok in H. destruct H as (z & hs & Hseek & H).
    apply seek_cur_ok in Hseek. destruct Hseek as (Hs & _).
    unfold ret in H. injection H as <- <-.
    cbn [PESPacket.no PESPacket.pos PESPacket.data PESPacket.header_length
         PESPacket.pes_packet_data_bytes_n PESPacket.flag_data
         PESPacket.stream_id].
    fold sid.
    repeat match goal with |- _ /\ _ => split end;
      try reflexivity; try assumption; try lia.
    + unfold h_tell in *. lia.
    + intros Hin. contradiction.
    + intros _. exists fd, hf. auto.
  - destruct ((sid =? 0xBC) || (sid =? 0xF0) || (sid =? 0xF1)
              || (sid =? 0xFF) || false || (sid =? 0xF8)) eqn:Hplain2.
    + (* no flag data, no padding *)
      assert (Hin : In sid plain_ids)
        by (apply Hplain; rewrite ?Hplain2; reflexivity).
      apply bind_ok in H. destruct H as (now & hf' & Htell & H).
      unfold tell in Htell. injection Htell as <- <-.
      apply bind_ok in H. destruct H as (now' & hf' & Htell & H).
      unfold tell in Htell. injection Htell as <- <-.
      apply bind_ok in H. destruct H as (z & hs & Hseek & H).
      apply seek_cur_ok in Hseek. destruct Hseek as (Hs & _).
      unfold ret in H. injection H as <- <-.
      cbn [PESPacket.no PESPacket.pos PESPacket.data PESPacket.header_length
           PESPacket.pes_packet_data_bytes_n PESPacket.flag_data
           PESPacket.stream_id].
      fold sid.
      repeat match goal with |- _ /\ _ => split end;
        try reflexivity; try assumption; try lia.
      * unfold h_tell in *. lia.
      * intros _. split; [reflexivity|lia].
      * intros Hn. contradiction.
    + destruct (sid =? 0xBE) eqn:Hpad; [|discriminate].
      assert (Hin : In sid plain_ids)
        by (apply Hplain; rewrite ?Hplain2, ?Hpad; reflexivity).
      apply bind_ok in H. destruct H as (now & hf' & Htell & H).
      unfold tell in Htell. injection Htell as <- <-.
      apply bind_ok in H. destruct H as (z & hs & Hseek & H).
      apply seek_cur_ok in Hseek. destruct Hseek as (Hs & _).
      unfold ret in H. injection H as <- <-.
      cbn [PESPacket.no PESPacket.pos PESPacket.data PESPacket.header_length
           PESPacket.pes_packet_data_bytes_n PESPacket.flag_data
           PESPacket.stream_id].
      fold sid.
      repeat match goal with |- _ /\ _ => split end;
        try reflexivity; try assumption; try lia.
      * unfold h_tell in *. lia.
      * intros _. split; [reflexivity|lia].
      * intros Hn. contradiction.
Qed.

Lemma lbind_ok {A B} (m : LIO A) (k : A -> LIO B) (h h' : Handle) (b : B) :
  lbind m k h = Some (Ok b, h') ->
  exists a h1, m h = Some (Ok a, h1) /\ k a h1 = Some (Ok b, h').
Proof.
  unfold lbind. destruct (m h) as [[[a|e] h1]|]; [eauto|discriminate..].
Qed.

Lemma run_ok {A} (m : IO A) (h h' : Handle) (r : outcome A) :
  run m h = Some (r, h') -> m h = (r, h').
Proof. unfold run. now intros [= ->]. Qed.

Lemma lkeeps_run {A} (m : IO A) : keeps_data m -> lkeeps_data (run m).
Proof.
  intros Hk h r h' H. apply run_ok in H. exact (keeps_ok m h h' r Hk H).
Qed.

Lemma lkeeps_bind {A B} (m : LIO A) (k : A -> LIO B) :
  lkeeps_data m -> (forall a, lkeeps_data (k a)) -> lkeeps_data (lbind m k).
Proof.
  intros Hm Hk h r h'. unfold lbind.
  destruct (m h) as [[[a|e] h1]|] eqn:E; [| |discriminate].
  - intros H. rewrite (Hk a h1 r h' H). exact (Hm h _ h1 E).
  - intros [= <- <-]. exact (Hm h _ h1 E).
Qed.

Lemma lkeeps_if {A} (c : bool) (m1 m2 : LIO A) :
  lkeeps_data m1 -> lkeeps_data m2 -> lkeeps_data (if c then m1 else m2).
Proof. destruct c; auto. Qed.

Lemma keeps_StreamId : keeps_data StreamId.__init__.
Proof. unfold StreamId.__init__. keeps. Qed.

Lemma keeps_StreamIdEx : keeps_data StreamIdEx.__init__.
Proof. unfold StreamIdEx.__init__. keeps. Qed.

Lemma lkeeps_while_streams (rounds : nat) :
  forall next_bits streams,
    lkeeps_data (SystemHeader.while_streams rounds next_bits streams).
Proof.
  induction rounds as [|rounds IH]; intros next_bits streams;
    cbn [SystemHeader.while_streams]; apply lkeeps_if;
    try (apply lkeeps_run; keeps).
  - intros h r h'. discriminate.
  - apply lkeeps_bind.
    + apply lkeeps_run. pose proof keeps_StreamId. pose proof keeps_StreamIdEx.
      keeps.
    + intros s. apply lkeeps_bind; [apply lkeeps_run; keeps|].
      intros nb. apply IH.
Qed.

Lemma lkeeps_SystemHeader (rounds : nat) :
  lkeeps_data (SystemHeader.__init__ rounds).
Proof.
  unfold SystemHeader.__init__.
  apply lkeeps_bind; [apply lkeeps_run; keeps|intros pos].
  apply lkeeps_bind; [apply lkeeps_run; keeps|intros data].
  apply lkeeps_bind; [apply lkeeps_run; keeps|intros _].
  apply lkeeps_if; [apply lkeeps_run; keeps|].
  apply lkeeps_bind; [apply lkeeps_run; keeps|intros nb].
  apply lkeeps_bind; [apply lkeeps_while_streams|intros streams].
  apply lkeeps_run; keeps.
Qed.

(** A read at the end of the file leaves the cursor at the end. *)
Lemma remaining_nil_advance (h : Handle) (n : nat) :
  remaining h = [] -> remaining (mkHandle (h_data h) (h_pos h + n)) = [].
Proof.
  unfold remaining. cbn [h_data h_pos]. intros H.
  now rewrite Nat.add_comm, <- skipn_skipn, H, skipn_nil.
Qed.

Lemma readinto_short (n : nat) (h : Handle) :
  (length (remaining h) < n)%nat ->
  remaining (snd (h_readinto n h)) = [].
Proof.
  intros Hn. unfold h_readinto, h_read.
  destruct (Z.ltb_spec (Z.of_nat n) 0); [lia|]. rewrite Nat2Z.id.
  cbn [snd]. rewrite firstn_all2 by lia.
  unfold remaining. cbn [h_data h_pos].
  apply skipn_all2. rewrite length_skipn. lia.
Qed.

Lemma h_read_at_end (n : Z) (h : Handle) :
  remaining h = [] -> remaining (snd (h_read n h)) = [].
Proof.
  intros H. unfold h_read. rewrite H.
  destruct (n <? 0); [|rewrite firstn_nil]; cbn [snd length];
    rewrite Nat.add_0_r; destruct h; exact H.
Qed.

Lemma seek_cur_at_end (d z : Z) (h h' : Handle) :
  remaining h = [] -> 0 <= d -> seek_cur d h = (Ok z, h') ->
  remaining h' = [].
Proof.
  unfold seek_cur, h_seek_cur, h_seek, remaining, h_tell.
  intros H Hd. destruct (_ <? 0); [discriminate|].
  intros [= _ <-]. cbn [h_data h_pos].
  apply skipn_all2.
  assert (length (h_data h) <= h_pos h)%nat.
  { destruct (Nat.le_gt_cases (length (h_data h)) (h_pos h)); [assumption|].
    apply (f_equal (@length byte)) in H. rewrite length_skipn in H.
    cbn in H. lia. }
  lia.
Qed.

Lemma pes_packet_length_nonneg (data : list byte) :
  0 <= PESPacket.pes_packet_length data.
Proof.
  unfold PESPacket.pes_packet_length, at_.
  apply Z.lor_nonneg. split.
  - apply Z.shiftl_nonneg. apply BitLemmas.byte_val_range.
  - apply BitLemmas.byte_val_range.
Qed.

(** A packet that is accepted and followed by four bytes had its six
    header bytes in the file. *)
Lemma pes_packet_needs_header (pkt_no : Z) (h h1 h2 : Handle)
    (p : PESPacket.t) (nb : list byte) :
  PESPacket.__init__ pkt_no h = (Ok p, h1) ->
  peek 4 h1 = (Ok nb, h2) ->
  (6 <= length (remaining h))%nat.
Proof.
  intros H Hpeek.
  destruct (Nat.le_gt_cases 6 (length (remaining h))) as [|Hshort];
    [assumption|exfalso].
  apply peek_ok in Hpeek. destruct Hpeek as (_ & _ & H4).
  assert (Hend : remaining h1 = []); [|rewrite Hend in H4; cbn in H4; lia].
  unfold PESPacket.__init__ in H.
  apply bind_ok in H. destruct H as (self_pos & h0 & Htell & H).
  unfold tell in Htell. injection Htell as <- <-.
  apply bind_ok in H. destruct H as (data & h6 & Hread & H).
  assert (H6 : remaining h6 = []).
  { unfold readinto, lift in Hread.
    pose proof (readinto_short 6 h Hshort) as Hs.
    destruct (h_readinto 6 h) as [d hh]. cbn [snd] in Hs.
    now injection Hread as _ <-. }
  clear Hread.
  apply bind_ok in H. destruct H as (pos & h2' & Htell & H).
  unfold tell in Htell. injection Htell as <- <-.
  cbv zeta in H.
  pose proof (pes_packet_length_nonneg data) as Hlen.
  match type of H with (if ?c then _ else _) _ = _ => destruct c end.
  - (* flag data cannot be read at the end of the file *)
    apply bind_ok in H. destruct H as (fd & hf & Hfd & _).
    unfold FlagData.__init__ in Hfd.
    apply bind_ok in Hfd. destruct Hfd as (d3 & h3 & Hr3 & Hfd).
    unfold readinto, lift, h_readinto, h_read in Hr3. rewrite H6 in Hr3.
    cbn in Hr3. injection Hr3 as <- <-.
    cbn in Hfd. discriminate.
  - match type of H with (if ?c then _ else _) _ = _ => destruct c end.
    + apply bind_ok in H. destruct H as (now & hf' & Htell & H).
      unfold tell in Htell. injection Htell as <- <-.
      apply bind_ok in H. destruct H as (now' & hf' & Htell & H).
      unfold tell in Htell. injection Htell as <- <-.
      apply bind_ok in H. destruct H as (z & hs & Hseek & H).
      unfold ret in H. injection H as _ <-.
      apply (seek_cur_at_end _ _ _ _ H6) in Hseek; [assumption|lia].
    + match type of H with (if ?c then _ else _) _ = _ => destruct c end;
        [|discriminate].
      apply bind_ok in H. destruct H as (now & hf' & Htell & H).
      unfold tell in Htell. injection Htell as <- <-.
      apply bind_ok in H. destruct H as (z & hs & Hseek & H).
      unfold ret in H. injection H as _ <-.
      apply (seek_cur_at_end _ _ _ _ H6) in Hseek; [assumption|lia].
Qed.

Lemma peek_self (n : nat) (nb : list byte) (h h' : Handle) :
  peek n h = (Ok nb, h') -> peek n h = (Ok nb, h).
Proof.
  intros H. pose proof (peek_ok n nb h h' H) as (-> & _). exact H.
Qed.

Lemma remaining_length (h : Handle) (n : nat) :
  (n <= length (remaining h))%nat -> (0 < n)%nat ->
  h_tell h + Z.of_nat n <= len (h_data h).
Proof.
  unfold remaining, h_tell, len. rewrite length_skipn. lia.
Qed.

(** The loop over the packets of a pack stops before a pack start
    code, an end code or bytes that are no start code. *)
Lemma while_packets_stop (next_bits : list byte) (h : Handle) :
  peek 4 h = (Ok next_bits, h) ->
  (if bytes_eqb (py_slice next_bits 0 3) packet_start_code_prefix
   then
     if bytes_eqb next_bits PackStartHeader.start_code
     then true
     else bytes_eqb next_bits program_end_code
   else true) = true ->
  (4 <= length (remaining h))%nat
  /\ (firstn 3 (remaining h) <> packet_start_code_prefix
      \/ firstn 4 (remaining h) = PackStartHeader.start_code
      \/ firstn 4 (remaining h) = program_end_code).
Proof.
  intros Hpeek Hc.
  pose proof (peek_ok 4 next_bits h h Hpeek) as (_ & Hnb & H4).
  assert (Hnb3 : py_slice next_bits 0 3 = firstn 3 (remaining h)).
  { destruct (remaining h) as [|a [|b [|c [|d tl]]]];
      try (cbn in H4; lia).
    cbn in Hnb. subst next_bits. reflexivity. }
  split; [exact H4|].
  rewrite Hnb3 in Hc. rewrite <- Hnb. unfold bytes_eqb in Hc.
  destruct (list_eq_dec Byte.byte_eq_dec (firstn 3 (remaining h))
              packet_start_code_prefix); [|auto].
  destruct (list_eq_dec Byte.byte_eq_dec next_bits
              PackStartHeader.start_code); [auto|].
  destruct (list_eq_dec Byte.byte_eq_dec next_bits program_end_code);
    [auto|discriminate].
Qed.

(** The loop over the packets of a pack. *)
Lemma while_packets_ok (rounds : nat) :
  forall pkt_no next_bits acc h res h',
    peek 4 h = (Ok next_bits, h) ->
    PackStartHeader.while_packets rounds pkt_no next_bits acc h
    = Some (Ok res, h') ->
    exists new,
      res = acc ++ new
      /\ h_data h' = h_data h
      /\ Layout.chained (h_tell h) new (h_tell h')
      /\ Layout.numbered pkt_no new
      /\ Forall (Layout.inside (len (h_data h))) new
      /\ (4 <= length (remaining h'))%nat
      /\ (firstn 3 (remaining h') <> packet_start_code_prefix
          \/ firstn 4 (remaining h') = PackStartHeader.start_code
          \/ firstn 4 (remaining h') = program_end_code).
Proof.
  induction rounds as [|rounds IH];
    intros pkt_no next_bits acc h res h' Hpeek H.
  all: assert (Hstop :
           (if bytes_eqb (py_slice next_bits 0 3) packet_start_code_prefix
            then
              if bytes_eqb next_bits PackStartHeader.start_code
              then true
              else bytes_eqb next_bits program_end_code
            else true) = true ->
           Some (Ok acc, h) = Some (Ok res, h') ->
           exists new,
             res = acc ++ new
             /\ h_data h' = h_data h
             /\ Layout.chained (h_tell h) new (h_tell h')
             /\ Layout.numbered pkt_no new
             /\ Forall (Layout.inside (len (h_data h))) new
             /\ (4 <= length (remaining h'))%nat
             /\ (firstn 3 (remaining h') <> packet_start_code_prefix
                 \/ firstn 4 (remaining h') = PackStartHeader.start_code
                 \/ firstn 4 (remaining h') = program_end_code))
    by (intros Hc [= <- <-]; exists [];
        destruct (while_packets_stop next_bits h Hpeek Hc) as (S4 & Sc);
        rewrite app_nil_r; cbn [Layout.chained Layout.numbered];
        repeat match goal with |- _ /\ _ => split end; auto).
  - cbn [PackStartHeader.while_packets] in H.
    destruct (bytes_eqb (py_slice next_bits 0 3) packet_start_code_prefix)
      eqn:E1; [|apply Hstop; [reflexivity|exact H]].
    destruct (bytes_eqb next_bits PackStartHeader.start_code) eqn:E2;
      [apply Hstop; [reflexivity|exact H]|].
    destruct (bytes_eqb next_bits program_end_code) eqn:E3;
      [apply Hstop; [reflexivity|exact H]|].
    discriminate.
  - cbn [PackStartHeader.while_packets] in H.
    destruct (bytes_eqb (py_slice next_bits 0 3) packet_start_code_prefix)
      eqn:E1; [|apply Hstop; [reflexivity|exact H]].
    destruct (bytes_eqb next_bits PackStartHeader.start_code) eqn:E2;
      [apply Hstop; [reflexivity|exact H]|].
    destruct (bytes_eqb next_bits program_end_code) eqn:E3;
      [apply Hstop; [reflexivity|exact H]|].
    clear Hstop.
    apply lbind_ok in H. destruct H as (pes & h1 & Hpes & H).
    apply run_ok in Hpes.
    apply lbind_ok in H. destruct H as (nb' & h1' & Hpk & H).
    apply run_ok in Hpk.
    pose proof (pes_packet_needs_header _ _ _ _ _ _ Hpes Hpk) as H6.
    pose proof (peek_ok 4 nb' h1 h1' Hpk) as (-> & _ & H4').
    destruct (pes_packet_shape pkt_no h h1 pes H6 Hpes)
      as (Hno & Hpos & Hdata & Hsum & Hend & Hd & Hnn & _).
    destruct (IH (pkt_no + 1) nb' (acc ++ [pes]) h1 res h' Hpk H)
      as (new & Hres & Hd' & Hch & Hnum & Hin & Hrem & Hcond).
    exists (pes :: new).
    rewrite <- app_assoc in Hres. cbn [app] in Hres.
    repeat match goal with |- _ /\ _ => split end; auto.
    + congruence.
    + cbn [Layout.chained]. split; [exact Hpos|].
      rewrite <- Hend. exact Hch.
    + cbn [Layout.numbered]. auto.
    + constructor; [|rewrite <- Hd; exact Hin].
      unfold Layout.inside. rewrite Hpos.
      pose proof (remaining_length h1 4 H4' ltac:(lia)) as Hfit.
      rewrite Hd in Hfit. change (Z.of_nat 4) with 4 in Hfit.
      unfold h_tell in *.
      repeat match goal with |- _ /\ _ => split end; try lia.
Qed.

Lemma read_ok (n : Z) (h h' : Handle) (got : list byte) :
  0 <= n -> read n h = (Ok got, h') ->
  h_data h' = h_data h
  /\ got = firstn (Z.to_nat n) (remaining h)
  /\ h_tell h' = h_tell h + len got
  /\ (remaining h' <> [] -> len got = n).
Proof.
  intros Hn. unfold read, lift, h_read.
  destruct (Z.ltb_spec n 0); [lia|]. intros [= <- <-].
  cbn [h_data]. repeat match goal with |- _ /\ _ => split end; auto.
  - unfold h_tell, len. cbn [h_pos]. lia.
  - intros Hne. unfold len. rewrite length_firstn.
    destruct (Nat.le_gt_cases (Z.to_nat n) (length (remaining h)));
      [lia|exfalso].
    apply Hne. unfold remaining in *. cbn [h_data h_pos].
    rewrite firstn_all2 by lia.
    apply skipn_all2. rewrite length_skipn. lia.
Qed.

Lemma pack_stuffing_length_range (data : list byte) :
  0 <= PackStartHeader.pack_stuffing_length data.
Proof.
  unfold PackStartHeader.pack_stuffing_length, field.
  apply Z.shiftr_nonneg. apply Z.land_nonneg. right. lia.
Qed.

(** [PackStartHeader.__init__] when it returns. *)
Lemma pack_shape (rounds : nat) (pkt_no : Z) (h h' : Handle)
    (psh : PackStartHeader.t) :
  PackStartHeader.__init__ rounds pkt_no h = Some (Ok psh, h') ->
  (14 <= length (remaining h))%nat
  /\ PackStartHeader.pos psh = h_tell h
  /\ PackStartHeader.data psh = firstn 14 (remaining h)
  /\ h_data h' = h_data h
  /\ Layout.numbered pkt_no (PackStartHeader.pes_list psh)
  /\ (exists first,
        Layout.chained first (PackStartHeader.pes_list psh) (h_tell h')
        /\ match PackStartHeader.system_header psh with
           | None =>
               first = h_tell h + 14
                       + PackStartHeader.pack_stuffing_length
                           (PackStartHeader.data psh)
           | Some sh =>
               SystemHeader.pos sh
               = h_tell h + 14
                 + PackStartHeader.pack_stuffing_length
                     (PackStartHeader.data psh)
           end)
  /\ Forall (Layout.inside (len (h_data h))) (PackStartHeader.pes_list psh)
  /\ (4 <= length (remaining h'))%nat
  /\ (firstn 3 (remaining h') <> packet_start_code_prefix
      \/ firstn 4 (remaining h') = PackStartHeader.start_code
      \/ firstn 4 (remaining h') = program_end_code).
Proof.
  intros H. unfold PackStartHeader.__init__ in H.
  apply lbind_ok in H. destruct H as (pos & h0 & Htell & H).
  apply run_ok in Htell. unfold tell in Htell. injection Htell as <- <-.
  apply lbind_ok in H. destruct H as (data & h14 & Hread & H).
  apply run_ok in Hread.
  change PackStartHeader.size with 14%nat in Hread.
  match type of H with (if ?c then _ else _) _ = _ => destruct c end;
    [discriminate|].
  match type of H with (if ?c then _ else _) _ = _ => destruct c end;
    [discriminate|].
  apply lbind_ok in H. destruct H as (u & h14' & Hassert & H).
  apply run_ok in Hassert. apply assert_ok in Hassert.
  destruct Hassert as (_ & ->).
  apply lbind_ok in H. destruct H as (stuffing & h15 & Hstuff & H).
  apply run_ok in Hstuff.
  pose proof (pack_stuffing_length_range data) as Hsl.
  apply (read_ok _ _ _ _ Hsl) in Hstuff.
  destruct Hstuff as (Hd15 & _ & Ht15 & Hfull).
  apply lbind_ok in H. destruct H as (nb & h15' & Hpk & H).
  apply run_ok in Hpk.
  pose proof (peek_ok 4 nb h15 h15' Hpk) as (-> & _ & H4).
  assert (Hne15 : remaining h15 <> [])
    by (intros E; rewrite E in H4; cbn in H4; lia).
  specialize (Hfull Hne15).
  assert (H14 : (14 <= length (remaining h))%nat).
  { destruct (Nat.le_gt_cases 14 (length (remaining h))) as [|Hshort];
      [assumption|exfalso].
    pose proof (readinto_short 14 h Hshort) as Hs.
    assert (Hh : h14 = snd (h_readinto 14 h)).
    { unfold readinto, lift in Hread.
      destruct (h_readinto 14 h) as [d hh]. now injection Hread as _ <-. }
    rewrite <- Hh in Hs. clear Hh Hread.
    apply Hne15. unfold remaining in *.
    assert (length (h_data h14) <= h_pos h14)%nat.
    { destruct (Nat.le_gt_cases (length (h_data h14)) (h_pos h14));
        [assumption|].
      apply (f_equal (@length byte)) in Hs. rewrite length_skipn in Hs.
      cbn in Hs. lia. }
    apply skipn_all2. unfold h_tell, len in Ht15. rewrite Hd15. lia. }
  rewrite (readinto_ok 14 h H14) in Hread.
  remember (firstn 14 (remaining h)) as data14 eqn:Hdata14.
  injection Hread as <- <-.
  apply lbind_ok in H. destruct H as (sh & h16 & Hsh & H).
  apply lbind_ok in H. destruct H as (nb2 & h16' & Hpk2 & H).
  apply run_ok in Hpk2.
  pose proof (peek_ok 4 nb2 h16 h16' Hpk2) as (-> & _ & _).
  apply lbind_ok in H. destruct H as (pes_list & h17 & Hloop & H).
  apply run_ok in H. unfold ret in H. injection H as <- <-.
  cbn [PackStartHeader.pos PackStartHeader.data PackStartHeader.pes_list
       PackStartHeader.system_header].
  destruct (while_packets_ok rounds pkt_no nb2 [] h16 pes_list h17 Hpk2 Hloop)
    as (new & Hres & Hd17 & Hch & Hnum & Hin & Hrem & Hcond).
  cbn [app] in Hres. subst new.
  assert (Hsys : h_data h16 = h_data h15
                 /\ match sh with
                    | None => h_tell h16 = h_tell h15
                    | Some s => SystemHeader.pos s = h_tell h15
                    end).
  { destruct (bytes_eqb nb system_header_start_code).
    - apply lbind_ok in Hsh. destruct Hsh as (s & hs & Hs & Hret).
      apply run_ok in Hret. unfold ret in Hret. injection Hret as <- <-.
      split; [exact (lkeeps_SystemHeader rounds _ _ _ Hs)|].
      unfold SystemHeader.__init__ in Hs.
      apply lbind_ok in Hs. destruct Hs as (p0 & hp & Htell & Hs).
      apply run_ok in Htell. unfold tell in Htell. injection Htell as <- <-.
      apply lbind_ok in Hs. destruct Hs as (d12 & h12 & _ & Hs).
      apply lbind_ok in Hs. destruct Hs as (u2 & h12' & _ & Hs).
      match type of Hs with (if ?c then _ else _) _ = _ => destruct c end;
        [discriminate|].
      apply lbind_ok in Hs. destruct Hs as (nb3 & h13 & _ & Hs).
      apply lbind_ok in Hs. destruct Hs as (streams & h18 & _ & Hs).
      apply run_ok in Hs. unfold ret in Hs. injection Hs as <- _.
      reflexivity.
    - apply run_ok in Hsh. unfold ret in Hsh. injection Hsh as <- <-. auto. }
  destruct Hsys as (Hd16 & Hsys).
  assert (Hbase : h_tell h15
                  = h_tell h + 14 + PackStartHeader.pack_stuffing_length data14).
  { rewrite Ht15, Hfull. unfold h_tell. cbn [h_pos]. lia. }
  cbn [h_data] in Hd15.
  repeat match goal with |- _ /\ _ => split end; auto.
  - congruence.
  - exists (h_tell h16). split; [exact Hch|].
    destruct sh; rewrite <- Hbase; auto.
  - replace (h_data h) with (h_data h16) by congruence. exact Hin.
Qed.

End PackMore.

(* ================================================================== *)
(** * The program stream and the readers of one stream *)
(* ================================================================== *)

Module DemuxFacts.
Import MPEG2ProgramStream PackMore Demux.

Lemma contains_app (d1 d2 : list (Z * PESPacket.t)) (id : Z) :
  contains (d1 ++ d2) id = contains d1 id || contains d2 id.
Proof. unfold contains. apply existsb_app. Qed.

Lemma contains_false (d : list (Z * PESPacket.t)) (id : Z) :
  contains d id = false -> ~ In id (map fst d).
Proof.
  unfold contains. intros H Hin. apply in_map_iff in Hin.
  destruct Hin as (kv & Hk & Hin).
  assert (existsb (fun kv => fst kv =? id) d = true).
  { apply existsb_exists. exists kv. split; [assumption|]. lia. }
  congruence.
Qed.

Lemma find_app {A} (f : A -> bool) (a b : list A) :
  find f (a ++ b) = match find f a with Some x => Some x | None => find f b end.
Proof.
  induction a as [|x a IH]; [reflexivity|]. cbn. destruct (f x); auto.
Qed.

Lemma find_none_existsb {A} (f : A -> bool) (l : list A) :
  existsb f l = false -> find f l = None.
Proof.
  induction l as [|x l IH]; [reflexivity|]. cbn.
  destruct (f x); [discriminate|]. exact IH.
Qed.

Lemma firsts_step (seen : list PESPacket.t) (d : list (Z * PESPacket.t))
    (pes : PESPacket.t) :
  firsts seen d ->
  firsts (seen ++ [pes])
         (if negb (contains d (PESPacket.stream_id pes))
          then d ++ [(PESPacket.stream_id pes, pes)] else d).
Proof.
  intros (Hnd & Hc & Hf).
  destruct (contains d (PESPacket.stream_id pes)) eqn:E; cbn [negb].
  - split; [exact Hnd|]. split.
    + intros id. rewrite existsb_app, Hc. cbn [existsb].
      rewrite orb_false_r. unfold has_id at 3.
      destruct (Z.eqb_spec (PESPacket.stream_id pes) id) as [<-|];
        [|now rewrite orb_false_r].
      rewrite <- Hc, E. reflexivity.
    + intros id p Hin. rewrite find_app, (Hf id p Hin). reflexivity.
  - split; [|split].
    + rewrite map_app. cbn [map fst].
      apply NoDup_app; [exact Hnd|repeat constructor; intros []|].
      intros x Hx [<-|[]]. exact (contains_false _ _ E Hx).
    + intros id. rewrite contains_app, existsb_app, Hc.
      unfold contains. cbn [existsb fst]. reflexivity.
    + intros id p Hin. apply in_app_or in Hin. rewrite find_app.
      destruct Hin as [Hin|[[= <- <-]|[]]].
      * rewrite (Hf id p Hin). reflexivity.
      * rewrite find_none_existsb by (rewrite <- Hc; exact E).
        cbn [find]. unfold has_id. now rewrite Z.eqb_refl.
Qed.

Lemma for_pes_firsts (l : list PESPacket.t) :
  forall seen d, firsts seen d -> firsts (seen ++ l) (for_pes l d).
Proof.
  induction l as [|pes l IH]; intros seen d H.
  - now rewrite app_nil_r.
  - cbn [for_pes].
    replace (seen ++ pes :: l) with ((seen ++ [pes]) ++ l)
      by (rewrite <- app_assoc; reflexivity).
    apply IH. apply firsts_step. exact H.
Qed.

Lemma for_pes_app (a b : list PESPacket.t) (d : list (Z * PESPacket.t)) :
  for_pes (a ++ b) d = for_pes b (for_pes a d).
Proof.
  revert d. induction a as [|x a IH]; intros d; [reflexivity|].
  cbn [app for_pes]. apply IH.
Qed.

Lemma numbered_app (a b : list PESPacket.t) (n : Z) :
  Layout.numbered n (a ++ b)
  <-> Layout.numbered n a /\ Layout.numbered (n + len a) b.
Proof.
  revert n. induction a as [|x a IH]; intros n.
  - cbn. rewrite Z.add_0_r. tauto.
  - cbn [app Layout.numbered]. rewrite IH.
    replace (n + 1 + len a) with (n + len (x :: a))
      by (unfold len; cbn [length]; lia).
    tauto.
Qed.

(** The loop over the packs. *)
Lemma while_true_ok (rounds : nat) (fuel : nat) :
  forall pkt_no packs types h m h',
    while_true fuel rounds pkt_no packs types h = Some (Ok m, h') ->
    exists new,
      new <> []
      /\ pack_list m = packs ++ new
      /\ pes_types m = for_pes (flat_map PackStartHeader.pes_list new) types
      /\ h_data h' = h_data h
      /\ Layout.numbered pkt_no (flat_map PackStartHeader.pes_list new)
      /\ Forall (Layout.inside (len (h_data h)))
                (flat_map PackStartHeader.pes_list new)
      /\ firstn 4 (remaining h') = program_end_code.
Proof.
  induction fuel as [|fuel IH]; intros pkt_no packs types h m h' H;
    [discriminate|].
  cbn [while_true] in H.
  apply lbind_ok in H. destruct H as (psh & h1 & Hpsh & H).
  cbv zeta in H.
  apply lbind_ok in H. destruct H as (nb & h1' & Hpk & H).
  apply run_ok in Hpk.
  pose proof (peek_ok 4 nb h1 h1' Hpk) as (-> & Hnb & _).
  destruct (pack_shape rounds pkt_no h h1 psh Hpsh)
    as (_ & _ & _ & Hd1 & Hnum & _ & Hin & _ & _).
  destruct (bytes_eqb nb program_end_code) eqn:E.
  - apply run_ok in H. unfold ret in H. injection H as <- <-.
    exists [psh]. cbn [pack_list pes_types flat_map].
    rewrite app_nil_r.
    repeat match goal with |- _ /\ _ => split end; auto.
    + discriminate.
    + apply bytes_eqb_eq in E. congruence.
  - destruct (IH _ _ _ _ _ _ H)
      as (new & _ & Hpl & Hpt & Hd & Hnum' & Hin' & Hend).
    exists (psh :: new). cbn [flat_map].
    repeat match goal with |- _ /\ _ => split end; auto.
    + discriminate.
    + rewrite Hpl, <- app_assoc. reflexivity.
    + rewrite Hpt, for_pes_app. reflexivity.
    + congruence.
    + apply numbered_app. auto.
    + apply Forall_app. split; [exact Hin|].
      rewrite <- Hd1. exact Hin'.
Qed.

(** The program stream built by the constructor. *)
Lemma program_stream_shape (fuel rounds : nat) (pkt_no : Z) (h h' : Handle)
    (m : t) :
  __init__ fuel rounds pkt_no h = Some (Ok m, h') ->
  pack_list m <> []
  /\ firsts (packets m) (pes_types m)
  /\ h_data h' = h_data h
  /\ Layout.numbered pkt_no (packets m)
  /\ Forall (Layout.inside (len (h_data h))) (packets m)
  /\ firstn 4 (remaining h') = program_end_code.
Proof.
  intros H. unfold __init__ in H.
  destruct (while_true_ok rounds fuel pkt_no [] [] h m h' H)
    as (new & Hne & Hpl & Hpt & Hd & Hnum & Hin & Hend).
  cbn [app] in Hpl. unfold packets. rewrite Hpl, Hpt.
  repeat match goal with |- _ /\ _ => split end; auto.
  apply (for_pes_firsts _ [] []).
  split; [constructor|]. split; [reflexivity|]. intros id p [].
Qed.

Lemma flat_map_filter {A B} (f : B -> bool) (g : A -> list B) (l : list A) :
  flat_map (fun a => filter f (g a)) l = filter f (flat_map g l).
Proof.
  induction l as [|a l IH]; [reflexivity|].
  cbn [flat_map]. now rewrite filter_app, IH.
Qed.

Lemma len_fold (l : list PackStartHeader.t) (acc : Z) :
  fold_left (fun total psh => total + len (PackStartHeader.pes_list psh))
            l acc
  = acc + len (flat_map PackStartHeader.pes_list l).
Proof.
  revert acc. induction l as [|x l IH]; intros acc.
  - cbn. unfold len. cbn. lia.
  - cbn [fold_left flat_map]. rewrite IH, StreamMore.len_app. lia.
Qed.

(** The iterator of one stream, once the dictionary is known. *)
Lemma stream_iter_by_id (m : t) (id : Z) :
  firsts (packets m) (pes_types m) ->
  stream_iter m (ById id)
  = if existsb (has_id id) (packets m)
    then Ok (filter (has_id id) (packets m))
    else Raise ValueError.
Proof.
  intros (_ & Hc & _). unfold stream_iter. cbn [obind].
  rewrite Hc. destruct (existsb (has_id id) (packets m)); cbn [negb];
    [|reflexivity].
  unfold packets. now rewrite <- flat_map_filter.
Qed.

(** Each packet is counted once when the packets are counted stream by
    stream. *)
Lemma count_key_once (x : Z) (ks : list Z) :
  NoDup ks -> In x ks ->
  fold_right (fun k acc => (if x =? k then 1 else 0) + acc) 0 ks = 1.
Proof.
  induction ks as [|k ks IH]; intros Hnd Hin; [contradiction|].
  inversion Hnd as [|? ? Hnk Hnd']; subst. cbn [fold_right].
  destruct (Z.eqb_spec x k) as [->|Hne].
  - assert (H0 : fold_right (fun k0 acc => (if k =? k0 then 1 else 0) + acc)
                   0 ks = 0).
    { clear - Hnk. induction ks as [|y ks IH]; [reflexivity|].
      cbn [fold_right]. destruct (Z.eqb_spec k y) as [->|_].
      - exfalso. apply Hnk. now left.
      - rewrite IH; [reflexivity|]. intros H. apply Hnk. now right. }
    rewrite H0. reflexivity.
  - destruct Hin as [->|Hin]; [contradiction|]. rewrite IH by assumption.
    reflexivity.
Qed.

Lemma count_by_key (ks : list Z) (l : list PESPacket.t) :
  NoDup ks ->
  Forall (fun p => In (PESPacket.stream_id p) ks) l ->
  fold_right (fun k acc => len (filter (has_id k) l) + acc) 0 ks = len l.
Proof.
  intros Hnd. induction l as [|x l IH]; intros Hin.
  - clear. induction ks as [|k ks IH]; [reflexivity|].
    cbn [fold_right]. rewrite IH. reflexivity.
  - inversion Hin as [|? ? Hx Hl]; subst.
    specialize (IH Hl).
    assert (Hsplit : forall ks0,
               fold_right (fun k acc => len (filter (has_id k) (x :: l)) + acc)
                          0 ks0
               = fold_right (fun k acc =>
                               (if PESPacket.stream_id x =? k then 1 else 0)
                               + acc) 0 ks0
                 + fold_right (fun k acc => len (filter (has_id k) l) + acc)
                              0 ks0).
    { induction ks0 as [|k ks0 IH0]; [reflexivity|].
      cbn [fold_right]. rewrite IH0. cbn [filter]. unfold has_id at 1.
      destruct (PESPacket.stream_id x =? k); unfold len; cbn [length]; lia. }
    rewrite Hsplit, IH, (count_key_once _ ks Hnd Hx).
    unfold len. cbn [length]. lia.
Qed.

Lemma firsts_keys (seen : list PESPacket.t) (d : list (Z * PESPacket.t)) :
  firsts seen d ->
  Forall (fun p => In (PESPacket.stream_id p) (map fst d)) seen.
Proof.
  intros (_ & Hc & _). apply Forall_forall. intros p Hp.
  assert (He : existsb (has_id (PESPacket.stream_id p)) seen = true).
  { apply existsb_exists. exists p. split; [assumption|].
    unfold has_id. apply Z.eqb_refl. }
  rewrite <- Hc in He. unfold contains in He.
  apply existsb_exists in He. destruct He as (kv & Hkv & Hk).
  apply Z.eqb_eq in Hk. rewrite <- Hk. now apply in_map.
Qed.

End DemuxFacts.

(* ================================================================== *)
(** * psdemuxer/streams: the segments of a demultiplexed stream *)
(* ================================================================== *)

Module ReaderFacts.
Import StreamReader StreamFacts RawReader StreamMore IOFacts FlagFacts.

(** A new reader stands at the start of its stream. *)
Lemma init_at_pos (segs : list SegmentInfo) :
  segs <> [] -> contiguous segs -> at_pos segs (__init__ segs) 0.
Proof.
  intros Hne Hc. destruct (init_at_start segs) as (Hsi & HT).
  split; [exact Hsi|]. split; [exact HT|]. left.
  destruct segs as [|s post]; [contradiction|].
  exists [], s, post. cbn in Hc. destruct Hc as (_ & Hs & _).
  split; [reflexivity|]. split; [reflexivity|].
  split; [cbn; lia|reflexivity].
Qed.

(** Reading everything from a new reader. *)
Lemma read_all_from_start (segs : list SegmentInfo) (fs : Files)
    (size : Z) (fuel : nat) :
  segs <> [] -> contiguous segs -> backed fs segs -> size < 0 ->
  (length segs <= fuel)%nat ->
  exists r' fs',
    read fuel size (__init__ segs) fs = Some (Ok (content fs segs, r', fs'))
    /\ same_data fs fs'
    /\ tell r' = Ok (total segs).
Proof.
  intros Hne Hc Hb Hsize Hfuel.
  pose proof (init_at_pos segs Hne Hc) as Hat.
  pose proof (contiguous_sizes _ _ Hc) as Hsz.
  pose proof (length_content fs segs Hb Hsz) as Hlen.
  assert (Ht : 0 <= total segs) by (apply total_nonneg; exact Hsz).
  rewrite (read_negative segs fs _ 0 size fuel Hne Hc Hat Hsize).
  destruct (read_at_pos segs fs _ 0 (total segs - 0) fuel Hc Hb Hat)
    as (r' & fs' & Hr & Hsame & Hat'); [lia|exact Hfuel|].
  exists r', fs'. rewrite Hr.
  split; [|split; [exact Hsame|]].
  - do 3 f_equal. apply (f_equal (fun d => (d, r'))).
    cbn [Z.to_nat skipn]. apply firstn_all2. unfold len in Hlen. lia.
  - replace (Z.min (0 + (total segs - 0)) (total segs)) with (total segs)
      in Hat' by lia.
    apply (tell_at_pos segs); assumption.
Qed.

(** One segment for each packet, [d] bytes into its payload. *)
Lemma segments_content (fs : Files) (fhn : nat) (d : Z)
    (pkts : list PESPacket.t) (segs : list SegmentInfo) :
  Forall2 (fun p s =>
             fh s = fhn
             /\ real_address s
                = PESPacket.pos p + PESPacket.header_length p + d
             /\ data_size s = PESPacket.pes_packet_data_bytes_n p - d)
          pkts segs ->
  Forall (Layout.inside (len (h_data (fs fhn)))) pkts ->
  0 <= d ->
  Forall (fun p => d <= PESPacket.pes_packet_data_bytes_n p) pkts ->
  backed fs segs
  /\ content fs segs
     = flat_map (fun p =>
                   py_slice (h_data (fs fhn))
                     (PESPacket.pos p + PESPacket.header_length p + d)
                     (PESPacket.pos p + PESPacket.header_length p
                      + PESPacket.pes_packet_data_bytes_n p)) pkts.
Proof.
  intros H2 Hin Hd Hn.
  induction H2 as [|p s pkts segs Hps H2 IH].
  - split; [constructor|reflexivity].
  - destruct Hps as (Hfh & Hra & Hds).
    apply Forall_cons_iff in Hin. destruct Hin as (Hp & Hin').
    apply Forall_cons_iff in Hn. destruct Hn as (Hnp & Hn').
    destruct (IH Hin' Hn') as (Hb & Hcont).
    destruct Hp as (_ & Ha & Hend & Hfit).
    split.
    + constructor; [|exact Hb]. rewrite Hfh, Hra, Hds. lia.
    + unfold content in *. cbn [map concat flat_map]. rewrite Hcont.
      f_equal. unfold segment_bytes. rewrite Hfh, Hra, Hds.
      rewrite py_slice_nonneg by lia. do 2 f_equal. lia.
Qed.

Lemma segments_total (fhn : nat) (d : Z)
    (pkts : list PESPacket.t) (segs : list SegmentInfo) :
  Forall2 (fun p s =>
             fh s = fhn
             /\ real_address s
                = PESPacket.pos p + PESPacket.header_length p + d
             /\ data_size s = PESPacket.pes_packet_data_bytes_n p - d)
          pkts segs ->
  total segs
  = fold_right (fun p acc => PESPacket.pes_packet_data_bytes_n p - d + acc)
               0 pkts.
Proof.
  intros H2. induction H2 as [|p s pkts segs Hps H2 IH];
    [reflexivity|].
  destruct Hps as (_ & _ & Hds). unfold total in *. cbn [fold_right]. rewrite IH, Hds. reflexivity.
Qed.

(** *** [StreamIdReader] *)

Lemma sid_for_pes_acc (fhn : nat) (pkts : list PESPacket.t) :
  forall v acc,
    StreamIdReader.for_pes fhn pkts v acc
    = acc ++ StreamIdReader.for_pes fhn pkts v [].
Proof.
  induction pkts as [|p pkts IH]; intros v acc; cbn [StreamIdReader.for_pes].
  - now rewrite app_nil_r.
  - rewrite IH, (IH _ ([] ++ _)). cbn [app]. now rewrite <- app_assoc.
Qed.

Lemma sid_for_pes_spec (fhn : nat) (pkts : list PESPacket.t) :
  forall v,
    Forall2 (fun p s =>
               fh s = fhn
               /\ real_address s
                  = PESPacket.pos p + PESPacket.header_length p + 0
               /\ data_size s = PESPacket.pes_packet_data_bytes_n p - 0)
            pkts (StreamIdReader.for_pes fhn pkts v [])
    /\ (Forall (fun p => 0 <= PESPacket.pes_packet_data_bytes_n p) pkts ->
        contiguous_from v (StreamIdReader.for_pes fhn pkts v [])).
Proof.
  induction pkts as [|p pkts IH]; intros v.
  - split; [constructor|intros _; exact I].
  - cbn [StreamIdReader.for_pes]. rewrite sid_for_pes_acc. cbn [app].
    destruct (IH (v + PESPacket.pes_packet_data_bytes_n p)) as (H2 & Hc).
    split.
    + constructor; [|exact H2]. cbn. repeat split; lia.
    + intros Hn. inversion Hn as [|? ? Hp Hn']; subst.
      cbn. repeat split; auto.
Qed.

(** The packets an iterator of the program stream yields. *)
Lemma stream_iter_ok (m : MPEG2ProgramStream.t)
    (key : MPEG2ProgramStream.stream_key) (pkts : list PESPacket.t) :
  Demux.firsts (MPEG2ProgramStream.packets m)
               (MPEG2ProgramStream.pes_types m) ->
  MPEG2ProgramStream.stream_iter m key = Ok pkts ->
  pkts <> []
  /\ exists id,
       pkts = filter (Demux.has_id id) (MPEG2ProgramStream.packets m).
Proof.
  intros Hf H.
  assert (Hid : exists id,
             MPEG2ProgramStream.stream_iter m (MPEG2ProgramStream.ById id)
             = Ok pkts).
  { destruct key as [id|name]; [now exists id|].
    unfold MPEG2ProgramStream.stream_iter in H.
    destruct (get_stream_id_by_name name) as [id|] eqn:E; [|discriminate].
    exists id. exact H. }
  destruct Hid as (id & Hid).
  rewrite (DemuxFacts.stream_iter_by_id m id Hf) in Hid.
  destruct (existsb _ _) eqn:He; [|discriminate].
  injection Hid as <-. split; [|now exists id].
  apply existsb_exists in He. destruct He as (p & Hp & Hpid).
  intros Hnil.
  assert (Hin : In p (filter (Demux.has_id id)
                             (MPEG2ProgramStream.packets m)))
    by (apply filter_In; auto).
  rewrite Hnil in Hin. exact Hin.
Qed.

End ReaderFacts.

(** *** [DVDAC3Stream] *)

Module AC3StreamFacts.
Import IOFacts FlagFacts.

(** What the recognizer has checked when it returns. *)
Lemma dvdac3_audio_ok (pes : PESPacket.t) (is_first : bool) (h h' : Handle)
    (a : DVDAC3Audio.t) :
  DVDAC3Audio.__init__ pes is_first h = (Ok a, h') ->
  h' = h
  /\ DVDAC3Audio.pes a = pes
  /\ PESPacket.stream_id pes = 0xBD
  /\ PESPacket.header_length pes = 0x11.
Proof.
  intros H.
  pose proof (RecognizerFacts.dvdac3_restores pes is_first h) as Hr.
  rewrite H in Hr. cbn [snd] in Hr. split; [exact Hr|].
  unfold DVDAC3Audio.__init__ in H.
  destruct (PackMore.is_stream_names (PESPacket.stream_id pes))
    as (_ & Hs & _).
  rewrite Hs in H.
  destruct (Z.eqb_spec (PESPacket.stream_id pes) 0xBD) as [Hid|Hid];
    [|cbn in H; discriminate].
  destruct (Z.eqb_spec (PESPacket.header_length pes) 0x11) as [Hhl|Hhl];
    [|cbn in H; discriminate].
  cbn [andb negb] in H. split; [|auto].
  unfold bind at 1, tell in H.
  pose proof (try_finally_outcome
                (bind (seek (PESPacket.pos pes + PESPacket.header_length pes))
                   (fun _ =>
                    bind (readinto 4) (fun data =>
                    bind (peek 2) (fun sync_word =>
                    if is_first
                       && (negb (DVDAC3Audio.stream_id_ data
                                 =? DVDAC3Audio.ac3_substream_number)
                           || negb (bytes_eqb sync_word
                                      DVDAC3Audio.ac3_sync_word))
                    then raise WrongPrivateStream
                    else ret (DVDAC3Audio.mk pes is_first data))))) h) as Ho.
  rewrite H in Ho. cbn [fst] in Ho. symmetry in Ho.
  destruct (bind _ _ h) as [o hb] eqn:Hb. cbn [fst] in Ho. subst o.
  apply bind_ok in Hb. destruct Hb as (x & h1 & _ & Hb).
  apply bind_ok in Hb. destruct Hb as (data & h2 & _ & Hb).
  apply bind_ok in Hb. destruct Hb as (sync & h3 & _ & Hb).
  destruct (is_first && _); [discriminate|].
  unfold ret in Hb. injection Hb as <- _. reflexivity.
Qed.

Lemma dvd_for_pes_acc (fhn : nat) (pkts : list PESPacket.t) :
  forall is_first v acc h,
    DVDAC3Stream.for_pes fhn is_first pkts v acc h
    = match DVDAC3Stream.for_pes fhn is_first pkts v [] h with
      | (Ok new, h') => (Ok (acc ++ new), h')
      | (Raise e, h') => (Raise e, h')
      end.
Proof.
  induction pkts as [|p pkts IH]; intros is_first v acc h;
    cbn [DVDAC3Stream.for_pes].
  - unfold ret. now rewrite app_nil_r.
  - unfold bind.
    destruct (DVDAC3Audio.__init__ p is_first h) as [[a|e] h1];
      [|reflexivity].
    rewrite IH, (IH _ _ ([] ++ _)). cbn [app].
    destruct (DVDAC3Stream.for_pes fhn false pkts _ [] h1) as [[new|e] h2];
      [|reflexivity].
    cbn [app]. now rewrite <- app_assoc.
Qed.

Lemma dvd_for_pes_ok (fhn : nat) (pkts : list PESPacket.t) :
  forall is_first v h segs h',
    DVDAC3Stream.for_pes fhn is_first pkts v [] h = (Ok segs, h') ->
    h' = h
    /\ Forall (fun p => PESPacket.stream_id p = 0xBD
                        /\ PESPacket.header_length p = 0x11) pkts
    /\ Forall2 (fun p s =>
                  fh s = fhn
                  /\ real_address s
                     = PESPacket.pos p + PESPacket.header_length p + 4
                  /\ data_size s = PESPacket.pes_packet_data_bytes_n p - 4)
               pkts segs
    /\ (Forall (fun p => 4 <= PESPacket.pes_packet_data_bytes_n p) pkts ->
        StreamReader.contiguous_from v segs).
Proof.
  induction pkts as [|p pkts IH]; intros is_first v h segs h' H;
    cbn [DVDAC3Stream.for_pes] in H.
  - unfold ret in H. injection H as <- <-.
    repeat match goal with |- _ /\ _ => split end;
      [reflexivity|constructor|constructor|intros _; exact I].
  - apply bind_ok in H. destruct H as (a & h1 & Ha & H).
    apply dvdac3_audio_ok in Ha. destruct Ha as (-> & Hpes & Hid & Hhl).
    rewrite dvd_for_pes_acc in H.
    destruct (DVDAC3Stream.for_pes fhn false pkts _ [] h) as [[new|e] h2]
      eqn:Hrest; [|discriminate].
    injection H as <- <-. cbn [app].
    destruct (IH _ _ _ _ _ Hrest) as (-> & Hall & H2 & Hc).
    unfold DVDAC3Audio.data_length, DVDAC3Audio.ac3_header_length in *.
    rewrite Hpes in *.
    repeat match goal with |- _ /\ _ => split end.
    + reflexivity.
    + constructor; auto.
    + constructor; [|exact H2]. cbn. repeat split; lia.
    + intros Hn. inversion Hn as [|? ? Hp Hn']; subst.
      cbn. repeat split; [lia|]. apply Hc. exact Hn'.
Qed.

End AC3StreamFacts.

(* ================================================================== *)
(** * Properties of the code beside the specification's claims *)
(* ================================================================== *)

(** ** psdemuxer/io/bits.py *)

(** X1.  [BitStreamReader.get_data].  After any sequence of reads that
    return, on a reader built on [fh], the side buffer holds exactly the
    bytes of the file between the cursor at construction and the cursor
    now when [keep_data] is set, and [get_data] is [None] when it is
    not; the content of the file is as it was. *)
Theorem bit_reader_get_data_is_bytes_consumed
    (fh : Handle) (keep : bool) (ks vs : list Z) (r' : BitStreamReader.t) :
  Forall (fun k => k < 2 ^ 53) ks ->
  BitStreamReader.read_all ks (BitStreamReader.__init__ fh keep)
  = Ok (vs, r') ->
  h_data (BitStreamReader._fh r') = h_data fh
  /\ (h_pos fh <= h_pos (BitStreamReader._fh r'))%nat
  /\ Bits.get_data r'
     = if keep
       then Some (Bits.between (h_pos fh)
                               (h_pos (BitStreamReader._fh r')) (h_data fh))
       else None.
Proof.
  intros _ H. apply BitReaderMore.read_all_data in H.
  destruct H as (Hd & Hp & Hk & Hw). cbn in Hd, Hp, Hk, Hw.
  repeat split; [exact Hd|exact Hp|].
  unfold Bits.get_data. rewrite Hw. destruct keep; reflexivity.
Qed.

Lemma bit_reader_get_data_is_bytes_consumed_witness :
  let fh := mkHandle [x00; xa5; x3c; xff; x01] 1 in
  let r' :=
    BitStreamReader.mk (mkHandle [x00; xa5; x3c; xff; x01] 4) true 3 255
                       (Some [xa5; x3c; xff]) in
  (Forall (fun k => k < 2 ^ 53) [3; 7; 9]
   /\ BitStreamReader.read_all [3; 7; 9] (BitStreamReader.__init__ fh true)
      = Ok ([5; 20; 487], r'))
  /\ h_data (BitStreamReader._fh r') = h_data fh
  /\ (h_pos fh <= h_pos (BitStreamReader._fh r'))%nat
  /\ Bits.get_data r' = Some [xa5; x3c; xff].
Proof.
  intros fh r'.
  assert (H1 : Forall (fun k => k < 2 ^ 53) [3; 7; 9])
    by (repeat constructor).
  assert (H2 : BitStreamReader.read_all [3; 7; 9]
                 (BitStreamReader.__init__ fh true)
               = Ok ([5; 20; 487], r')) by reflexivity.
  split; [exact (conj H1 H2)|].
  exact (bit_reader_get_data_is_bytes_consumed fh true [3; 7; 9]
           [5; 20; 487] r' H1 H2).
Defined.

(** X2.  The cursors of the bit reader, as [test_bit_read] checks them:
    reading fields of [k1, ..., kn] bits ([1 <= ki < 2^53], where the
    float [ceil(x / 8)] of the source is exact) that the file still
    holds, from a fresh reader, returns, leaves the bit cursor at
    [(k1 + ... + kn) mod 8] and has taken from the file
    [ceil((k1 + ... + kn) / 8)] bytes. *)
Theorem bit_reader_cursors_after_reads
    (fh : Handle) (keep : bool) (ks : list Z) :
  Forall (fun k => 1 <= k < 2 ^ 53) ks ->
  fold_right Z.add 0 ks <= 8 * len (remaining fh) ->
  exists vs r',
    BitStreamReader.read_all ks (BitStreamReader.__init__ fh keep)
    = Ok (vs, r')
    /\ BitStreamReader._position r' = fold_right Z.add 0 ks mod 8
    /\ h_tell (BitStreamReader._fh r')
       = h_tell fh + (fold_right Z.add 0 ks + 7) / 8.
Proof.
  intros Hbound Hsum.
  assert (Hks : Forall (fun k => 1 <= k) ks)
    by (eapply Forall_impl; [|exact Hbound]; cbn beta; intros; lia).
  set (r := BitStreamReader.__init__ fh keep).
  assert (Hwf : BitStreamReader.wf r) by (unfold BitStreamReader.wf; cbn; lia).
  assert (Hpend : fold_right Z.add 0 ks <= len (BitStreamReader.pending r)).
  { unfold BitStreamReader.pending, r.
    cbn [BitStreamReader.__init__ BitStreamReader._position
         BitStreamReader._fh Z.eqb app].
    unfold len in *. rewrite BitLemmas.length_bit_string. lia. }
  assert (Hp0 : BitStreamReader._position r = 0 mod 8) by reflexivity.
  assert (Hc0 : h_tell (BitStreamReader._fh r) = h_tell fh + (0 + 7) / 8)
    by (cbn; lia).
  destruct (BitReaderMore.read_all_cursor ks r fh 0 Hwf (Z.le_refl 0) Hks
              Hpend Hp0 Hc0)
    as (vs & r' & Hr & Hp & Hc).
  exists vs, r'. auto.
Qed.

Lemma bit_reader_cursors_after_reads_witness :
  let fh := mkHandle [x00; xa5; x3c; xff; x01] 1 in
  (Forall (fun k => 1 <= k < 2 ^ 53) [3; 7; 9]
   /\ fold_right Z.add 0 [3; 7; 9] <= 8 * len (remaining fh))
  /\ exists vs r',
       BitStreamReader.read_all [3; 7; 9] (BitStreamReader.__init__ fh false)
       = Ok (vs, r')
       /\ BitStreamReader._position r' = fold_right Z.add 0 [3; 7; 9] mod 8
       /\ h_tell (BitStreamReader._fh r')
          = h_tell fh + (fold_right Z.add 0 [3; 7; 9] + 7) / 8.
Proof.
  intros fh.
  assert (H1 : Forall (fun k => 1 <= k < 2 ^ 53) [3; 7; 9])
    by (repeat constructor; lia).
  assert (H2 : fold_right Z.add 0 [3; 7; 9] <= 8 * len (remaining fh))
    by (cbn; lia).
  split; [exact (conj H1 H2)|].
  exact (bit_reader_cursors_after_reads fh false [3; 7; 9] H1 H2).
Defined.

(** X3.  [BitStreamReader._make_mask(num, pos)], for [num >= 0] and
    [pos >= 0]: it raises [ValueError] exactly when [num + pos > 8];
    otherwise the mask fits in a byte and [(byte & mask) >> shift] is the
    number written by the [num] bits of the byte that follow its first
    [pos] bits, most significant bit first. *)
Theorem make_mask_selects_bits (num pos : Z) (b : byte) :
  0 <= num -> 0 <= pos ->
  if 8 <? num + pos
  then BitStreamReader._make_mask num pos = Raise ValueError
  else exists mask shift,
      BitStreamReader._make_mask num pos = Ok (mask, shift)
      /\ 0 <= mask < 256
      /\ field (byte_val b) mask shift
         = BitStreamReader.msb_value
             (firstn (Z.to_nat num)
                     (skipn (Z.to_nat pos) (BitStreamReader.byte_bits b))).
Proof.
  intros Hn Hp. destruct (Z.ltb_spec 8 (num + pos)) as [Hbig|Hfit].
  - unfold BitStreamReader._make_mask.
    destruct (Z.ltb_spec 8 (num + pos)); [reflexivity|lia].
  - rewrite BitReaderFacts.make_mask_ok by lia.
    eexists. eexists. split; [reflexivity|]. split.
    + rewrite Z.shiftl_mul_pow2 by lia.
      assert (0 < 2 ^ num) by (apply Z.pow_pos_nonneg; lia).
      assert (0 < 2 ^ (8 - num - pos)) by (apply Z.pow_pos_nonneg; lia).
      assert (2 ^ num * 2 ^ (8 - num - pos) = 2 ^ (8 - pos))
        by (rewrite <- Z.pow_add_r by lia; f_equal; lia).
      assert (2 ^ (8 - pos) <= 2 ^ 8) by (apply Z.pow_le_mono_r; lia).
      change (2 ^ 8) with 256 in *. nia.
    + apply BitReaderFacts.field_bits_Z; lia.
Qed.

Lemma make_mask_selects_bits_witness :
  (0 <= 3 /\ 0 <= 2)
  /\ exists mask shift,
       BitStreamReader._make_mask 3 2 = Ok (mask, shift)
       /\ 0 <= mask < 256
       /\ field (byte_val xa5) mask shift
          = BitStreamReader.msb_value
              (firstn (Z.to_nat 3)
                      (skipn (Z.to_nat 2) (BitStreamReader.byte_bits xa5))).
Proof.
  assert (H1 : 0 <= 3) by lia. assert (H2 : 0 <= 2) by lia.
  split; [exact (conj H1 H2)|].
  exact (make_mask_selects_bits 3 2 xa5 H1 H2).
Defined.

(** ** psdemuxer/io/__init__.py *)

(** X4.  Consecutive reads of the segmented reader.  On a reader whose
    segments are contiguous from 0 and lie inside their files, after
    [seek(a)], [read(n)] returns the bytes [a .. a+n] of the virtual
    stream, fewer when the stream ends before, [tell()] is then
    [min(a + n, total_size)], and a second [read(m)] goes on from there:
    it returns the bytes [a+n .. a+n+m]. *)
Theorem stream_reader_consecutive_reads
    (segs : list SegmentInfo) (fs : Files) (a n m : Z) (fuel : nat) :
  segs <> [] -> StreamReader.contiguous segs -> StreamReader.backed fs segs ->
  0 <= a <= StreamReader.total segs -> 0 <= n -> 0 <= m ->
  (length segs <= fuel)%nat ->
  exists d1 r1 fs1 d2 r2 fs2,
    StreamReader.seek_read fuel a n (StreamReader.__init__ segs) fs
    = Some (Ok (d1, r1, fs1))
    /\ StreamReader.read fuel m r1 fs1 = Some (Ok (d2, r2, fs2))
    /\ d1 = py_slice (StreamReader.content fs segs) a (a + n)
    /\ d2 = py_slice (StreamReader.content fs segs) (a + n) (a + n + m)
    /\ StreamReader.tell r1 = Ok (Z.min (a + n) (StreamReader.total segs))
    /\ StreamReader.tell r2
       = Ok (Z.min (a + n + m) (StreamReader.total segs)).
Proof.
  intros Hne Hc Hb Ha Hn Hm Hfuel.
  pose proof (StreamFacts.contiguous_sizes _ _ Hc) as Hsz.
  pose proof (StreamFacts.length_content fs segs Hb Hsz) as Hlen.
  destruct (StreamMore.init_at_start segs) as (Hsi & HT).
  destruct (StreamMore.seek_set_at_pos segs (StreamReader.__init__ segs) a
              Hne Hc Hsi HT) as (r0 & Hseek & Hat0).
  replace (Z.min (Z.max 0 a) (StreamReader.total segs)) with a in * by lia.
  destruct (StreamMore.read_at_pos segs fs r0 a n fuel Hc Hb Hat0 Hn Hfuel)
    as (r1 & fs1 & Hr1 & Hsame1 & Hat1).
  assert (Hb1 : StreamReader.backed fs1 segs)
    by (apply (StreamFacts.backed_ext fs); assumption).
  destruct (StreamMore.read_at_pos segs fs1 r1 _ m fuel Hc Hb1 Hat1 Hm Hfuel)
    as (r2 & fs2 & Hr2 & Hsame2 & Hat2).
  exists (firstn (Z.to_nat n)
            (skipn (Z.to_nat a) (StreamReader.content fs segs))), r1, fs1.
  eexists. exists r2, fs2.
  split; [unfold StreamReader.seek_read; rewrite Hseek; exact Hr1|].
  split; [exact Hr2|].
  split; [rewrite StreamMore.py_slice_nonneg by lia; do 2 f_equal; lia|].
  split.
  - rewrite StreamMore.py_slice_nonneg by lia.
    rewrite <- (StreamFacts.content_ext fs fs1) by assumption.
    rewrite <- Hlen, StreamMore.skipn_min. do 2 f_equal. lia.
  - split; [apply (StreamMore.tell_at_pos segs); assumption|].
    replace (Z.min (a + n + m) (StreamReader.total segs))
      with (Z.min (Z.min (a + n) (StreamReader.total segs) + m)
                  (StreamReader.total segs)) by lia.
    apply (StreamMore.tell_at_pos segs); assumption.
Qed.

Lemma stream_reader_consecutive_reads_witness :
  (example_segs <> [] /\ StreamReader.contiguous example_segs
   /\ StreamReader.backed example_files example_segs
   /\ 0 <= 2 <= StreamReader.total example_segs /\ 0 <= 3 /\ 0 <= 9
   /\ (length example_segs <= 4)%nat)
  /\ exists d1 r1 fs1 d2 r2 fs2,
       StreamReader.seek_read 4 2 3 (StreamReader.__init__ example_segs)
                              example_files
       = Some (Ok (d1, r1, fs1))
       /\ StreamReader.read 4 9 r1 fs1 = Some (Ok (d2, r2, fs2))
       /\ d1 = py_slice (StreamReader.content example_files example_segs)
                        2 (2 + 3)
       /\ d2 = py_slice (StreamReader.content example_files example_segs)
                        (2 + 3) (2 + 3 + 9)
       /\ StreamReader.tell r1
          = Ok (Z.min (2 + 3) (StreamReader.total example_segs))
       /\ StreamReader.tell r2
          = Ok (Z.min (2 + 3 + 9) (StreamReader.total example_segs)).
Proof.
  assert (H1 : example_segs <> []) by discriminate.
  assert (H2 : StreamReader.contiguous example_segs)
    by (cbn; repeat split; lia).
  assert (H3 : StreamReader.backed example_files example_segs)
    by (repeat constructor; cbn; lia).
  assert (H4 : 0 <= 2 <= StreamReader.total example_segs) by (cbn; lia).
  assert (H5 : 0 <= 3) by lia.
  assert (H6 : 0 <= 9) by lia.
  assert (H7 : (length example_segs <= 4)%nat) by (cbn; lia).
  split; [exact (conj H1 (conj H2 (conj H3 (conj H4 (conj H5 (conj H6 H7))))))|].
  exact (stream_reader_consecutive_reads example_segs example_files 2 3 9 4
           H1 H2 H3 H4 H5 H6 H7).
Defined.

(** X5.  [read()] with no size, or a negative one, returns all that is
    left of the virtual stream: after [seek(a)] it returns the bytes from
    [a] to the end and leaves the reader at [total_size]; a read after
    that returns [b""]. *)
Theorem stream_reader_read_to_end
    (segs : list SegmentInfo) (fs : Files) (a size k : Z) (fuel : nat) :
  segs <> [] -> StreamReader.contiguous segs -> StreamReader.backed fs segs ->
  0 <= a <= StreamReader.total segs -> size < 0 -> 0 <= k ->
  (length segs <= fuel)%nat ->
  exists r1 fs1 r2 fs2,
    StreamReader.seek_read fuel a size (StreamReader.__init__ segs) fs
    = Some (Ok (skipn (Z.to_nat a) (StreamReader.content fs segs), r1, fs1))
    /\ StreamReader.tell r1 = Ok (StreamReader.total segs)
    /\ StreamReader.read fuel k r1 fs1 = Some (Ok ([], r2, fs2)).
Proof.
  intros Hne Hc Hb Ha Hsize Hk Hfuel.
  pose proof (StreamFacts.contiguous_sizes _ _ Hc) as Hsz.
  pose proof (StreamFacts.length_content fs segs Hb Hsz) as Hlen.
  destruct (StreamMore.init_at_start segs) as (Hsi & HT).
  destruct (StreamMore.seek_set_at_pos segs (StreamReader.__init__ segs) a
              Hne Hc Hsi HT) as (r0 & Hseek & Hat0).
  replace (Z.min (Z.max 0 a) (StreamReader.total segs)) with a in * by lia.
  destruct (StreamMore.read_at_pos segs fs r0 a (StreamReader.total segs - a)
              fuel Hc Hb Hat0) as (r1 & fs1 & Hr1 & Hsame1 & Hat1);
    [lia|exact Hfuel|].
  replace (Z.min (a + (StreamReader.total segs - a))
                 (StreamReader.total segs))
    with (StreamReader.total segs) in Hat1 by lia.
  assert (Hb1 : StreamReader.backed fs1 segs)
    by (apply (StreamFacts.backed_ext fs); assumption).
  destruct (StreamMore.read_at_pos segs fs1 r1 _ k fuel Hc Hb1 Hat1 Hk Hfuel)
    as (r2 & fs2 & Hr2 & _ & _).
  rewrite StreamMore.skipn_content_end, firstn_nil in Hr2 by assumption.
  exists r1, fs1, r2, fs2.
  split; [|split; [apply (StreamMore.tell_at_pos segs); assumption
                  |exact Hr2]].
  unfold StreamReader.seek_read. rewrite Hseek.
  rewrite (StreamMore.read_negative segs fs r0 a size fuel) by assumption.
  rewrite Hr1. do 3 f_equal. apply (f_equal (fun d => (d, r1))).
  apply firstn_all2. rewrite length_skipn. unfold len in Hlen. lia.
Qed.

Lemma stream_reader_read_to_end_witness :
  (example_segs <> [] /\ StreamReader.contiguous example_segs
   /\ StreamReader.backed example_files example_segs
   /\ 0 <= 4 <= StreamReader.total example_segs /\ -1 < 0 /\ 0 <= 5
   /\ (length example_segs <= 4)%nat)
  /\ exists r1 fs1 r2 fs2,
       StreamReader.seek_read 4 4 (-1) (StreamReader.__init__ example_segs)
                              example_files
       = Some (Ok (skipn (Z.to_nat 4)
                         (StreamReader.content example_files example_segs),
                   r1, fs1))
       /\ StreamReader.tell r1 = Ok (StreamReader.total example_segs)
       /\ StreamReader.read 4 5 r1 fs1 = Some (Ok ([], r2, fs2)).
Proof.
  assert (H1 : example_segs <> []) by discriminate.
  assert (H2 : StreamReader.contiguous example_segs)
    by (cbn; repeat split; lia).
  assert (H3 : StreamReader.backed example_files example_segs)
    by (repeat constructor; cbn; lia).
  assert (H4 : 0 <= 4 <= StreamReader.total example_segs) by (cbn; lia).
  assert (H5 : -1 < 0) by lia.
  assert (H6 : 0 <= 5) by lia.
  assert (H7 : (length example_segs <= 4)%nat) by (cbn; lia).
  split; [exact (conj H1 (conj H2 (conj H3 (conj H4 (conj H5 (conj H6 H7))))))|].
  exact (stream_reader_read_to_end example_segs example_files 4 (-1) 5 4
           H1 H2 H3 H4 H5 H6 H7).
Defined.

(** X6.  [StreamReader.readinto(buffer)], after [seek(a)]: it returns
    the number of bytes read, [min(len(buffer), total_size - a)]; these
    bytes of the virtual stream replace the beginning of the buffer, the
    rest of the buffer and its size stay as they were. *)
Theorem stream_reader_readinto
    (segs : list SegmentInfo) (fs : Files) (a : Z) (buffer : list byte)
    (fuel : nat) :
  segs <> [] -> StreamReader.contiguous segs -> StreamReader.backed fs segs ->
  0 <= a <= StreamReader.total segs -> (length segs <= fuel)%nat ->
  let count := Z.min (len buffer) (StreamReader.total segs - a) in
  exists r0 r1 fs1 buffer',
    StreamReader.seek a SEEK_SET (StreamReader.__init__ segs) = Ok (a, r0)
    /\ RawReader.readinto fuel buffer r0 fs
       = Some (Ok (count, buffer', r1, fs1))
    /\ buffer' = py_slice (StreamReader.content fs segs) a (a + count)
                 ++ skipn (Z.to_nat count) buffer
    /\ len buffer' = len buffer
    /\ StreamReader.tell r1 = Ok (a + count).
Proof.
  intros Hne Hc Hb Ha Hfuel count.
  pose proof (StreamFacts.contiguous_sizes _ _ Hc) as Hsz.
  pose proof (StreamFacts.length_content fs segs Hb Hsz) as Hlen.
  destruct (StreamMore.init_at_start segs) as (Hsi & HT).
  destruct (StreamMore.seek_set_at_pos segs (StreamReader.__init__ segs) a
              Hne Hc Hsi HT) as (r0 & Hseek & Hat0).
  replace (Z.min (Z.max 0 a) (StreamReader.total segs)) with a in * by lia.
  assert (Hbuf : 0 <= len buffer) by (unfold len; lia).
  destruct (StreamMore.read_at_pos segs fs r0 a (len buffer) fuel Hc Hb Hat0
              Hbuf Hfuel) as (r1 & fs1 & Hr1 & Hsame1 & Hat1).
  set (data := firstn (Z.to_nat (len buffer))
                 (skipn (Z.to_nat a) (StreamReader.content fs segs))) in *.
  assert (Hdata : len data = count).
  { unfold data, len, count. rewrite length_firstn, length_skipn.
    unfold len in *. lia. }
  assert (Hslice : py_slice (StreamReader.content fs segs) a (a + count)
                   = data).
  { rewrite StreamMore.py_slice_nonneg by (unfold count; lia).
    replace (a + count - a) with count by lia.
    unfold data, count.
    destruct (Z.le_gt_cases (len buffer) (StreamReader.total segs - a)).
    - now rewrite Z.min_l by lia.
    - rewrite Z.min_r by lia.
      rewrite !firstn_all2; [reflexivity| |];
        rewrite length_skipn; unfold len in *; lia. }
  exists r0, r1, fs1. eexists.
  split; [exact Hseek|]. split; [|split; [reflexivity|split]].
  - unfold RawReader.readinto. rewrite Hr1, Hdata, <- Hslice.
    do 3 f_equal. unfold set_prefix, slice_bound.
    destruct (Z.ltb_spec count 0); [unfold count in *; lia|].
    rewrite Z.min_l by (unfold count; lia). reflexivity.
  - rewrite StreamMore.len_app, Hslice, Hdata. unfold len.
    rewrite length_skipn. unfold count, len in *. lia.
  - replace (a + count) with (Z.min (a + len buffer) (StreamReader.total segs))
      by (unfold count; lia).
    apply (StreamMore.tell_at_pos segs); assumption.
Qed.

Lemma stream_reader_readinto_witness :
  (example_segs <> [] /\ StreamReader.contiguous example_segs
   /\ StreamReader.backed example_files example_segs
   /\ 0 <= 8 <= StreamReader.total example_segs
   /\ (length example_segs <= 4)%nat)
  /\ let count :=
       Z.min (len [xaa; xbb; xcc; xdd])
             (StreamReader.total example_segs - 8) in
     exists r0 r1 fs1 buffer',
       StreamReader.seek 8 SEEK_SET (StreamReader.__init__ example_segs)
       = Ok (8, r0)
       /\ RawReader.readinto 4 [xaa; xbb; xcc; xdd] r0 example_files
          = Some (Ok (count, buffer', r1, fs1))
       /\ buffer'
          = py_slice (StreamReader.content example_files example_segs)
                     8 (8 + count)
            ++ skipn (Z.to_nat count) [xaa; xbb; xcc; xdd]
       /\ len buffer' = len [xaa; xbb; xcc; xdd]
       /\ StreamReader.tell r1 = Ok (8 + count).
Proof.
  assert (H1 : example_segs <> []) by discriminate.
  assert (H2 : StreamReader.contiguous example_segs)
    by (cbn; repeat split; lia).
  assert (H3 : StreamReader.backed example_files example_segs)
    by (repeat constructor; cbn; lia).
  assert (H4 : 0 <= 8 <= StreamReader.total example_segs) by (cbn; lia).
  assert (H5 : (length example_segs <= 4)%nat) by (cbn; lia).
  split; [exact (conj H1 (conj H2 (conj H3 (conj H4 H5))))|].
  exact (stream_reader_readinto example_segs example_files 8
           [xaa; xbb; xcc; xdd] 4 H1 H2 H3 H4 H5).
Defined.

(** X7.  [seek] from the start or from the end never fails on a reader
    with contiguous segments, whatever the offset and the position
    before: [seek(offset, SEEK_SET)] returns [min(max(0, offset), total)],
    [seek(offset, SEEK_END)] returns [max(0, total + min(offset, 0))]
    (an offset past the end counts as the end), the result lies in
    [0 .. total_size], and [tell()] returns it. *)
Theorem stream_reader_seek_set_end
    (segs : list SegmentInfo) (r : StreamReader.t) (offset whence : Z) :
  segs <> [] -> StreamReader.contiguous segs ->
  StreamReader.segment_info r = segs ->
  StreamReader.total_size r = StreamReader.total segs ->
  whence = SEEK_SET \/ whence = SEEK_END ->
  let target :=
    if whence =? SEEK_SET
    then Z.min (Z.max 0 offset) (StreamReader.total segs)
    else Z.max 0 (StreamReader.total segs + Z.min offset 0) in
  exists r',
    StreamReader.seek offset whence r = Ok (target, r')
    /\ 0 <= target <= StreamReader.total segs
    /\ StreamReader.tell r' = Ok target.
Proof.
  intros Hne Hc Hsi HT Hw target.
  pose proof (StreamFacts.total_nonneg segs
                (StreamFacts.contiguous_sizes _ _ Hc)) as HT0.
  assert (Hseek : exists r',
             StreamReader.seek offset whence r = Ok (target, r')
             /\ RawReader.at_pos segs r' target).
  { destruct Hw as [-> | ->]; unfold target.
    - change (SEEK_SET =? SEEK_SET) with true. cbn iota.
      apply StreamMore.seek_set_at_pos; assumption.
    - change (SEEK_END =? SEEK_SET) with false. cbn iota.
      rewrite StreamMore.seek_end_as_set by lia. rewrite HT.
      destruct (StreamMore.seek_set_at_pos segs r
                  (Z.max 0 (StreamReader.total segs + Z.min offset 0))
                  Hne Hc Hsi HT) as (r' & Hs & Hat).
      replace (Z.min (Z.max 0
                        (Z.max 0 (StreamReader.total segs + Z.min offset 0)))
                     (StreamReader.total segs))
        with (Z.max 0 (StreamReader.total segs + Z.min offset 0)) in *
        by lia.
      exists r'. auto. }
  destruct Hseek as (r' & Hs & Hat). exists r'.
  split; [exact Hs|]. split.
  - unfold target. destruct (whence =? SEEK_SET); lia.
  - apply (StreamMore.tell_at_pos segs); assumption.
Qed.

Lemma stream_reader_seek_set_end_witness :
  let r := StreamReader.mk example_segs 10 (-1) (-3) in
  (example_segs <> [] /\ StreamReader.contiguous example_segs
   /\ StreamReader.segment_info r = example_segs
   /\ StreamReader.total_size r = StreamReader.total example_segs
   /\ (SEEK_END = SEEK_SET \/ SEEK_END = SEEK_END))
  /\ let target :=
       if SEEK_END =? SEEK_SET
       then Z.min (Z.max 0 (-4)) (StreamReader.total example_segs)
       else Z.max 0 (StreamReader.total example_segs + Z.min (-4) 0) in
     exists r',
       StreamReader.seek (-4) SEEK_END r = Ok (target, r')
       /\ 0 <= target <= StreamReader.total example_segs
       /\ StreamReader.tell r' = Ok target.
Proof.
  intros r.
  assert (H1 : example_segs <> []) by discriminate.
  assert (H2 : StreamReader.contiguous example_segs)
    by (cbn; repeat split; lia).
  assert (H3 : StreamReader.segment_info r = example_segs) by reflexivity.
  assert (H4 : StreamReader.total_size r = StreamReader.total example_segs)
    by reflexivity.
  assert (H5 : SEEK_END = SEEK_SET \/ SEEK_END = SEEK_END)
    by (right; reflexivity).
  split; [exact (conj H1 (conj H2 (conj H3 (conj H4 H5))))|].
  exact (stream_reader_seek_set_end example_segs r (-4) SEEK_END
           H1 H2 H3 H4 H5).
Defined.

(** X8.  A reader without segments: [total_size] is 0 and [read(n)],
    [n >= 0], returns [b""]; [tell()], [read()] with a negative size and
    every [seek] with a valid origin raise [IndexError] (they index the
    empty segment list); a [seek] with another origin raises
    [ValueError]. *)
Theorem stream_reader_without_segments
    (offset whence size : Z) (fuel : nat) (fs : Files) :
  let r := StreamReader.__init__ [] in
  StreamReader.total_size r = 0
  /\ StreamReader.tell r = Raise IndexError
  /\ StreamReader.seek offset whence r
     = Raise (if (whence =? SEEK_SET) || (whence =? SEEK_CUR)
                 || (whence =? SEEK_END)
              then IndexError else ValueError)
  /\ StreamReader.read fuel size r fs
     = if size <? 0 then Some (Raise IndexError)
       else Some (Ok ([], r, fs)).
Proof.
  intros r. split; [reflexivity|]. split; [reflexivity|]. split.
  - unfold StreamReader.seek.
    destruct (whence =? SEEK_SET); [reflexivity|].
    destruct (whence =? SEEK_CUR); [reflexivity|].
    destruct (whence =? SEEK_END); reflexivity.
  - unfold StreamReader.read. destruct (size <? 0); [reflexivity|].
    rewrite StreamFacts.while_left_eq. cbn [StreamReader.position r
      StreamReader.__init__ StreamReader.segment_info].
    change (0 <? len []) with false. now rewrite andb_false_r.
Qed.

(** ** psdemuxer/utils.py *)

(** X9.  [peek(fh, size)].  When the file holds [size] more bytes it
    returns them and leaves the cursor where it was.  When it does not,
    [peek] raises and the cursor is not restored: the bytes left are
    consumed and the cursor is moved back by [size], which raises
    [OSError] when that is before the start of the file, and the final
    [assert] fails otherwise. *)
Theorem peek_returns_or_raises (size : nat) (h : Handle) :
  if (size <=? length (remaining h))%nat
  then peek size h = (Ok (firstn size (remaining h)), h)
  else
    let reached := h_tell h + len (remaining h) in
    if reached - Z.of_nat size <? 0
    then peek size h = (Raise OSError, mkHandle (h_data h) (Z.to_nat reached))
    else peek size h
         = (Raise AssertionError,
            mkHandle (h_data h) (Z.to_nat (reached - Z.of_nat size))).
Proof.
  unfold peek, h_read. destruct (Z.ltb_spec (Z.of_nat size) 0); [lia|].
  rewrite Nat2Z.id.
  destruct (Nat.leb_spec size (length (remaining h))) as [Hfit|Hshort].
  - rewrite length_firstn, Nat.min_l by exact Hfit.
    now rewrite Nat.eqb_refl.
  - rewrite firstn_all2 by lia.
    destruct (Nat.eqb_spec (length (remaining h)) size); [lia|].
    unfold h_seek_cur, h_seek, h_tell, len. cbn [h_pos h_data].
    replace (Z.of_nat (h_pos h + length (remaining h)) + - Z.of_nat size)
      with (Z.of_nat (h_pos h) + Z.of_nat (length (remaining h))
            - Z.of_nat size) by lia.
    destruct (_ <? 0); [|reflexivity].
    do 2 f_equal. lia.
Qed.

(** X10.  [next_start_code] stops at the first start-code prefix.  When
    [00 00 01] occurs in the file at or after the cursor, and, with
    [check_zeros], every byte before its first occurrence is zero, the
    function returns with the cursor on that first occurrence. *)
Theorem next_start_code_stops_at_prefix
    (skipped rest : list byte) (check_zeros : bool) :
  forall (h : Handle) (fuel : nat),
    remaining h = skipped ++ start_code_prefix ++ rest ->
    (forall j, (j < length skipped)%nat ->
               firstn 3 (skipn j (remaining h)) <> start_code_prefix) ->
    (check_zeros = true -> Forall (eq x00) skipped) ->
    (length skipped < fuel)%nat ->
    Utils.next_start_code fuel check_zeros h
    = Some (Ok tt, mkHandle (h_data h) (h_pos h + length skipped)).
Proof.
  induction skipped as [|b sk IH]; intros h fuel Hrem Hfirst Hz Hfuel.
  - destruct fuel as [|fuel]; [cbn in Hfuel; lia|].
    rewrite (UtilsFacts.next_start_code_found fuel check_zeros h rest Hrem).
    destruct h as [d p]. cbn. now rewrite Nat.add_0_r.
  - destruct fuel as [|fuel]; [cbn in Hfuel; lia|].
    cbn [app] in Hrem.
    assert (Hlen : (3 <= length (sk ++ start_code_prefix ++ rest))%nat)
      by (rewrite !length_app; cbn; lia).
    assert (Hl : exists b1 b2 tail,
               sk ++ start_code_prefix ++ rest = b1 :: b2 :: tail).
    { destruct (sk ++ start_code_prefix ++ rest) as [|b1 [|b2 tail]];
        try (cbn in Hlen; lia). eauto. }
    destruct Hl as (b1 & b2 & tail & Hl). rewrite Hl in Hrem.
    assert (Hne : [b; b1; b2] <> start_code_prefix).
    { pose proof (Hfirst 0%nat ltac:(cbn; lia)) as H0.
      rewrite Hrem in H0. exact H0. }
    rewrite (UtilsFacts.next_start_code_step fuel check_zeros h b b1 b2 tail
               Hrem Hne).
    assert (Hb : check_zeros && negb (bytes_eqb [b] [x00]) = false).
    { destruct check_zeros; [|reflexivity].
      specialize (Hz eq_refl). inversion Hz; subst. reflexivity. }
    rewrite Hb.
    assert (Hrem' : remaining (mkHandle (h_data h) (h_pos h + 1))
                    = sk ++ start_code_prefix ++ rest).
    { rewrite Hl.
      apply (UtilsFacts.remaining_advance h [b] (b1 :: b2 :: tail) Hrem). }
    rewrite (IH (mkHandle (h_data h) (h_pos h + 1)) fuel Hrem').
    + cbn [h_data h_pos length]. do 3 f_equal. lia.
    + intros j Hj. rewrite Hrem'.
      specialize (Hfirst (S j) ltac:(cbn; lia)).
      rewrite Hrem in Hfirst. cbn [skipn] in Hfirst. rewrite <- Hl in Hfirst.
      exact Hfirst.
    + intros Hc. specialize (Hz Hc). now inversion Hz.
    + cbn in Hfuel. lia.
Qed.

Lemma next_start_code_stops_at_prefix_witness :
  let h := mkHandle [xb8; x00; x00; x00; x00; x01; xb3] 1 in
  (remaining h = [x00; x00] ++ start_code_prefix ++ [xb3]
   /\ (forall j, (j < length [x00; x00])%nat ->
                 firstn 3 (skipn j (remaining h)) <> start_code_prefix)
   /\ (true = true -> Forall (eq x00) [x00; x00])
   /\ (length [x00; x00] < 3)%nat)
  /\ Utils.next_start_code 3 true h
     = Some (Ok tt, mkHandle (h_data h) (h_pos h + length [x00; x00])).
Proof.
  intros h.
  assert (H1 : remaining h = [x00; x00] ++ start_code_prefix ++ [xb3])
    by reflexivity.
  assert (H2 : forall j, (j < length [x00; x00])%nat ->
                 firstn 3 (skipn j (remaining h)) <> start_code_prefix).
  { intros j Hj. cbn in Hj.
    destruct j as [|[|j]]; [discriminate|discriminate|lia]. }
  assert (H3 : true = true -> Forall (eq x00) [x00; x00])
    by (intros _; repeat constructor).
  assert (H4 : (length [x00; x00] < 3)%nat) by (cbn; lia).
  split; [exact (conj H1 (conj H2 (conj H3 H4)))|].
  exact (next_start_code_stops_at_prefix [x00; x00] [xb3] true h 3
           H1 H2 H3 H4).
Defined.

(** X11.  [next_start_code] with [check_zeros] (the default) rejects
    padding that is not zero: when the cursor is followed by [k] zero
    bytes and then a byte [b] that is neither zero nor the end of a
    start-code prefix, it raises [MPEG2FileFormatException], the cursor
    being after [b]. *)
Theorem next_start_code_rejects_nonzero_padding
    (b : byte) (rest : list byte) :
  forall (k : nat) (h : Handle) (fuel : nat),
    remaining h = repeat x00 k ++ b :: rest ->
    b <> x00 -> ~ ((2 <= k)%nat /\ b = x01) ->
    (2 <= length rest)%nat -> (k < fuel)%nat ->
    Utils.next_start_code fuel true h
    = Some (Raise MPEG2FileFormatException,
            mkHandle (h_data h) (h_pos h + k + 1)).
Proof.
  induction k as [|k IH]; intros h fuel Hrem Hb Hk Hrest Hfuel.
  all: destruct fuel as [|fuel]; [lia|].
  all: destruct rest as [|r1 [|r2 tail]]; try (cbn in Hrest; lia).
  - cbn [repeat app] in Hrem.
    rewrite (UtilsFacts.next_start_code_step fuel true h b r1 r2 tail Hrem)
      by (intros [= ? ? ?]; contradiction).
    unfold bytes_eqb.
    destruct (list_eq_dec Byte.byte_eq_dec [b] [x00]) as [[= ?]|_];
      [contradiction|].
    cbn [andb negb]. now rewrite Nat.add_0_r.
  - cbn [repeat app] in Hrem.
    assert (Hnext : exists b1 b2 tl,
               repeat x00 k ++ b :: r1 :: r2 :: tail = b1 :: b2 :: tl
               /\ [x00; b1; b2] <> start_code_prefix).
    { destruct k as [|[|k]]; cbn [repeat app].
      - exists b, r1, (r2 :: tail). split; [reflexivity|].
        intros [= ? ?]. contradiction.
      - exists x00, b, (r1 :: r2 :: tail). split; [reflexivity|].
        intros [= ?]. apply Hk. split; [lia|assumption].
      - eexists. eexists. eexists. split; [reflexivity|]. discriminate. }
    destruct Hnext as (b1 & b2 & tl & Heq & Hne).
    rewrite Heq in Hrem.
    rewrite (UtilsFacts.next_start_code_step fuel true h x00 b1 b2 tl Hrem Hne).
    change (true && negb (bytes_eqb [x00] [x00])) with false. cbn iota.
    rewrite (IH (mkHandle (h_data h) (h_pos h + 1)) fuel).
    + cbn [h_data h_pos]. do 3 f_equal. lia.
    + rewrite <- Heq in Hrem.
      apply (UtilsFacts.remaining_advance h [x00] _ Hrem).
    + exact Hb.
    + intros (Hk2 & Hb1). apply Hk. split; [lia|assumption].
    + cbn. lia.
    + lia.
Qed.

Lemma next_start_code_rejects_nonzero_padding_witness :
  let h := open_bytes [x00; x00; x00; x08; x00; x00; x01; xb5] in
  (remaining h = repeat x00 3 ++ x08 :: [x00; x00; x01; xb5]
   /\ x08 <> x00 /\ ~ ((2 <= 3)%nat /\ x08 = x01)
   /\ (2 <= length [x00; x00; x01; xb5])%nat /\ (3 < 4)%nat)
  /\ Utils.next_start_code 4 true h
     = Some (Raise MPEG2FileFormatException,
             mkHandle (h_data h) (h_pos h + 3 + 1)).
Proof.
  intros h.
  assert (H1 : remaining h = repeat x00 3 ++ x08 :: [x00; x00; x01; xb5])
    by reflexivity.
  assert (H2 : x08 <> x00) by discriminate.
  assert (H3 : ~ ((2 <= 3)%nat /\ x08 = x01)) by (intros (_ & H); discriminate).
  assert (H4 : (2 <= length [x00; x00; x01; xb5])%nat) by (cbn; lia).
  assert (H5 : (3 < 4)%nat) by lia.
  split; [exact (conj H1 (conj H2 (conj H3 (conj H4 H5))))|].
  exact (next_start_code_rejects_nonzero_padding x08 [x00; x00; x01; xb5]
           3 h 4 H1 H2 H3 H4 H5).
Defined.

(** X12.  The [bytearray] helpers.  [bytearray_resize] pads with zero
    bytes up to the new size and never shortens: a new size below the
    length of the array gives the array back whole; a negative size
    raises [ValueError].  [bytearray_extend] adds [extend_size] zero
    bytes, none when [extend_size] is negative, and raises [ValueError]
    when [len(array) + extend_size] is negative.  [bytearray_append] is
    the concatenation. *)
Theorem bytearray_helpers (array extra : list byte) (n : Z) :
  Utils.bytearray_resize array n
  = (if n <? 0 then Raise ValueError
     else Ok (array ++ repeat x00 (Z.to_nat (n - len array))))
  /\ Utils.bytearray_extend array n
     = (if len array + n <? 0 then Raise ValueError
        else Ok (array ++ repeat x00 (Z.to_nat n)))
  /\ Utils.bytearray_append array extra = Ok (array ++ extra).
Proof.
  assert (Hr : forall m,
             Utils.bytearray_resize array m
             = if m <? 0 then Raise ValueError
               else Ok (array ++ repeat x00 (Z.to_nat (m - len array)))).
  { intros m. unfold Utils.bytearray_resize, bytearray.
    destruct (Z.ltb_spec m 0); [reflexivity|]. cbn [obind].
    unfold set_prefix, slice_bound.
    assert (0 <= len array) by (unfold len; lia).
    destruct (Z.ltb_spec (len array) 0); [lia|].
    f_equal. f_equal. unfold len at 2. rewrite repeat_length.
    destruct (Z.le_gt_cases (len array) m).
    - rewrite Z.min_l by lia.
      replace (Z.to_nat m)
        with (Z.to_nat (len array) + Z.to_nat (m - len array))%nat by lia.
      rewrite repeat_app, skipn_app, repeat_length, Nat.sub_diag.
      rewrite skipn_all2 by (rewrite repeat_length; lia). reflexivity.
    - rewrite Z.min_r by lia. rewrite Nat2Z.id.
      rewrite skipn_all2 by (rewrite repeat_length; lia).
      replace (Z.to_nat (m - len array)) with 0%nat by lia. reflexivity. }
  split; [apply Hr|]. split.
  - unfold Utils.bytearray_extend. rewrite Hr.
    destruct (len array + n <? 0); [reflexivity|].
    do 3 f_equal. lia.
  - unfold Utils.bytearray_append. rewrite Hr.
    assert (0 <= len array) by (unfold len; lia).
    assert (0 <= len extra) by (unfold len; lia).
    destruct (Z.ltb_spec (len array + len extra) 0); [lia|]. cbn [obind].
    unfold set_suffix, slice_bound.
    destruct (Z.ltb_spec (len array) 0); [lia|].
    rewrite Z.min_l by (rewrite StreamMore.len_app; unfold len; lia).
    unfold len at 1. rewrite Nat2Z.id, firstn_app, Nat.sub_diag, firstn_all.
    cbn [firstn]. now rewrite app_nil_r.
Qed.

(** ** psdemuxer/pack/pes *)

(** X13.  [FlagData]: a PES header extension that parses takes exactly
    [3 + PES_header_data_length] bytes of the file, whatever optional
    fields it holds, and the bytes kept as stuffing are all [FF]. *)
Theorem flag_data_spans_header_data_length
    (h h' : Handle) (fd : FlagData.t) :
  (3 <= length (remaining h))%nat ->
  FlagData.__init__ h = (Ok fd, h') ->
  FlagData.data fd = firstn 3 (remaining h)
  /\ h_tell h'
     = h_tell h + 3 + FlagData.pes_header_data_length (FlagData.data fd)
  /\ Forall (eq xff) (FlagData.stuffing_bytes fd)
  /\ h_data h' = h_data h.
Proof. exact (PackMore.flag_data_span h h' fd). Qed.

Lemma flag_data_spans_header_data_length_witness :
  let h := mkHandle (ac3_file x80) 20 in
  let h' := mkHandle (ac3_file x80) 31 in
  let fd :=
    FlagData.mk [x81; x80; x08]
      (Some (FlagData.PTS (FlagPTS.mk [x21; x00; x01; x00; x01])))
      None None None None None None [xff; xff; xff] in
  ((3 <= length (remaining h))%nat /\ FlagData.__init__ h = (Ok fd, h'))
  /\ FlagData.data fd = firstn 3 (remaining h)
  /\ h_tell h'
     = h_tell h + 3 + FlagData.pes_header_data_length (FlagData.data fd)
  /\ Forall (eq xff) (FlagData.stuffing_bytes fd)
  /\ h_data h' = h_data h.
Proof.
  intros h h' fd.
  assert (H1 : (3 <= length (remaining h))%nat) by (cbn; lia).
  assert (H2 : FlagData.__init__ h = (Ok fd, h')) by reflexivity.
  split; [exact (conj H1 H2)|].
  exact (flag_data_spans_header_data_length h h' fd H1 H2).
Defined.

(** X14.  The lengths of a PES packet add up.  For every packet that
    [PESPacket] accepts (the file holding its six header bytes), the
    header length and the number of payload bytes it records sum to the
    full packet length [6 + PES_packet_length], the payload starts at a
    position that is not negative, and the cursor is left at the end of
    the packet, [pos + 6 + PES_packet_length]; the packet has the number
    of the class counter and the position of the cursor on entry. *)
Theorem pes_packet_lengths_add_up
    (pkt_no : Z) (h h' : Handle) (p : PESPacket.t) :
  (6 <= length (remaining h))%nat ->
  PESPacket.__init__ pkt_no h = (Ok p, h') ->
  PESPacket.no p = pkt_no
  /\ PESPacket.pos p = h_tell h
  /\ PESPacket.data p = firstn 6 (remaining h)
  /\ PESPacket.header_length p + PESPacket.pes_packet_data_bytes_n p
     = PESPacket.pes_full_packet_length (PESPacket.data p)
  /\ 0 <= PESPacket.pos p + PESPacket.header_length p
  /\ h_tell h'
     = PESPacket.pos p + PESPacket.pes_full_packet_length (PESPacket.data p)
  /\ h_data h' = h_data h.
Proof.
  intros H6 H.
  destruct (PackMore.pes_packet_shape pkt_no h h' p H6 H)
    as (Hno & Hpos & Hdata & Hsum & Hend & Hd & Hnn & _).
  repeat match goal with |- _ /\ _ => split end; try assumption.
  rewrite Hpos. exact Hend.
Qed.

Lemma pes_packet_lengths_add_up_witness :
  let h := mkHandle (ac3_file x80) 14 in
  let h' := mkHandle (ac3_file x80) 39 in
  let p := ac3_pes x80 in
  ((6 <= length (remaining h))%nat
   /\ PESPacket.__init__ 0 h = (Ok p, h'))
  /\ PESPacket.no p = 0
  /\ PESPacket.pos p = h_tell h
  /\ PESPacket.data p = firstn 6 (remaining h)
  /\ PESPacket.header_length p + PESPacket.pes_packet_data_bytes_n p
     = PESPacket.pes_full_packet_length (PESPacket.data p)
  /\ 0 <= PESPacket.pos p + PESPacket.header_length p
  /\ h_tell h'
     = PESPacket.pos p + PESPacket.pes_full_packet_length (PESPacket.data p)
  /\ h_data h' = h_data h.
Proof.
  intros h h' p.
  assert (H1 : (6 <= length (remaining h))%nat) by (cbn; lia).
  assert (H2 : PESPacket.__init__ 0 h = (Ok p, h')) by reflexivity.
  split; [exact (conj H1 H2)|].
  exact (pes_packet_lengths_add_up 0 h h' p H1 H2).
Defined.

(** X15.  Which packets have a PES header extension.  A packet that
    [PESPacket] accepts has no flag data, and a header of 6 bytes,
    exactly when its stream id is one of BC, BE, F0, F1, F8, FF; every
    other accepted packet (DSM-CC, F2, included: [DSMCC_stream] is the
    name of no stream id) has its flag data parsed from the three bytes
    after the packet header, and its header length is
    [9 + PES_header_data_length]. *)
Theorem pes_packet_header_by_stream_id
    (pkt_no : Z) (h h' : Handle) (p : PESPacket.t) :
  (9 <= length (remaining h))%nat ->
  PESPacket.__init__ pkt_no h = (Ok p, h') ->
  match PESPacket.flag_data p with
  | None =>
      In (PESPacket.stream_id p) plain_ids /\ PESPacket.header_length p = 6
  | Some fd =>
      ~ In (PESPacket.stream_id p) plain_ids
      /\ FlagData.data fd = firstn 3 (skipn 6 (remaining h))
      /\ PESPacket.header_length p
         = 9 + FlagData.pes_header_data_length (FlagData.data fd)
      /\ Forall (eq xff) (FlagData.stuffing_bytes fd)
  end.
Proof.
  intros H9 H.
  destruct (PackMore.pes_packet_shape pkt_no h h' p ltac:(lia) H)
    as (_ & _ & _ & _ & _ & _ & _ & Hplain & Hflag).
  destruct (in_dec Z.eq_dec (PESPacket.stream_id p) plain_ids) as [Hin|Hnin].
  - destruct (Hplain Hin) as (-> & Hl). auto.
  - destruct (Hflag Hnin) as (fd & hf & -> & Hfd & Hl).
    assert (Hrem : remaining (mkHandle (h_data h) (h_pos h + 6))
                   = skipn 6 (remaining h)).
    { unfold remaining. cbn [h_data h_pos].
      now rewrite Nat.add_comm, skipn_skipn. }
    destruct (PackMore.flag_data_span (mkHandle (h_data h) (h_pos h + 6))
                hf fd) as (Hdata & Hpos & Hff & _).
    { rewrite Hrem, length_skipn. lia. }
    { exact Hfd. }
    rewrite Hrem in Hdata. repeat split; try assumption.
    rewrite Hl, Hpos. unfold h_tell. cbn [h_pos]. lia.
Qed.

Lemma pes_packet_header_by_stream_id_witness :
  let h := mkHandle (ac3_file x80) 14 in
  let h' := mkHandle (ac3_file x80) 39 in
  let p := ac3_pes x80 in
  ((9 <= length (remaining h))%nat
   /\ PESPacket.__init__ 0 h = (Ok p, h'))
  /\ match PESPacket.flag_data p with
     | None =>
         In (PESPacket.stream_id p) plain_ids
         /\ PESPacket.header_length p = 6
     | Some fd =>
         ~ In (PESPacket.stream_id p) plain_ids
         /\ FlagData.data fd = firstn 3 (skipn 6 (remaining h))
         /\ PESPacket.header_length p
            = 9 + FlagData.pes_header_data_length (FlagData.data fd)
         /\ Forall (eq xff) (FlagData.stuffing_bytes fd)
     end.
Proof.
  intros h h' p.
  assert (H1 : (9 <= length (remaining h))%nat) by (cbn; lia).
  assert (H2 : PESPacket.__init__ 0 h = (Ok p, h')) by reflexivity.
  split; [exact (conj H1 H2)|].
  exact (pes_packet_header_by_stream_id 0 h h' p H1 H2).
Defined.

(** X16.  A [private_stream_2] packet (stream id BF) is never accepted:
    the id is excluded from the branch that parses flag data and is
    missing from the two others, so [PESPacket] raises [RuntimeError]
    once the six header bytes are read. *)
Theorem pes_packet_private_stream_2_raises (pkt_no : Z) (h : Handle) :
  (6 <= length (remaining h))%nat ->
  PESPacket.stream_id_ (firstn 6 (remaining h)) = 0xBF ->
  PESPacket.__init__ pkt_no h
  = (Raise RuntimeError, mkHandle (h_data h) (h_pos h + 6)).
Proof.
  intros H6 Hid. unfold PESPacket.__init__.
  unfold bind at 1, tell at 1. unfold bind at 1.
  rewrite (PackMore.readinto_ok 6 h H6).
  remember (firstn 6 (remaining h)) as data6 eqn:Hdata6.
  unfold bind at 1, tell at 1. cbv zeta.
  destruct (PackMore.is_stream_names (PESPacket.stream_id_ data6))
    as (E1 & E2 & E3 & E4 & E5 & E6 & E7 & E8 & E9).
  rewrite E1, E3, E4, E5, E6, E7, E8, E9, Hid. reflexivity.
Qed.

Lemma pes_packet_private_stream_2_raises_witness :
  let h := open_bytes [x00; x00; x01; xbf; x00; x02; xaa; xbb] in
  ((6 <= length (remaining h))%nat
   /\ PESPacket.stream_id_ (firstn 6 (remaining h)) = 0xBF)
  /\ PESPacket.__init__ 7 h
     = (Raise RuntimeError, mkHandle (h_data h) (h_pos h + 6)).
Proof.
  intros h.
  assert (H1 : (6 <= length (remaining h))%nat) by (cbn; lia).
  assert (H2 : PESPacket.stream_id_ (firstn 6 (remaining h)) = 0xBF)
    by reflexivity.
  split; [exact (conj H1 H2)|].
  exact (pes_packet_private_stream_2_raises 7 h H1 H2).
Defined.

(** ** psdemuxer/pack/__init__.py *)

(** X17.  The packets of a pack lie one after the other.  When
    [PackStartHeader] returns, the pack is at the position of the cursor
    on entry and holds the 14 header bytes; its packets are numbered
    from the class counter on, each starts where the one before ends
    ([pos + 6 + PES_packet_length]), the last one ends at the cursor
    left in the file; the first one follows the stuffing of the pack
    header when there is no system header, and the system header follows
    the stuffing when there is one. *)
Theorem pack_packets_are_chained
    (rounds : nat) (pkt_no : Z) (h h' : Handle) (psh : PackStartHeader.t) :
  PackStartHeader.__init__ rounds pkt_no h = Some (Ok psh, h') ->
  PackStartHeader.pos psh = h_tell h
  /\ PackStartHeader.data psh = firstn 14 (remaining h)
  /\ Layout.numbered pkt_no (PackStartHeader.pes_list psh)
  /\ exists first,
       Layout.chained first (PackStartHeader.pes_list psh) (h_tell h')
       /\ match PackStartHeader.system_header psh with
          | None =>
              first = h_tell h + 14
                      + PackStartHeader.pack_stuffing_length
                          (PackStartHeader.data psh)
          | Some sh =>
              SystemHeader.pos sh
              = h_tell h + 14
                + PackStartHeader.pack_stuffing_length
                    (PackStartHeader.data psh)
          end.
Proof.
  intros H.
  destruct (PackMore.pack_shape rounds pkt_no h h' psh H)
    as (_ & Hpos & Hdata & _ & Hnum & Hch & _).
  auto.
Qed.

Lemma pack_packets_are_chained_witness :
  let h := open_bytes three_channel_file in
  let h' := mkHandle three_channel_file 1613 in
  let psh := PackStartHeader.mk 0 pack_header None [three_channel_pes] in
  PackStartHeader.__init__ 1 0 h = Some (Ok psh, h')
  /\ PackStartHeader.pos psh = h_tell h
  /\ PackStartHeader.data psh = firstn 14 (remaining h)
  /\ Layout.numbered 0 (PackStartHeader.pes_list psh)
  /\ exists first,
       Layout.chained first (PackStartHeader.pes_list psh) (h_tell h')
       /\ match PackStartHeader.system_header psh with
          | None =>
              first = h_tell h + 14
                      + PackStartHeader.pack_stuffing_length
                          (PackStartHeader.data psh)
          | Some sh =>
              SystemHeader.pos sh
              = h_tell h + 14
                + PackStartHeader.pack_stuffing_length
                    (PackStartHeader.data psh)
          end.
Proof.
  intros h h' psh.
  assert (H1 : PackStartHeader.__init__ 1 0 h = Some (Ok psh, h'))
    by (vm_compute; reflexivity).
  split; [exact H1|].
  exact (pack_packets_are_chained 1 0 h h' psh H1).
Defined.

(** X18.  A pack that parses lies inside the file.  When
    [PackStartHeader] returns, the file held the 14 header bytes and is
    unchanged; every packet of the pack starts in the file, the payload
    it records (from [pos + header_length], [pes_packet_data_bytes_n]
    bytes) ends where the packet ends, and four bytes at least follow
    the packet; the cursor is left before four bytes that are a pack
    start code, the program end code, or no start code at all. *)
Theorem pack_packets_are_inside_the_file
    (rounds : nat) (pkt_no : Z) (h h' : Handle) (psh : PackStartHeader.t) :
  PackStartHeader.__init__ rounds pkt_no h = Some (Ok psh, h') ->
  (14 <= length (remaining h))%nat
  /\ h_data h' = h_data h
  /\ Forall (Layout.inside (len (h_data h))) (PackStartHeader.pes_list psh)
  /\ (4 <= length (remaining h'))%nat
  /\ (firstn 3 (remaining h') <> packet_start_code_prefix
      \/ firstn 4 (remaining h') = PackStartHeader.start_code
      \/ firstn 4 (remaining h') = program_end_code).
Proof.
  intros H.
  destruct (PackMore.pack_shape rounds pkt_no h h' psh H)
    as (H14 & _ & _ & Hd & _ & _ & Hin & H4 & Hstop).
  auto.
Qed.

Lemma pack_packets_are_inside_the_file_witness :
  let h := open_bytes (ac3_file x80) in
  let h' := mkHandle (ac3_file x80) 39 in
  let psh := PackStartHeader.mk 0 pack_header None [ac3_pes x80] in
  PackStartHeader.__init__ 1 0 h = Some (Ok psh, h')
  /\ (14 <= length (remaining h))%nat
  /\ h_data h' = h_data h
  /\ Forall (Layout.inside (len (h_data h))) (PackStartHeader.pes_list psh)
  /\ (4 <= length (remaining h'))%nat
  /\ (firstn 3 (remaining h') <> packet_start_code_prefix
      \/ firstn 4 (remaining h') = PackStartHeader.start_code
      \/ firstn 4 (remaining h') = program_end_code).
Proof.
  intros h h' psh.
  assert (H1 : PackStartHeader.__init__ 1 0 h = Some (Ok psh, h'))
    by reflexivity.
  split; [exact H1|].
  exact (pack_packets_are_inside_the_file 1 0 h h' psh H1).
Defined.

(** ** psdemuxer/__init__.py *)

(** X19.  [MPEG2ProgramStream.streams()]: once the constructor has
    returned, the dictionary of the streams has one entry for each
    stream id that occurs among the packets of the program stream, no id
    twice, and the packet kept for an id is the first packet of the file
    with that id. *)
Theorem program_stream_streams_are_first_packets
    (fuel rounds : nat) (pkt_no : Z) (h h' : Handle)
    (m : MPEG2ProgramStream.t) :
  MPEG2ProgramStream.__init__ fuel rounds pkt_no h = Some (Ok m, h') ->
  NoDup (map fst (MPEG2ProgramStream.streams m))
  /\ Forall (fun kv =>
               find (Demux.has_id (fst kv)) (MPEG2ProgramStream.packets m)
               = Some (snd kv)
               /\ PESPacket.stream_id (snd kv) = fst kv)
            (MPEG2ProgramStream.streams m)
  /\ Forall (fun p => In (PESPacket.stream_id p)
                         (map fst (MPEG2ProgramStream.streams m)))
            (MPEG2ProgramStream.packets m).
Proof.
  intros H.
  destruct (DemuxFacts.program_stream_shape fuel rounds pkt_no h h' m H)
    as (_ & Hf & _).
  pose proof (DemuxFacts.firsts_keys _ _ Hf) as Hkeys.
  destruct Hf as (Hnd & Hc & Hfind).
  split; [exact Hnd|]. split; [|exact Hkeys].
  apply Forall_forall. intros [id p] Hin. cbn [fst snd].
  pose proof (Hfind id p Hin) as Hp. split; [exact Hp|].
  apply find_some in Hp. destruct Hp as (_ & Hp).
  unfold Demux.has_id in Hp. now apply Z.eqb_eq.
Qed.

Lemma program_stream_streams_are_first_packets_witness :
  exists m h',
    MPEG2ProgramStream.__init__ 2 2 0 (open_bytes two_pack_file)
    = Some (Ok m, h')
    /\ map fst (MPEG2ProgramStream.streams m) = [0xE0; 0xBD; 0xBE]
    /\ NoDup (map fst (MPEG2ProgramStream.streams m))
    /\ Forall (fun kv =>
                 find (Demux.has_id (fst kv)) (MPEG2ProgramStream.packets m)
                 = Some (snd kv)
                 /\ PESPacket.stream_id (snd kv) = fst kv)
              (MPEG2ProgramStream.streams m)
    /\ Forall (fun p => In (PESPacket.stream_id p)
                           (map fst (MPEG2ProgramStream.streams m)))
              (MPEG2ProgramStream.packets m).
Proof.
  eexists. eexists.
  match goal with
  | |- ?A /\ _ => assert (H : A) by (vm_compute; reflexivity)
  end.
  split; [exact H|].
  split; [vm_compute; reflexivity|].
  exact (program_stream_streams_are_first_packets 2 2 0 _ _ _ H).
Defined.

(** X20.  [MPEG2ProgramStream.stream_iter]: on a program stream the
    constructor has returned, the iterator of a stream id yields exactly
    the packets of the file with that id, in file order, when there is
    one, and raises [ValueError] when there is none; a name stands for
    the stream id it is the name of, and a string that is the name of no
    stream id raises [ValueError]. *)
Theorem stream_iter_yields_the_stream
    (fuel rounds : nat) (pkt_no : Z) (h h' : Handle)
    (m : MPEG2ProgramStream.t) (key : MPEG2ProgramStream.stream_key) :
  MPEG2ProgramStream.__init__ fuel rounds pkt_no h = Some (Ok m, h') ->
  MPEG2ProgramStream.stream_iter m key
  = match (match key with
           | MPEG2ProgramStream.ById id => Some id
           | MPEG2ProgramStream.ByName name => get_stream_id_by_name name
           end) with
    | None => Raise ValueError
    | Some id =>
        if existsb (Demux.has_id id) (MPEG2ProgramStream.packets m)
        then Ok (filter (Demux.has_id id) (MPEG2ProgramStream.packets m))
        else Raise ValueError
    end.
Proof.
  intros H.
  destruct (DemuxFacts.program_stream_shape fuel rounds pkt_no h h' m H)
    as (_ & Hf & _).
  destruct key as [id|name].
  - apply DemuxFacts.stream_iter_by_id. exact Hf.
  - destruct (get_stream_id_by_name name) as [id|] eqn:E.
    + rewrite <- (DemuxFacts.stream_iter_by_id m id Hf).
      unfold MPEG2ProgramStream.stream_iter. now rewrite E.
    + unfold MPEG2ProgramStream.stream_iter. now rewrite E.
Qed.

Lemma stream_iter_yields_the_stream_witness :
  exists m h',
    MPEG2ProgramStream.__init__ 2 2 0 (open_bytes two_pack_file)
    = Some (Ok m, h')
    /\ MPEG2ProgramStream.stream_iter m
         (MPEG2ProgramStream.ByName "private_stream_1")
       = match get_stream_id_by_name "private_stream_1" with
         | None => Raise ValueError
         | Some id =>
             if existsb (Demux.has_id id) (MPEG2ProgramStream.packets m)
             then Ok (filter (Demux.has_id id)
                             (MPEG2ProgramStream.packets m))
             else Raise ValueError
         end.
Proof.
  eexists. eexists.
  match goal with
  | |- ?A /\ _ => assert (H : A) by (vm_compute; reflexivity)
  end.
  split; [exact H|].
  exact (stream_iter_yields_the_stream 2 2 0 _ _ _
           (MPEG2ProgramStream.ByName "private_stream_1") H).
Defined.

(** X21.  [len(m2ps)] counts every packet once: it is the number of
    packets of the program stream, and the sum, over the streams that
    [streams()] yields, of the number of packets that [stream_iter]
    yields for the stream. *)
Theorem program_stream_len_is_sum_over_streams
    (fuel rounds : nat) (pkt_no : Z) (h h' : Handle)
    (m : MPEG2ProgramStream.t) :
  MPEG2ProgramStream.__init__ fuel rounds pkt_no h = Some (Ok m, h') ->
  MPEG2ProgramStream.__len__ m = len (MPEG2ProgramStream.packets m)
  /\ MPEG2ProgramStream.__len__ m
     = fold_right
         (fun kv acc =>
            Demux.yielded
              (MPEG2ProgramStream.stream_iter m
                 (MPEG2ProgramStream.ById (fst kv))) + acc)
         0 (MPEG2ProgramStream.streams m).
Proof.
  intros H.
  destruct (DemuxFacts.program_stream_shape fuel rounds pkt_no h h' m H)
    as (_ & Hf & _).
  assert (Hlen : MPEG2ProgramStream.__len__ m
                 = len (MPEG2ProgramStream.packets m)).
  { unfold MPEG2ProgramStream.__len__. rewrite DemuxFacts.len_fold.
    reflexivity. }
  split; [exact Hlen|]. rewrite Hlen.
  pose proof (DemuxFacts.firsts_keys _ _ Hf) as Hkeys.
  pose proof Hf as (Hnd & Hc & _).
  rewrite <- (DemuxFacts.count_by_key _ _ Hnd Hkeys).
  unfold MPEG2ProgramStream.streams.
  assert (Hall : forall d,
             (forall kv, In kv d -> In kv (MPEG2ProgramStream.pes_types m)) ->
             fold_right
               (fun k acc =>
                  len (filter (Demux.has_id k)
                              (MPEG2ProgramStream.packets m)) + acc)
               0 (map fst d)
             = fold_right
                 (fun kv acc =>
                    Demux.yielded
                      (MPEG2ProgramStream.stream_iter m
                         (MPEG2ProgramStream.ById (fst kv))) + acc)
                 0 d).
  { induction d as [|kv d IH]; intros Hsub; [reflexivity|].
    cbn [map fold_right]. rewrite IH by (intros; apply Hsub; now right).
    f_equal. rewrite DemuxFacts.stream_iter_by_id by exact Hf.
    rewrite <- Hc. unfold MPEG2ProgramStream.contains.
    assert (He : existsb (fun kv0 => fst kv0 =? fst kv)
                         (MPEG2ProgramStream.pes_types m) = true).
    { apply existsb_exists. exists kv. split; [apply Hsub; now left|].
      apply Z.eqb_refl. }
    rewrite He. reflexivity. }
  apply Hall. auto.
Qed.

Lemma program_stream_len_is_sum_over_streams_witness :
  exists m h',
    MPEG2ProgramStream.__init__ 2 2 0 (open_bytes two_pack_file)
    = Some (Ok m, h')
    /\ MPEG2ProgramStream.__len__ m = 4
    /\ MPEG2ProgramStream.__len__ m = len (MPEG2ProgramStream.packets m)
    /\ MPEG2ProgramStream.__len__ m
       = fold_right
           (fun kv acc =>
              Demux.yielded
                (MPEG2ProgramStream.stream_iter m
                   (MPEG2ProgramStream.ById (fst kv))) + acc)
           0 (MPEG2ProgramStream.streams m).
Proof.
  eexists. eexists.
  match goal with
  | |- ?A /\ _ => assert (H : A) by (vm_compute; reflexivity)
  end.
  split; [exact H|].
  split; [vm_compute; reflexivity|].
  exact (program_stream_len_is_sum_over_streams 2 2 0 _ _ _ H).
Defined.

(** X22.  The program stream as a whole.  When the constructor returns,
    it has read one pack at least and stopped at the program end code,
    which it has not consumed; the file is unchanged; the packets of all
    the packs are numbered consecutively from the class counter on, in
    file order, and each lies inside the file with its payload ending
    where the packet ends. *)
Theorem program_stream_stops_at_end_code
    (fuel rounds : nat) (pkt_no : Z) (h h' : Handle)
    (m : MPEG2ProgramStream.t) :
  MPEG2ProgramStream.__init__ fuel rounds pkt_no h = Some (Ok m, h') ->
  MPEG2ProgramStream.pack_list m <> []
  /\ h_data h' = h_data h
  /\ firstn 4 (remaining h') = program_end_code
  /\ Layout.numbered pkt_no (MPEG2ProgramStream.packets m)
  /\ Forall (Layout.inside (len (h_data h))) (MPEG2ProgramStream.packets m).
Proof.
  intros H.
  destruct (DemuxFacts.program_stream_shape fuel rounds pkt_no h h' m H)
    as (Hne & _ & Hd & Hnum & Hin & Hend).
  auto.
Qed.

Lemma program_stream_stops_at_end_code_witness :
  exists m h',
    MPEG2ProgramStream.__init__ 2 2 0 (open_bytes two_pack_file)
    = Some (Ok m, h')
    /\ map PESPacket.pos (MPEG2ProgramStream.packets m) = [14; 27; 66; 91]
    /\ MPEG2ProgramStream.pack_list m <> []
    /\ h_data h' = h_data (open_bytes two_pack_file)
    /\ firstn 4 (remaining h') = program_end_code
    /\ Layout.numbered 0 (MPEG2ProgramStream.packets m)
    /\ Forall (Layout.inside (len (h_data (open_bytes two_pack_file))))
              (MPEG2ProgramStream.packets m).
Proof.
  eexists. eexists.
  match goal with
  | |- ?A /\ _ => assert (H : A) by (vm_compute; reflexivity)
  end.
  split; [exact H|].
  split; [vm_compute; reflexivity|].
  exact (program_stream_stops_at_end_code 2 2 0 _ _ _ H).
Defined.

(** ** psdemuxer/streams/reader.py *)

(** X23.  [StreamIdReader] has one segment for each packet that
    [stream_iter] yields, in the same order: the segment is on the file
    object given, starts at the payload of the packet
    ([pos + header_length]) and has the size of the payload.  The reader
    starts at position 0, its [total_size] is the sum of the payload
    sizes, and the virtual ranges of the segments follow one another from
    0 when no payload size is negative. *)
Theorem stream_id_reader_segments
    (m : MPEG2ProgramStream.t) (key : MPEG2ProgramStream.stream_key)
    (fhn : nat) (pkts : list PESPacket.t) (r : StreamReader.t) :
  StreamIdReader.__init__ m key fhn = Ok (pkts, r) ->
  MPEG2ProgramStream.stream_iter m key = Ok pkts
  /\ Forall2 (fun p s =>
                fh s = fhn
                /\ real_address s
                   = PESPacket.pos p + PESPacket.header_length p
                /\ data_size s = PESPacket.pes_packet_data_bytes_n p)
             pkts (StreamReader.segment_info r)
  /\ StreamReader.total_size r
     = fold_right (fun p acc => PESPacket.pes_packet_data_bytes_n p + acc)
                  0 pkts
  /\ StreamReader.position r = 0
  /\ StreamReader.offset r = 0
  /\ (Forall (fun p => 0 <= PESPacket.pes_packet_data_bytes_n p) pkts ->
      StreamReader.contiguous (StreamReader.segment_info r)).
Proof.
  intros H. unfold StreamIdReader.__init__ in H.
  destruct (MPEG2ProgramStream.stream_iter m key) as [l|e]; [|discriminate].
  cbn [obind] in H. injection H as <- <-.
  destruct (ReaderFacts.sid_for_pes_spec fhn l 0) as (H2 & Hc).
  split; [reflexivity|].
  split.
  { eapply Forall2_impl; [|exact H2]. cbn beta. intros p s (H1 & H3 & H4).
    repeat split; [exact H1|lia|lia]. }
  split.
  { rewrite StreamFacts.init_total_size.
    rewrite (ReaderFacts.segments_total fhn 0 l _ H2).
    clear. induction l as [|p l IH]; [reflexivity|].
    cbn [fold_right]. rewrite IH. lia. }
  split; [reflexivity|]. split; [reflexivity|].
  exact Hc.
Qed.

Lemma stream_id_reader_segments_witness :
  exists m h' pkts r,
    MPEG2ProgramStream.__init__ 2 2 0 (open_bytes two_pack_file)
    = Some (Ok m, h')
    /\ StreamIdReader.__init__ m
         (MPEG2ProgramStream.ByName "private_stream_1") 0
       = Ok (pkts, r)
    /\ map real_address (StreamReader.segment_info r) = [44; 83]
    /\ MPEG2ProgramStream.stream_iter m
         (MPEG2ProgramStream.ByName "private_stream_1") = Ok pkts
    /\ Forall2 (fun p s =>
                  fh s = 0%nat
                  /\ real_address s
                     = PESPacket.pos p + PESPacket.header_length p
                  /\ data_size s = PESPacket.pes_packet_data_bytes_n p)
               pkts (StreamReader.segment_info r)
    /\ StreamReader.total_size r
       = fold_right (fun p acc => PESPacket.pes_packet_data_bytes_n p + acc)
                    0 pkts
    /\ StreamReader.position r = 0
    /\ StreamReader.offset r = 0
    /\ (Forall (fun p => 0 <= PESPacket.pes_packet_data_bytes_n p) pkts ->
        StreamReader.contiguous (StreamReader.segment_info r)).
Proof.
  eexists. eexists. eexists. eexists.
  split; [vm_compute; reflexivity|].
  match goal with
  | |- ?A /\ _ => assert (H : A) by (vm_compute; reflexivity)
  end.
  split; [exact H|].
  split; [vm_compute; reflexivity|].
  exact (stream_id_reader_segments _
           (MPEG2ProgramStream.ByName "private_stream_1") 0%nat _ _ H).
Defined.

(** X24.  Demultiplexing a stream: when the program stream has been
    parsed from a file and a [StreamIdReader] is made for one of its
    streams on a file object with the same bytes, [read()] with a
    negative size (or none) returns the payloads of the packets of the
    stream, one after the other in file order, provided no packet of the
    stream has a negative payload size; the reader is then at
    [total_size] and the bytes of the files are unchanged. *)
Theorem stream_id_reader_reads_the_payloads
    (fuel rounds : nat) (pkt_no : Z) (h h' : Handle)
    (m : MPEG2ProgramStream.t) (key : MPEG2ProgramStream.stream_key)
    (fhn : nat) (fs : Files) (pkts : list PESPacket.t) (r : StreamReader.t)
    (size : Z) (rfuel : nat) :
  MPEG2ProgramStream.__init__ fuel rounds pkt_no h = Some (Ok m, h') ->
  StreamIdReader.__init__ m key fhn = Ok (pkts, r) ->
  h_data (fs fhn) = h_data h ->
  Forall (fun p => 0 <= PESPacket.pes_packet_data_bytes_n p) pkts ->
  size < 0 ->
  (length pkts <= rfuel)%nat ->
  exists r' fs',
    StreamReader.read rfuel size r fs
    = Some (Ok (flat_map (StreamIdReader.payload (h_data h)) pkts, r', fs'))
    /\ same_data fs fs'
    /\ StreamReader.tell r' = Ok (StreamReader.total_size r).
Proof.
  intros Hinit H Hdata Hn Hsize Hfuel.
  destruct (DemuxFacts.program_stream_shape fuel rounds pkt_no h h' m Hinit)
    as (_ & Hf & _ & _ & Hin & _).
  unfold StreamIdReader.__init__ in H.
  destruct (MPEG2ProgramStream.stream_iter m key) as [l|e] eqn:Hiter;
    [|discriminate].
  cbn [obind] in H. injection H as <- <-.
  destruct (ReaderFacts.stream_iter_ok m key l Hf Hiter) as (Hne & id & Hl).
  assert (Hinl : Forall (Layout.inside (len (h_data (fs fhn)))) l).
  { rewrite Hdata. apply Forall_forall. intros p Hp. rewrite Hl in Hp.
    apply filter_In in Hp. destruct Hp as (Hp & _).
    rewrite Forall_forall in Hin. now apply Hin. }
  destruct (ReaderFacts.sid_for_pes_spec fhn l 0) as (H2 & Hc).
  specialize (Hc Hn).
  set (segs := StreamIdReader.for_pes fhn l 0 []) in *.
  assert (Hn0 : Forall (fun p => 0 <= PESPacket.pes_packet_data_bytes_n p) l)
    by exact Hn.
  destruct (ReaderFacts.segments_content fs fhn 0 l segs H2 Hinl
              ltac:(lia) Hn0) as (Hb & Hcont).
  assert (Hsegs : segs <> []).
  { intros E. rewrite E in H2. inversion H2; subst. now apply Hne. }
  assert (Hlen : (length segs <= rfuel)%nat).
  { rewrite <- (Forall2_length H2). exact Hfuel. }
  destruct (ReaderFacts.read_all_from_start segs fs size rfuel Hsegs Hc Hb
              Hsize Hlen) as (r' & fs' & Hr & Hsame & Ht).
  exists r', fs'. rewrite Hr, Hcont, Hdata.
  split; [|split; [exact Hsame|]].
  - do 3 f_equal. apply (f_equal (fun d => (d, r'))).
    apply flat_map_ext. intros p. unfold StreamIdReader.payload.
    now rewrite Z.add_0_r.
  - rewrite Ht. f_equal. symmetry. apply StreamFacts.init_total_size.
Qed.

Lemma stream_id_reader_reads_the_payloads_witness :
  exists m h' pkts r,
    MPEG2ProgramStream.__init__ 2 2 0 (open_bytes two_pack_file)
    = Some (Ok m, h')
    /\ StreamIdReader.__init__ m
         (MPEG2ProgramStream.ByName "private_stream_1") 0
       = Ok (pkts, r)
    /\ Forall (fun p => 0 <= PESPacket.pes_packet_data_bytes_n p) pkts
    /\ (length pkts <= 2)%nat
    /\ flat_map (StreamIdReader.payload two_pack_file) pkts
       = [x80; x01; x00; x01; x0b; x77; x12; x34;
          x80; x01; x00; x01; x0b; x77; x12; x34]
    /\ exists r' fs',
         StreamReader.read 2 (-1) r (fun _ => open_bytes two_pack_file)
         = Some (Ok (flat_map
                       (StreamIdReader.payload
                          (h_data (open_bytes two_pack_file))) pkts,
                     r', fs'))
         /\ same_data (fun _ => open_bytes two_pack_file) fs'
         /\ StreamReader.tell r' = Ok (StreamReader.total_size r).
Proof.
  eexists. eexists. eexists. eexists.
  match goal with
  | |- ?A /\ _ => assert (H1 : A) by (vm_compute; reflexivity)
  end.
  split; [exact H1|].
  match goal with
  | |- ?A /\ _ => assert (H2 : A) by (vm_compute; reflexivity)
  end.
  split; [exact H2|].
  match goal with
  | |- ?A /\ _ =>
      assert (Hn : A) by (repeat constructor; vm_compute; discriminate)
  end.
  split; [exact Hn|].
  match goal with
  | |- ?A /\ _ => assert (Hl : A) by (vm_compute; lia)
  end.
  split; [exact Hl|].
  split; [vm_compute; reflexivity|].
  exact (stream_id_reader_reads_the_payloads 2 2 0
           (open_bytes two_pack_file) _ _
           (MPEG2ProgramStream.ByName "private_stream_1") 0%nat
           (fun _ => open_bytes two_pack_file) _ _ (-1) 2%nat
           H1 H2 eq_refl Hn ltac:(lia) Hl).
Defined.

(** ** psdemuxer/streams/private/dvdac3.py *)

(** X25.  [DVDAC3Stream]: when the constructor returns, the file object
    is as it was on entry, every packet given is a [private_stream_1]
    packet with a header of 0x11 bytes, and there is one segment for each
    packet, in order, that starts four bytes into the payload and is four
    bytes shorter than it.  When every payload has four bytes at least,
    the segments are contiguous from 0 and, the packets lying inside the
    file, the virtual stream is the payloads without their first four
    bytes, one after the other. *)
Theorem dvdac3_stream_skips_the_substream_header
    (fhn : nat) (pkts : list PESPacket.t) (h h' : Handle)
    (r : StreamReader.t) :
  DVDAC3Stream.__init__ fhn pkts h = (Ok r, h') ->
  h' = h
  /\ Forall (fun p => PESPacket.stream_id p = 0xBD
                      /\ PESPacket.header_length p = 0x11) pkts
  /\ Forall2 (fun p s =>
                fh s = fhn
                /\ real_address s = PESPacket.pos p + 0x11 + 4
                /\ data_size s = PESPacket.pes_packet_data_bytes_n p - 4)
             pkts (StreamReader.segment_info r)
  /\ (Forall (fun p => 4 <= PESPacket.pes_packet_data_bytes_n p) pkts ->
      StreamReader.contiguous (StreamReader.segment_info r)
      /\ forall fs : Files,
           h_data (fs fhn) = h_data h ->
           Forall (Layout.inside (len (h_data h))) pkts ->
           StreamReader.backed fs (StreamReader.segment_info r)
           /\ StreamReader.content fs (StreamReader.segment_info r)
              = flat_map (fun p =>
                            skipn 4 (StreamIdReader.payload (h_data h) p))
                         pkts).
Proof.
  intros H. unfold DVDAC3Stream.__init__ in H.
  apply FlagFacts.bind_ok in H. destruct H as (segs & h1 & Hfor & H).
  unfold ret in H. injection H as <- <-.
  destruct (AC3StreamFacts.dvd_for_pes_ok fhn pkts true 0 h segs h1 Hfor)
    as (-> & Hall & H2 & Hc).
  split; [reflexivity|]. split; [exact Hall|].
  split.
  { clear - H2 Hall. induction H2 as [|p s pkts segs Hps H2 IH];
      [constructor|].
    apply Forall_cons_iff in Hall. destruct Hall as ((_ & Hhl) & Hall).
    constructor; [|apply IH; exact Hall].
    destruct Hps as (H1 & H3 & H4). rewrite Hhl in H3. auto. }
  intros Hn. split; [exact (Hc Hn)|].
  intros fs Hdata Hin. rewrite <- Hdata in Hin.
  destruct (ReaderFacts.segments_content fs fhn 4 pkts segs H2 Hin
              ltac:(lia) Hn) as (Hb & Hcont).
  split; [exact Hb|].
  change (StreamReader.segment_info (StreamReader.__init__ segs)) with segs.
  rewrite Hcont, Hdata. clear - Hn Hin.
  induction pkts as [|p pkts IH]; [reflexivity|].
  apply Forall_cons_iff in Hn. destruct Hn as (Hp & Hn).
  apply Forall_cons_iff in Hin. destruct Hin as ((_ & Ha & _) & Hin).
  cbn [flat_map]. rewrite (IH Hn Hin). f_equal.
  unfold StreamIdReader.payload.
  rewrite !StreamMore.py_slice_nonneg by lia.
  rewrite skipn_firstn_comm, skipn_skipn. f_equal; [lia|f_equal; lia].
Qed.

Lemma dvdac3_stream_skips_the_substream_header_witness :
  exists r,
    DVDAC3Stream.__init__ 0 [ac3_pes x80; ac3_pes x80]
      (open_bytes (ac3_file x80))
    = (Ok r, open_bytes (ac3_file x80))
    /\ map real_address (StreamReader.segment_info r) = [35; 35]
    /\ map virtual_start (StreamReader.segment_info r) = [0; 4]
    /\ Forall (fun p => PESPacket.stream_id p = 0xBD
                        /\ PESPacket.header_length p = 0x11)
              [ac3_pes x80; ac3_pes x80]
    /\ Forall2 (fun p s =>
                  fh s = 0%nat
                  /\ real_address s = PESPacket.pos p + 0x11 + 4
                  /\ data_size s = PESPacket.pes_packet_data_bytes_n p - 4)
               [ac3_pes x80; ac3_pes x80] (StreamReader.segment_info r).
Proof.
  eexists.
  match goal with
  | |- ?A /\ _ => assert (H : A) by (vm_compute; reflexivity)
  end.
  split; [exact H|].
  split; [vm_compute; reflexivity|].
  split; [vm_compute; reflexivity|].
  pose proof (dvdac3_stream_skips_the_substream_header 0%nat _ _ _ _ H)
    as (_ & Hall & H2 & _).
  split; [exact Hall|exact H2].
Defined.
